(** * Class registration and slot booking: a model of [main.go] and its properties

    The program keeps two package-level slices ([classes], [bookings]) and two
    counters ([classId], [bookingId]) behind one mutex, and mirrors each slice
    to a JSON file after every append.  Its two HTTP handlers, [classHandler]
    and [bookingHandler], are modelled here as functions from the package state
    to the new state and the response written.  Both handlers touch the shared
    state only between [mutex.Lock()] and the deferred [mutex.Unlock()], so a
    handler's critical section is one transition of the state; the last part of
    the file also runs the handlers as interleaved threads with the mutex made
    explicit. *)

From Stdlib Require Import ZArith List String Ascii Bool Lia Sorted.
Import ListNotations.

Local Open Scope string_scope.
Local Open Scope list_scope.
Local Open Scope Z_scope.

(** ** Go's [int] *)

(** [int] is 64 bits wide on the platforms the server is built for; [++] and
    [-] wrap around in two's complement. *)
Module GoInt.

Definition minInt : Z := - 2 ^ 63.
Definition maxInt : Z := 2 ^ 63 - 1.

Definition wrap (z : Z) : Z := (z + 2 ^ 63) mod 2 ^ 64 - 2 ^ 63.

Definition fits (z : Z) : bool := (minInt <=? z) && (z <=? maxInt).

Definition add (a b : Z) : Z := wrap (a + b).
Definition sub (a b : Z) : Z := wrap (a - b).

End GoInt.

(** ** The [time] package, as far as the handlers use it

    [time.Parse("02-01-2006", s)] splits the layout into the chunks
    [stdZeroDay], ["-"], [stdZeroMonth], ["-"], [stdLongYear]; the functions
    below follow its helpers [isDigit], [getnum], [skip], [atoi], [isLeap] and
    [daysIn].  The result is a midnight in UTC, kept here as its calendar
    date. *)
Module time.

Record Time : Type := Date { Year : Z; Month : Z; Day : Z }.

(** The zero [Time{}], which [Parse] returns next to a non-nil error:
    January 1, year 1, 00:00:00 UTC. *)
Definition zero : Time := Date 1 1 1.

(** [t.Before(u)]: the instant [t] is earlier than [u].  For midnights in UTC
    this is the order of the calendar dates. *)
Definition Before (t u : Time) : bool :=
  (Year t <? Year u)
  || ((Year t =? Year u)
      && ((Month t <? Month u)
          || ((Month t =? Month u) && (Day t <? Day u)))).

Definition After (t u : Time) : bool := Before u t.

Definition isDigitByte (c : ascii) : bool :=
  let n := N_of_ascii c in ((48 <=? n) && (n <=? 57))%N.

Definition digitVal (c : ascii) : Z := Z.of_N (N_of_ascii c) - 48.

(** [isDigit(s, i)]: [i] is in range and [s[i]] is a decimal digit. *)
Definition isDigit (s : string) (i : nat) : bool :=
  match String.get i s with
  | Some c => isDigitByte c
  | None => false
  end.

(** [getnum(s, fixed)]: a one- or two-digit number at the front of [s]; with
    [fixed] it must have two digits. *)
Definition getnum (s : string) (fixed : bool) : option (Z * string) :=
  if negb (isDigit s 0) then None
  else if negb (isDigit s 1) then
    if fixed then None
    else match s with
         | String c0 rest => Some (digitVal c0, rest)
         | EmptyString => None
         end
  else match s with
       | String c0 (String c1 rest) => Some (digitVal c0 * 10 + digitVal c1, rest)
       | _ => None
       end.

(** [skip(value, prefix)] for a prefix without blanks (the layout has none):
    [value] must start with [prefix], which is removed. *)
Fixpoint skip (value prefix : string) {struct prefix} : option string :=
  match prefix with
  | EmptyString => Some value
  | String p prefix' =>
    match value with
    | String v value' => if Ascii.eqb v p then skip value' prefix' else None
    | EmptyString => None
    end
  end.

(** [leadingInt(s)]: the decimal digits at the front of [s] and the rest.
    (Its overflow guard needs more than eighteen digits; [Parse] hands it
    four bytes.) *)
Fixpoint leadingInt (s : string) (x : Z) : Z * string :=
  match s with
  | String c rest =>
    if isDigitByte c then leadingInt rest (x * 10 + digitVal c) else (x, s)
  | EmptyString => (x, s)
  end.

(** [atoi(s)]: an optional sign, then digits up to the end of [s]. *)
Definition atoi (s : string) : option Z :=
  let '(neg, s) :=
    match s with
    | String c rest =>
      if Ascii.eqb c "-" then (true, rest)
      else if Ascii.eqb c "+" then (false, rest)
      else (false, s)
    | EmptyString => (false, s)
    end in
  let '(q, rem) := leadingInt s 0 in
  if (String.length rem =? 0)%nat then Some (if neg then - q else q) else None.

Definition isLeap (year : Z) : bool :=
  (year mod 4 =? 0) && (negb (year mod 100 =? 0) || (year mod 400 =? 0)).

(** [daysBefore[m] - daysBefore[m-1]], the length of month [m] in a
    non-leap year. *)
Definition daysInCommon (m : Z) : Z :=
  if (m =? 2) then 28
  else if (m =? 4) || (m =? 6) || (m =? 9) || (m =? 11) then 30
  else 31.

Definition daysIn (m year : Z) : Z :=
  if (m =? 2) && isLeap year then 29 else daysInCommon m.

(** [time.Parse("02-01-2006", value)]; [None] stands for a non-nil error. *)
Definition Parse (value : string) : option Time :=
  (* chunk "02": stdZeroDay *)
  match getnum value true with
  | None => None
  | Some (day, value) =>
  (* chunk "-01": the prefix, then stdZeroMonth *)
  match skip value "-" with
  | None => None
  | Some value =>
  match getnum value true with
  | None => None
  | Some (month, value) =>
  if (month <=? 0) || (12 <? month) then None (* month out of range *) else
  (* chunk "-2006": the prefix, then stdLongYear *)
  match skip value "-" with
  | None => None
  | Some value =>
  if (String.length value <? 4)%nat || negb (isDigit value 0) then None else
  match atoi (substring 0 4 value) with
  | None => None
  | Some year =>
  let value := substring 4 (String.length value - 4) value in
  (* end of the layout *)
  if negb (String.length value =? 0)%nat then None (* extra text *) else
  if (day <? 1) || (daysIn month year <? day) then None (* day out of range *) else
  Some (Date year month day)
  end end end end end.

End time.

(** ** The data of [main.go] *)

Record Class : Type := mkClass {
  Class_ID : Z;
  Class_ClassName : string;
  Class_StartDate : string;
  Class_EndDate : string;
  Class_Capacity : Z
}.

Record Booking : Type := mkBooking {
  Booking_ID : Z;
  Booking_MemberName : string;
  Booking_Date : string;
  Booking_ClassName : string
}.

(** The two files acting as a database, by the slice each one holds; an absent
    or empty file holds nothing. *)
Record Files : Type := mkFiles {
  classes_json : list Class;
  bookings_json : list Booking
}.

(** The package-level variables (the mutex apart) and the files. *)
Record World : Type := mkWorld {
  classes : list Class;
  bookings : list Booking;
  classId : Z;
  bookingId : Z;
  files : Files
}.

(** [main]: the counters start from their initialisers, the slices are read
    from the files. *)
Definition main (disk : Files) : World :=
  {| classes := classes_json disk;
     bookings := bookings_json disk;
     classId := 1;
     bookingId := 1;
     files := disk |}.

Definition noFiles : Files := {| classes_json := []; bookings_json := [] |}.

(** ** Requests and responses *)

(** A request: its method and its body.  [Body] is the JSON object read
    against the struct's fields (absent fields are zero values), [None] when
    the body is not such an object.  JSON numbers are unbounded. *)
Record Request (T : Type) : Type := mkRequest {
  Method : string;
  Body : option T
}.
Arguments mkRequest {T}.
Arguments Method {T}.
Arguments Body {T}.

(** [json.NewDecoder(r.Body).Decode(&v)]: a number that does not fit [int] is
    an error. *)
Definition DecodeClass (body : option Class) : option Class :=
  match body with
  | Some c =>
    if GoInt.fits (Class_ID c) && GoInt.fits (Class_Capacity c) then Some c else None
  | None => None
  end.

Definition DecodeBooking (body : option Booking) : option Booking :=
  match body with
  | Some b => if GoInt.fits (Booking_ID b) then Some b else None
  | None => None
  end.

Inductive Data : Type :=
| ClassData (class : Class)
| BookingData (booking : Booking) (availableSlots : Z).

(** What a handler writes: [errorResponse] or [successResponse]. *)
Inductive Response : Type :=
| errorResponse (statusCode : Z) (message : string)
| successResponse (statusCode : Z) (message : string) (data : Data).

Definition StatusCreated : Z := 201.
Definition StatusBadRequest : Z := 400.
Definition StatusMethodNotAllowed : Z := 405.
Definition StatusInternalServerError : Z := 500.

(** ** Persistence *)

(** [writeDataToJsonFile]: whether [os.WriteFile] succeeds is decided outside
    the program ([ok]).  A successful write replaces the file's content.  A
    failed one is taken to leave the file as it was; [os.WriteFile] opens
    the file with [O_TRUNC], so a write that fails after the open may as
    well leave it empty or with a part of the data.  What a file holds after
    a failed write is therefore not to be read off this definition, and no
    property below states it: the files are read only after successful
    writes. *)
Definition writeDataToJsonFile {T : Type} (ok : bool) (file data : list T)
  : list T * bool :=
  if ok then (data, true) else (file, false).

(** ** [classHandler] *)

Definition classHandler (write_ok : bool) (r : Request Class) (w : World)
  : World * Response :=
  if negb (String.eqb (Method r) "POST") then
    (w, errorResponse StatusMethodNotAllowed "Invalid request method")
  else
  match DecodeClass (Body r) with
  | None => (w, errorResponse StatusBadRequest "Invalid request body")
  | Some newClass =>
  if String.eqb (Class_ClassName newClass) ""
     || String.eqb (Class_StartDate newClass) ""
     || String.eqb (Class_EndDate newClass) ""
     || (Class_Capacity newClass <=? 0) then
    (w, errorResponse StatusBadRequest "Invalid data format")
  else
  match time.Parse (Class_StartDate newClass) with
  | None =>
    (w, errorResponse StatusBadRequest "Invalid startDate format, use DD-MM-YYYY")
  | Some startDate =>
  match time.Parse (Class_EndDate newClass) with
  | None =>
    (w, errorResponse StatusBadRequest "Invalid endDate format, use DD-MM-YYYY")
  | Some endDate =>
  if time.Before endDate startDate then
    (w, errorResponse StatusBadRequest "endDate must be after startDate")
  else
  (* mutex.Lock() *)
  let newClass :=
    {| Class_ID := classId w;
       Class_ClassName := Class_ClassName newClass;
       Class_StartDate := Class_StartDate newClass;
       Class_EndDate := Class_EndDate newClass;
       Class_Capacity := Class_Capacity newClass |} in
  let classId' := GoInt.add (classId w) 1 in
  let classes' := classes w ++ [newClass] in
  let '(file, written) :=
    writeDataToJsonFile write_ok (classes_json (files w)) classes' in
  let w' :=
    {| classes := classes';
       bookings := bookings w;
       classId := classId';
       bookingId := bookingId w;
       files := {| classes_json := file; bookings_json := bookings_json (files w) |} |} in
  if negb written then
    (w', errorResponse StatusInternalServerError "Failed to save class data")
  else
    (w', successResponse StatusCreated "Class created successfully" (ClassData newClass))
  end end end.

(** ** [bookingHandler] *)

(** [time.Parse] with the error dropped ([startDate, _ := ...]): the zero time
    on failure. *)
Definition ParseIgnoringError (value : string) : time.Time :=
  match time.Parse value with
  | Some t => t
  | None => time.zero
  end.

(** The inclusive range test of the lookup loop. *)
Definition activeOn (class : Class) (bookingDate : time.Time) : bool :=
  let startDate := ParseIgnoringError (Class_StartDate class) in
  let endDate := ParseIgnoringError (Class_EndDate class) in
  negb (time.Before bookingDate startDate) && negb (time.After bookingDate endDate).

(** The loop that sets [classFound]: the first class of the slice with the
    booking's class name whose range holds the booking date; [None] is the nil
    pointer. *)
Fixpoint classFound (classes : list Class) (newBooking : Booking)
  (bookingDate : time.Time) : option Class :=
  match classes with
  | [] => None
  | class :: rest =>
    if String.eqb (Class_ClassName class) (Booking_ClassName newBooking) then
      if activeOn class bookingDate then Some class
      else classFound rest newBooking bookingDate
    else classFound rest newBooking bookingDate
  end.

(** The loop that counts [currentBookings], from the counter's value so far. *)
Fixpoint currentBookings (bookings : list Booking) (newBooking : Booking)
  (count : Z) : Z :=
  match bookings with
  | [] => count
  | booking :: rest =>
    if String.eqb (Booking_ClassName booking) (Booking_ClassName newBooking)
       && String.eqb (Booking_Date booking) (Booking_Date newBooking)
    then currentBookings rest newBooking (GoInt.add count 1)
    else currentBookings rest newBooking count
  end.

Definition bookingHandler (write_ok : bool) (r : Request Booking) (w : World)
  : World * Response :=
  if negb (String.eqb (Method r) "POST") then
    (w, errorResponse StatusMethodNotAllowed "Invalid request method")
  else
  match DecodeBooking (Body r) with
  | None => (w, errorResponse StatusBadRequest "Invalid request body")
  | Some newBooking =>
  if String.eqb (Booking_MemberName newBooking) ""
     || String.eqb (Booking_Date newBooking) ""
     || String.eqb (Booking_ClassName newBooking) "" then
    (w, errorResponse StatusBadRequest "Invalid field format")
  else
  match time.Parse (Booking_Date newBooking) with
  | None =>
    (w, errorResponse StatusBadRequest "Invalid date format, use DD-MM-YYYY")
  | Some bookingDate =>
  (* mutex.Lock() *)
  match classFound (classes w) newBooking bookingDate with
  | None =>
    (w, errorResponse StatusBadRequest "Class is not available on the specified date")
  | Some class =>
  let availableSlots :=
    GoInt.sub (Class_Capacity class) (currentBookings (bookings w) newBooking 0) in
  if availableSlots <=? 0 then
    (w, errorResponse StatusBadRequest
          "No available slots for the selected class on this date")
  else
  let newBooking :=
    {| Booking_ID := bookingId w;
       Booking_MemberName := Booking_MemberName newBooking;
       Booking_Date := Booking_Date newBooking;
       Booking_ClassName := Booking_ClassName newBooking |} in
  let bookingId' := GoInt.add (bookingId w) 1 in
  let bookings' := bookings w ++ [newBooking] in
  let '(file, written) :=
    writeDataToJsonFile write_ok (bookings_json (files w)) bookings' in
  let w' :=
    {| classes := classes w;
       bookings := bookings';
       classId := classId w;
       bookingId := bookingId';
       files := {| classes_json := classes_json (files w); bookings_json := file |} |} in
  if negb written then
    (w', errorResponse StatusInternalServerError "Failed to save booking data")
  else
    (w', successResponse StatusCreated "Booking successful"
           (BookingData newBooking (GoInt.sub availableSlots 1)))
  end end end.

(** ** The operations and error kinds of the specification *)

(** A call of one of the two operations, with the outcome of the file write it
    may come to. *)
Inductive Call : Type :=
| RegisterClass (r : Request Class) (write_ok : bool)
| CreateBooking (r : Request Booking) (write_ok : bool).

Definition serve (w : World) (c : Call) : World * Response :=
  match c with
  | RegisterClass r write_ok => classHandler write_ok r w
  | CreateBooking r write_ok => bookingHandler write_ok r w
  end.

(** The calls served one after the other (the order in which they take the
    mutex), with the responses in that order. *)
Fixpoint run (w : World) (calls : list Call) : World * list Response :=
  match calls with
  | [] => (w, [])
  | c :: rest =>
    let '(w1, resp) := serve w c in
    let '(w2, resps) := run w1 rest in
    (w2, resp :: resps)
  end.

(** The process stops and is started again on the files it left. *)
Definition restart (w : World) : World := main (files w).

Definition InvalidFieldsClass : Response :=
  errorResponse StatusBadRequest "Invalid data format".
Definition InvalidFieldsBooking : Response :=
  errorResponse StatusBadRequest "Invalid field format".
Definition InvalidDateFormatStart : Response :=
  errorResponse StatusBadRequest "Invalid startDate format, use DD-MM-YYYY".
Definition InvalidDateFormatEnd : Response :=
  errorResponse StatusBadRequest "Invalid endDate format, use DD-MM-YYYY".
Definition InvalidDateFormatBooking : Response :=
  errorResponse StatusBadRequest "Invalid date format, use DD-MM-YYYY".
Definition InvalidRange : Response :=
  errorResponse StatusBadRequest "endDate must be after startDate".
Definition ClassUnavailable : Response :=
  errorResponse StatusBadRequest "Class is not available on the specified date".
Definition CapacityExceeded : Response :=
  errorResponse StatusBadRequest
    "No available slots for the selected class on this date".
Definition PersistenceFailureClass : Response :=
  errorResponse StatusInternalServerError "Failed to save class data".
Definition PersistenceFailureBooking : Response :=
  errorResponse StatusInternalServerError "Failed to save booking data".

(** The number of stored bookings for a class name and a date text. *)
Definition CountFor (className date : string) (bs : list Booking) : nat :=
  List.length
    (filter (fun b => String.eqb (Booking_ClassName b) className
                      && String.eqb (Booking_Date b) date) bs).

(** A POST request carrying [v]. *)
Definition post {T : Type} (v : T) : Request T :=
  {| Method := "POST"; Body := Some v |}.

(** ** Vocabulary for the statements *)

(** The parsed range of a stored class, as the lookup loop computes it. *)
Definition startOf (c : Class) : time.Time := ParseIgnoringError (Class_StartDate c).
Definition endOf (c : Class) : time.Time := ParseIgnoringError (Class_EndDate c).

(** A class request that passes every check made before the mutex is taken:
    it decodes to [c], whose dates parse to [s] and [e]. *)
Definition classRequestOk (r : Request Class) (c : Class) (s e : time.Time) : Prop :=
  Method r = "POST" /\
  DecodeClass (Body r) = Some c /\
  Class_ClassName c <> "" /\ Class_StartDate c <> "" /\ Class_EndDate c <> "" /\
  0 < Class_Capacity c /\
  time.Parse (Class_StartDate c) = Some s /\
  time.Parse (Class_EndDate c) = Some e /\
  time.Before e s = false.

(** A booking request that passes every check made before the mutex is
    taken: it decodes to [b], whose date parses to [d]. *)
Definition bookingRequestOk (r : Request Booking) (b : Booking) (d : time.Time) : Prop :=
  Method r = "POST" /\
  DecodeBooking (Body r) = Some b /\
  Booking_MemberName b <> "" /\ Booking_Date b <> "" /\ Booking_ClassName b <> "" /\
  time.Parse (Booking_Date b) = Some d.

(** The class as stored: the request's fields under the identifier [id]. *)
Definition storedClass (id : Z) (c : Class) : Class :=
  {| Class_ID := id;
     Class_ClassName := Class_ClassName c;
     Class_StartDate := Class_StartDate c;
     Class_EndDate := Class_EndDate c;
     Class_Capacity := Class_Capacity c |}.

Definition storedBooking (id : Z) (b : Booking) : Booking :=
  {| Booking_ID := id;
     Booking_MemberName := Booking_MemberName b;
     Booking_Date := Booking_Date b;
     Booking_ClassName := Booking_ClassName b |}.

(** The state after [classHandler] has appended [c]. *)
Definition withClass (write_ok : bool) (c : Class) (w : World) : World :=
  {| classes := classes w ++ [storedClass (classId w) c];
     bookings := bookings w;
     classId := GoInt.add (classId w) 1;
     bookingId := bookingId w;
     files :=
       {| classes_json :=
            if write_ok then classes w ++ [storedClass (classId w) c]
            else classes_json (files w);
          bookings_json := bookings_json (files w) |} |}.

(** The state after [bookingHandler] has appended [b]. *)
Definition withBooking (write_ok : bool) (b : Booking) (w : World) : World :=
  {| classes := classes w;
     bookings := bookings w ++ [storedBooking (bookingId w) b];
     classId := classId w;
     bookingId := GoInt.add (bookingId w) 1;
     files :=
       {| classes_json := classes_json (files w);
          bookings_json :=
            if write_ok then bookings w ++ [storedBooking (bookingId w) b]
            else bookings_json (files w) |} |}.

(** The slots the handler computes for [b] in [w] against the class [c]. *)
Definition slotsFor (c : Class) (b : Booking) (w : World) : Z :=
  GoInt.sub (Class_Capacity c) (currentBookings (bookings w) b 0).

(** Every outcome of [classHandler]. *)
Inductive classOutcome (ok : bool) (r : Request Class) (w : World)
  : World * Response -> Prop :=
| class_rejected msg :
    In msg ["Invalid request method"; "Invalid request body"; "Invalid data format";
            "Invalid startDate format, use DD-MM-YYYY";
            "Invalid endDate format, use DD-MM-YYYY";
            "endDate must be after startDate"] ->
    classOutcome ok r w
      (w, errorResponse (if String.eqb msg "Invalid request method"
                         then StatusMethodNotAllowed else StatusBadRequest) msg)
| class_appended c s e :
    classRequestOk r c s e ->
    classOutcome ok r w
      (withClass ok c w,
       if ok then successResponse StatusCreated "Class created successfully"
                    (ClassData (storedClass (classId w) c))
       else PersistenceFailureClass).

(** Every outcome of [bookingHandler]. *)
Inductive bookingOutcome (ok : bool) (r : Request Booking) (w : World)
  : World * Response -> Prop :=
| booking_invalid resp :
    In resp [errorResponse StatusMethodNotAllowed "Invalid request method";
             errorResponse StatusBadRequest "Invalid request body";
             InvalidFieldsBooking; InvalidDateFormatBooking] ->
    bookingOutcome ok r w (w, resp)
| booking_unavailable b d :
    bookingRequestOk r b d ->
    classFound (classes w) b d = None ->
    bookingOutcome ok r w (w, ClassUnavailable)
| booking_full b d c :
    bookingRequestOk r b d ->
    classFound (classes w) b d = Some c ->
    slotsFor c b w <= 0 ->
    bookingOutcome ok r w (w, CapacityExceeded)
| booking_admitted b d c :
    bookingRequestOk r b d ->
    classFound (classes w) b d = Some c ->
    0 < slotsFor c b w ->
    bookingOutcome ok r w
      (withBooking ok b w,
       if ok then successResponse StatusCreated "Booking successful"
                    (BookingData (storedBooking (bookingId w) b)
                       (GoInt.sub (slotsFor c b w) 1))
       else PersistenceFailureBooking).

(** The data model the handlers maintain: a stored class has a positive
    capacity (an [int]), and the bookings slice, like every slice, has an
    [int] for its length. *)
Definition dataModel (w : World) : Prop :=
  Forall (fun c => 0 < Class_Capacity c <= GoInt.maxInt) (classes w) /\
  Z.of_nat (List.length (bookings w)) <= GoInt.maxInt.

(** ** The date layout, as the specification words it *)

(** The fields of a text in the layout DD-MM-YYYY: two digits, a hyphen, two
    digits, a hyphen, four digits and nothing else; [None] for any other
    text.  The triple is (day, month, year). *)
Definition layoutFields (s : string) : option (Z * Z * Z) :=
  match s with
  | String d1 (String d2 (String h1 (String m1 (String m2 (String h2
      (String y1 (String y2 (String y3 (String y4 EmptyString))))))))) =>
    if time.isDigitByte d1 && time.isDigitByte d2 && Ascii.eqb h1 "-"
       && time.isDigitByte m1 && time.isDigitByte m2 && Ascii.eqb h2 "-"
       && time.isDigitByte y1 && time.isDigitByte y2
       && time.isDigitByte y3 && time.isDigitByte y4
    then Some (time.digitVal d1 * 10 + time.digitVal d2,
               time.digitVal m1 * 10 + time.digitVal m2,
               ((time.digitVal y1 * 10 + time.digitVal y2) * 10
                + time.digitVal y3) * 10 + time.digitVal y4)
    else None
  | _ => None
  end.

Definition inLayout (s : string) : bool :=
  match layoutFields s with
  | Some _ => true
  | None => false
  end.

(** [ParseDate]: a text in the layout that names a day of the calendar. *)
Definition ParseDate (s : string) : option time.Time :=
  match layoutFields s with
  | Some (d, m, y) =>
    if (1 <=? m) && (m <=? 12) && (1 <=? d) && (d <=? time.daysIn m y)
    then Some (time.Date y m d)
    else None
  | None => None
  end.

(** ** Identifiers handed out *)



Definition writeOk (c : Call) : bool :=
  match c with
  | RegisterClass _ ok => ok
  | CreateBooking _ ok => ok
  end.

(** The identifiers [from], [from + 1], ..., [n] of them. *)
Definition idsFrom (from : Z) (n : nat) : list Z :=
  map (fun j => from + Z.of_nat j) (seq 0 n).

(** ** The capacity invariant *)

(** The capacity that governs a class name on a date text: the capacity of
    the class the lookup loop finds for them; nothing when the text is not a
    date or no class is found. *)
Definition capacityFor (className date : string) (cs : list Class) : Z :=
  match time.Parse date with
  | Some d =>
    match classFound cs (mkBooking 0 "" date className) d with
    | Some c => Class_Capacity c
    | None => 0
    end
  | None => 0
  end.

(** No class name has more bookings on a date than the capacity governing
    them. *)
Definition capacityKept (cs : list Class) (bs : list Booking) : Prop :=
  forall className date,
    Z.of_nat (CountFor className date bs) <= capacityFor className date cs.

Definition capacitiesPositive (cs : list Class) : Prop :=
  Forall (fun c => 0 < Class_Capacity c <= GoInt.maxInt) cs.

(** ** The handlers as goroutines

    The server runs every request in a goroutine of its own.  Here a
    goroutine is at one of the program points of its handler, with the local
    variables live there; a step takes it to the next point.  What comes
    before [mutex.Lock()] reads the request only. *)

(** The checks of [classHandler] before the mutex: the response to a
    request that fails one, or the class decoded. *)
Definition checkClass (r : Request Class) : Response + Class :=
  if negb (String.eqb (Method r) "POST") then
    inl (errorResponse StatusMethodNotAllowed "Invalid request method")
  else
  match DecodeClass (Body r) with
  | None => inl (errorResponse StatusBadRequest "Invalid request body")
  | Some newClass =>
  if String.eqb (Class_ClassName newClass) ""
     || String.eqb (Class_StartDate newClass) ""
     || String.eqb (Class_EndDate newClass) ""
     || (Class_Capacity newClass <=? 0) then
    inl (errorResponse StatusBadRequest "Invalid data format")
  else
  match time.Parse (Class_StartDate newClass) with
  | None =>
    inl (errorResponse StatusBadRequest "Invalid startDate format, use DD-MM-YYYY")
  | Some startDate =>
  match time.Parse (Class_EndDate newClass) with
  | None =>
    inl (errorResponse StatusBadRequest "Invalid endDate format, use DD-MM-YYYY")
  | Some endDate =>
  if time.Before endDate startDate then
    inl (errorResponse StatusBadRequest "endDate must be after startDate")
  else inr newClass
  end end end.

(** The checks of [bookingHandler] before the mutex: the response, or the
    booking decoded and its parsed date. *)
Definition checkBooking (r : Request Booking) : Response + Booking * time.Time :=
  if negb (String.eqb (Method r) "POST") then
    inl (errorResponse StatusMethodNotAllowed "Invalid request method")
  else
  match DecodeBooking (Body r) with
  | None => inl (errorResponse StatusBadRequest "Invalid request body")
  | Some newBooking =>
  if String.eqb (Booking_MemberName newBooking) ""
     || String.eqb (Booking_Date newBooking) ""
     || String.eqb (Booking_ClassName newBooking) "" then
    inl (errorResponse StatusBadRequest "Invalid field format")
  else
  match time.Parse (Booking_Date newBooking) with
  | None =>
    inl (errorResponse StatusBadRequest "Invalid date format, use DD-MM-YYYY")
  | Some bookingDate => inr (newBooking, bookingDate)
  end end.

(** The program points of a goroutine.  [ok] is the outcome awaiting its file
    write. *)
Inductive Thread : Type :=
| Received (call : Call)
    (* the handler is entered *)
| LockClass (ok : bool) (newClass : Class)
    (* classHandler, at mutex.Lock() *)
| AppendClass (ok : bool) (newClass : Class)
    (* mutex held; next: the identifier, classId++, append *)
| WriteClass (ok : bool) (newClass : Class)
    (* mutex held; next: writeDataToJsonFile and the response *)
| LockBooking (ok : bool) (newBooking : Booking) (bookingDate : time.Time)
    (* bookingHandler, at mutex.Lock() *)
| FindClass (ok : bool) (newBooking : Booking) (bookingDate : time.Time)
    (* mutex held; next: the lookup loop *)
| CountBookings (ok : bool) (newBooking : Booking) (class : Class)
    (* mutex held, classFound is not nil; next: the counting loop *)
| AppendBooking (ok : bool) (newBooking : Booking) (availableSlots : Z)
    (* mutex held, slots are left; next: the identifier, bookingId++, append *)
| WriteBooking (ok : bool) (newBooking : Booking) (availableSlots : Z)
    (* mutex held; next: writeDataToJsonFile and the response *)
| Unlock (resp : Response)
    (* response written; next: the deferred mutex.Unlock() *)
| Done (resp : Response).

(** The points between [mutex.Lock()] and [mutex.Unlock()]. *)
Definition critical (t : Thread) : bool :=
  match t with
  | Received _ | LockClass _ _ | LockBooking _ _ _ | Done _ => false
  | _ => true
  end.

(** One step of goroutine [i], given the mutex (its holder, if any) and the
    package state.  A goroutine at [mutex.Lock()] waits while the mutex is
    held; a finished one stays finished. *)
Definition threadStep (i : nat) (mutex : option nat) (w : World) (t : Thread)
  : option nat * World * Thread :=
  match t with
  | Received (RegisterClass r ok) =>
    match checkClass r with
    | inl resp => (mutex, w, Done resp)
    | inr newClass => (mutex, w, LockClass ok newClass)
    end
  | Received (CreateBooking r ok) =>
    match checkBooking r with
    | inl resp => (mutex, w, Done resp)
    | inr (newBooking, bookingDate) => (mutex, w, LockBooking ok newBooking bookingDate)
    end
  | LockClass ok newClass =>
    match mutex with
    | None => (Some i, w, AppendClass ok newClass)
    | Some _ => (mutex, w, t)
    end
  | AppendClass ok newClass =>
    let newClass := storedClass (classId w) newClass in
    (mutex,
     {| classes := classes w ++ [newClass];
        bookings := bookings w;
        classId := GoInt.add (classId w) 1;
        bookingId := bookingId w;
        files := files w |},
     WriteClass ok newClass)
  | WriteClass ok newClass =>
    let '(file, written) :=
      writeDataToJsonFile ok (classes_json (files w)) (classes w) in
    (mutex,
     {| classes := classes w;
        bookings := bookings w;
        classId := classId w;
        bookingId := bookingId w;
        files := {| classes_json := file; bookings_json := bookings_json (files w) |} |},
     Unlock (if negb written
             then errorResponse StatusInternalServerError "Failed to save class data"
             else successResponse StatusCreated "Class created successfully"
                    (ClassData newClass)))
  | LockBooking ok newBooking bookingDate =>
    match mutex with
    | None => (Some i, w, FindClass ok newBooking bookingDate)
    | Some _ => (mutex, w, t)
    end
  | FindClass ok newBooking bookingDate =>
    match classFound (classes w) newBooking bookingDate with
    | None =>
      (mutex, w,
       Unlock (errorResponse StatusBadRequest
                 "Class is not available on the specified date"))
    | Some class => (mutex, w, CountBookings ok newBooking class)
    end
  | CountBookings ok newBooking class =>
    let availableSlots :=
      GoInt.sub (Class_Capacity class) (currentBookings (bookings w) newBooking 0) in
    if availableSlots <=? 0 then
      (mutex, w,
       Unlock (errorResponse StatusBadRequest
                 "No available slots for the selected class on this date"))
    else (mutex, w, AppendBooking ok newBooking availableSlots)
  | AppendBooking ok newBooking availableSlots =>
    let newBooking := storedBooking (bookingId w) newBooking in
    (mutex,
     {| classes := classes w;
        bookings := bookings w ++ [newBooking];
        classId := classId w;
        bookingId := GoInt.add (bookingId w) 1;
        files := files w |},
     WriteBooking ok newBooking availableSlots)
  | WriteBooking ok newBooking availableSlots =>
    let '(file, written) :=
      writeDataToJsonFile ok (bookings_json (files w)) (bookings w) in
    (mutex,
     {| classes := classes w;
        bookings := bookings w;
        classId := classId w;
        bookingId := bookingId w;
        files := {| classes_json := classes_json (files w); bookings_json := file |} |},
     Unlock (if negb written
             then errorResponse StatusInternalServerError "Failed to save booking data"
             else successResponse StatusCreated "Booking successful"
                    (BookingData newBooking (GoInt.sub availableSlots 1))))
  | Unlock resp => (None, w, Done resp)
  | Done resp => (mutex, w, t)
  end.

(** The server: the package state, the mutex, and the goroutines by number. *)
Record System : Type := mkSystem {
  world : World;
  mutex : option nat;
  goroutine : nat -> Thread
}.

Definition setThread (i : nat) (t : Thread) (g : nat -> Thread) : nat -> Thread :=
  fun j => if Nat.eqb j i then t else g j.

(** The scheduler lets goroutine [i] take a step. *)
Definition step (i : nat) (s : System) : System :=
  let '(m, w, t) := threadStep i (mutex s) (world s) (goroutine s i) in
  {| world := w; mutex := m; goroutine := setThread i t (goroutine s) |}.

(** A schedule: the goroutines in the order in which they take steps. *)
Fixpoint exec (s : System) (schedule : list nat) : System :=
  match schedule with
  | [] => s
  | i :: rest => exec (step i s) rest
  end.

(** The server started on [w], goroutine [i] about to serve [calls i]. *)
Definition start (w : World) (calls : nat -> Call) : System :=
  {| world := w; mutex := None; goroutine := fun i => Received (calls i) |}.

(** What a goroutine knows at its program point. *)
Definition threadOk (w : World) (t : Thread) : Prop :=
  match t with
  | LockClass _ c | AppendClass _ c => 0 < Class_Capacity c <= GoInt.maxInt
  | LockBooking _ b d | FindClass _ b d => time.Parse (Booking_Date b) = Some d
  | CountBookings _ b c =>
    exists d, time.Parse (Booking_Date b) = Some d /\
              classFound (classes w) b d = Some c
  | AppendBooking _ b a =>
    exists d c, time.Parse (Booking_Date b) = Some d /\
                classFound (classes w) b d = Some c /\
                a = slotsFor c b w /\ 0 < a
  | _ => True
  end.

(** The invariant of the server: the capacity invariant, mutual exclusion
    (the goroutine in the critical section is the holder of the mutex), and
    what each goroutine knows. *)
Definition serverInv (s : System) : Prop :=
  capacitiesPositive (classes (world s)) /\
  capacityKept (classes (world s)) (bookings (world s)) /\
  (forall j, critical (goroutine s j) = true <-> mutex s = Some j) /\
  (forall j, threadOk (world s) (goroutine s j)).

(** Goroutine [i] takes [n] steps in a row. *)
Fixpoint threadRun (n i : nat) (m : option nat) (w : World) (t : Thread)
  : option nat * World * Thread :=
  match n with
  | O => (m, w, t)
  | S n' =>
    let '(m', w', t') := threadStep i m w t in
    threadRun n' i m' w' t'
  end.

(** The schedule that lets goroutines [k], [k + 1], ..., [n] of them, run
    from beginning to end one after the other (seven steps are enough for
    either handler). *)
Definition oneByOne (k n : nat) : list nat :=
  flat_map (fun j => repeat j 7) (seq k n).

(** ** Vocabulary for the further properties *)

(** The status code a response carries. *)
Definition statusOf (resp : Response) : Z :=
  match resp with
  | errorResponse statusCode _ => statusCode
  | successResponse statusCode _ _ => statusCode
  end.

(** The request [r] with the identifier in its body replaced. *)
Definition classWithID (id : Z) (c : Class) : Class := storedClass id c.
Definition bookingWithID (id : Z) (b : Booking) : Booking := storedBooking id b.

(** A class as [classHandler] lets it in: a name, two dates that parse with
    the end not before the start, a positive capacity. *)
Definition classWellFormed (c : Class) : Prop :=
  Class_ClassName c <> "" /\
  (exists s e,
      time.Parse (Class_StartDate c) = Some s /\
      time.Parse (Class_EndDate c) = Some e /\
      time.Before e s = false) /\
  0 < Class_Capacity c <= GoInt.maxInt.

(** A booking as [bookingHandler] lets it in against the classes [cs]: a
    member, a date that parses, and a class of its name whose range holds
    the date. *)
Definition bookingCovered (cs : list Class) (b : Booking) : Prop :=
  Booking_MemberName b <> "" /\
  exists d c,
    time.Parse (Booking_Date b) = Some d /\
    In c cs /\
    Class_ClassName c = Booking_ClassName b /\
    activeOn c d = true.

(** Two times are the same day. *)
Definition sameDay (t u : time.Time) : bool :=
  (time.Year t =? time.Year u) && (time.Month t =? time.Month u)
  && (time.Day t =? time.Day u).

(** The number of bookings of a class name whose date text names the day
    [d]. *)
Definition CountOn (className : string) (d : time.Time) (bs : list Booking) : nat :=
  List.length
    (filter (fun b => String.eqb (Booking_ClassName b) className
                      && match time.Parse (Booking_Date b) with
                         | Some t => sameDay t d
                         | None => false
                         end) bs).

(** Goroutine [i], left to run from the mutex state [m], the package state
    [w] and the program point [t], ends with the mutex free, having done what
    serving the call [c] in the state [W] does. *)
Definition finishesAs (i : nat) (m : option nat) (w : World) (t : Thread)
  (W : World) (c : Call) : Prop :=
  exists n, threadRun n i m w t = (None, fst (serve W c), Done (snd (serve W c))).

(** A goroutine that has written its response and returned. *)
Definition finished (t : Thread) : bool :=
  match t with
  | Done _ => true
  | _ => false
  end.

(** The step the scheduler gives goroutine [i] in [s] is the one with which
    it returns. *)
Definition returns (i : nat) (s : System) : bool :=
  negb (finished (goroutine s i)) && finished (goroutine (step i s) i).

(** The goroutines that return while the scheduler runs [schedule] from
    [s], in the order in which they return. *)
Fixpoint returned (s : System) (schedule : list nat) : list nat :=
  match schedule with
  | [] => []
  | i :: rest =>
    if returns i s then i :: returned (step i s) rest
    else returned (step i s) rest
  end.

(** The server state [s] seen as the calls of the goroutines in [order]
    served one after the other from [w0]: the goroutines in [order] are
    those that have returned, with the responses of that run; the others
    have not touched the package state; the holder of the mutex, if any, is
    in the middle of being served next. *)
Definition linearized (w0 : World) (calls : nat -> Call) (order : list nat)
  (s : System) : Prop :=
  NoDup order /\
  (forall j, In j order <-> finished (goroutine s j) = true) /\
  map (goroutine s) order = map Done (snd (run w0 (map calls order))) /\
  (forall j, mutex s <> Some j -> critical (goroutine s j) = false) /\
  (forall j, ~ In j order -> mutex s <> Some j ->
             forall W, finishesAs j None W (goroutine s j) W (calls j)) /\
  match mutex s with
  | None => world s = fst (run w0 (map calls order))
  | Some i =>
    ~ In i order /\
    critical (goroutine s i) = true /\
    finishesAs i (Some i) (world s) (goroutine s i)
               (fst (run w0 (map calls order))) (calls i)
  end.

(** The identifiers [1], [2], ... as the counter produces them, [n] of
    them. *)
Definition countedIds (n : nat) : list Z :=
  map (fun j => GoInt.wrap (1 + Z.of_nat j)) (seq 0 n).

(** The identifiers stored are those the counters have produced. *)
Definition idsCounted (w : World) : Prop :=
  map Class_ID (classes w) = countedIds (List.length (classes w)) /\
  classId w = GoInt.wrap (1 + Z.of_nat (List.length (classes w))) /\
  map Booking_ID (bookings w) = countedIds (List.length (bookings w)) /\
  bookingId w = GoInt.wrap (1 + Z.of_nat (List.length (bookings w))).

(** What a response of [bookingHandler] says apart from the identifier
    given to the booking: the status, the message, and for a success the
    member, the date, the class name and the slots left. *)
Definition verdict (resp : Response) : Z * string * option (string * string * string * Z) :=
  match resp with
  | successResponse code msg (BookingData b a) =>
    (code, msg, Some (Booking_MemberName b, Booking_Date b, Booking_ClassName b, a))
  | successResponse code msg (ClassData _) => (code, msg, None)
  | errorResponse code msg => (code, msg, None)
  end.

(** * Properties *)

(** ** Parsing, on examples *)

Example Parse_16_12_2024 : time.Parse "16-12-2024" = Some (time.Date 2024 12 16).
Proof. reflexivity. Qed.

Example Parse_slashes : time.Parse "12/16/2024" = None.
Proof. reflexivity. Qed.

Example Parse_29_02_2023 : time.Parse "29-02-2023" = None.
Proof. reflexivity. Qed.

Example Parse_29_02_2024 : time.Parse "29-02-2024" = Some (time.Date 2024 2 29).
Proof. reflexivity. Qed.

Example Parse_short_day : time.Parse "1-12-2024" = None.
Proof. reflexivity. Qed.

Example Parse_extra_text : time.Parse "01-12-20245" = None.
Proof. reflexivity. Qed.

(** ** The cases of the test file, on the model *)

(** [TestClassHandler]: a valid class, dates the wrong way round, a negative
    capacity. *)
Example TestClassHandler :
  snd (run (main noFiles)
         [RegisterClass (post (mkClass 0 "Yoga" "01-12-2024" "31-12-2024" 20)) true;
          RegisterClass (post (mkClass 0 "Pilates" "31-12-2024" "01-12-2024" 10)) true;
          RegisterClass (post (mkClass 0 "Dance" "10-12-2024" "20-12-2024" (-5))) true])
  = [successResponse StatusCreated "Class created successfully"
       (ClassData (mkClass 1 "Yoga" "01-12-2024" "31-12-2024" 20));
     errorResponse StatusBadRequest "endDate must be after startDate";
     errorResponse StatusBadRequest "Invalid data format"].
Proof. reflexivity. Qed.

(** [TestBookingHandler]: against Pilates, 15 to 20 December, ten slots; the
    last case comes after ten more bookings have been put in the slice. *)
Example TestBookingHandler :
  let w := {| classes := [mkClass 1 "Pilates" "15-12-2024" "20-12-2024" 10];
              bookings := []; classId := 1; bookingId := 1; files := noFiles |} in
  let '(w1, resps) :=
    run w [CreateBooking (post (mkBooking 0 "John Doe" "16-12-2024" "Pilates")) true;
           CreateBooking (post (mkBooking 0 "Jane Doe" "25-12-2024" "Pilates")) true;
           CreateBooking (post (mkBooking 0 "Alice" "12/16/2024" "Pilates")) true] in
  let filled :=
    {| classes := classes w1;
       bookings := bookings w1 ++
                   map (fun i => mkBooking (2 + Z.of_nat i) "Member" "16-12-2024" "Pilates")
                       (seq 0 10);
       classId := classId w1; bookingId := 12; files := files w1 |} in
  map (fun resp => match resp with
                   | errorResponse code msg | successResponse code msg _ => (code, msg)
                   end)
      (resps ++
       [snd (bookingHandler true
               (post (mkBooking 0 "Exceeding Slots" "16-12-2024" "Pilates")) filled)])
  = [(201, "Booking successful");
     (400, "Class is not available on the specified date");
     (400, "Invalid date format, use DD-MM-YYYY");
     (400, "No available slots for the selected class on this date")].
Proof. reflexivity. Qed.

(** [TestAdditionalEdgeCases], against the empty state. *)
Example TestAdditionalEdgeCases :
  snd (run (main noFiles)
         [CreateBooking (post (mkBooking 0 "" "16-12-2024" "Pilates")) true;
          CreateBooking (post (mkBooking 0 "John" "10-10-2020" "Pilates")) true;
          CreateBooking (post (mkBooking 0 "John" "16-12-2024" "Dance")) true])
  = [errorResponse StatusBadRequest "Invalid field format";
     errorResponse StatusBadRequest "Class is not available on the specified date";
     errorResponse StatusBadRequest "Class is not available on the specified date"].
Proof. reflexivity. Qed.

(** Ten bookings fill the Pilates class of the README; the eleventh is
    refused. *)
Example eleventh_booking_refused :
  let pilates := mkClass 0 "Pilates" "01-12-2024" "20-12-2024" 10 in
  let rahul := mkBooking 0 "Rahul R P" "16-12-2024" "Pilates" in
  nth 11 (snd (run (main noFiles)
                 (RegisterClass (post pilates) true
                  :: repeat (CreateBooking (post rahul) true) 11)))
      (errorResponse 0 "")
  = CapacityExceeded.
Proof. vm_compute. reflexivity. Qed.

(** ** Go's [int] *)

Lemma wrap_small (z : Z) : GoInt.minInt <= z <= GoInt.maxInt -> GoInt.wrap z = z.
Proof.
  unfold GoInt.wrap, GoInt.minInt, GoInt.maxInt. intros H.
  rewrite Z.mod_small; lia.
Qed.

Lemma wrap_range (z : Z) : GoInt.minInt <= GoInt.wrap z <= GoInt.maxInt.
Proof.
  unfold GoInt.wrap, GoInt.minInt, GoInt.maxInt.
  pose proof (Z.mod_pos_bound (z + 2 ^ 63) (2 ^ 64) ltac:(lia)). lia.
Qed.

Lemma wrap_add_l (a b : Z) : GoInt.wrap (GoInt.wrap a + b) = GoInt.wrap (a + b).
Proof.
  unfold GoInt.wrap.
  replace ((a + 2 ^ 63) mod 2 ^ 64 - 2 ^ 63 + b + 2 ^ 63)
    with ((a + 2 ^ 63) mod 2 ^ 64 + b) by lia.
  rewrite Zplus_mod_idemp_l. f_equal. f_equal. lia.
Qed.

Lemma wrap_idem (a : Z) : GoInt.wrap (GoInt.wrap a) = GoInt.wrap a.
Proof. apply wrap_small, wrap_range. Qed.

Lemma wrap_sub_r (a b : Z) : GoInt.wrap (a - GoInt.wrap b) = GoInt.wrap (a - b).
Proof.
  unfold GoInt.wrap.
  replace (a - ((b + 2 ^ 63) mod 2 ^ 64 - 2 ^ 63) + 2 ^ 63)
    with (a + 2 ^ 64 - (b + 2 ^ 63) mod 2 ^ 64) by lia.
  rewrite Zminus_mod_idemp_r. f_equal. f_equal. lia.
Qed.

Lemma fits_range (z : Z) : GoInt.fits z = true <-> GoInt.minInt <= z <= GoInt.maxInt.
Proof. unfold GoInt.fits. rewrite andb_true_iff, !Z.leb_le. tauto. Qed.

(** ** Dates *)

Lemma Before_irrefl (t : time.Time) : time.Before t t = false.
Proof.
  unfold time.Before. rewrite !Z.ltb_irrefl, !Z.eqb_refl. reflexivity.
Qed.

Lemma activeOn_start (c : Class) :
  time.Before (endOf c) (startOf c) = false -> activeOn c (startOf c) = true.
Proof.
  intros H. unfold activeOn, time.After. fold (startOf c) (endOf c).
  now rewrite Before_irrefl, H.
Qed.

Lemma activeOn_end (c : Class) :
  time.Before (endOf c) (startOf c) = false -> activeOn c (endOf c) = true.
Proof.
  intros H. unfold activeOn, time.After. fold (startOf c) (endOf c).
  now rewrite Before_irrefl, H.
Qed.

(** ** The handlers, case by case *)

Lemma classHandler_accepts (ok : bool) (r : Request Class) (w : World)
  (c : Class) (s e : time.Time) :
  classRequestOk r c s e ->
  classHandler ok r w =
    (withClass ok c w,
     if ok then successResponse StatusCreated "Class created successfully"
                  (ClassData (storedClass (classId w) c))
     else PersistenceFailureClass).
Proof.
  intros (Hm & Hd & Hn & Hs & He & Hc & Ps & Pe & Hb).
  unfold classHandler. rewrite Hm, Hd. cbn [String.eqb negb].
  apply String.eqb_neq in Hn, Hs, He. rewrite Hn, Hs, He.
  assert (Hc' : (Class_Capacity c <=? 0) = false) by (apply Z.leb_gt; exact Hc).
  rewrite Hc'.
  cbn [orb]. rewrite Ps, Pe, Hb.
  unfold writeDataToJsonFile, withClass, storedClass. destruct ok; reflexivity.
Qed.

Lemma classHandler_rejects (ok : bool) (r : Request Class) (w : World) :
  (exists c s e, classRequestOk r c s e) \/
  (fst (classHandler ok r w) = w /\
   exists msg,
     snd (classHandler ok r w) =
       errorResponse (if String.eqb msg "Invalid request method"
                      then StatusMethodNotAllowed else StatusBadRequest) msg /\
     In msg ["Invalid request method"; "Invalid request body"; "Invalid data format";
             "Invalid startDate format, use DD-MM-YYYY";
             "Invalid endDate format, use DD-MM-YYYY";
             "endDate must be after startDate"]).
Proof.
  unfold classHandler.
  destruct (String.eqb (Method r) "POST") eqn:Hm; cbn [negb];
    [| right; split; [reflexivity | eexists; split; [| left; reflexivity]; reflexivity]].
  destruct (DecodeClass (Body r)) as [c |] eqn:Hd;
    [| right; split; [reflexivity | eexists; split; [| right; left; reflexivity]; reflexivity]].
  destruct (String.eqb (Class_ClassName c) "") eqn:Hn; cbn [orb];
    [right; split; [reflexivity | eexists; split; [| do 2 right; left; reflexivity]; reflexivity] |].
  destruct (String.eqb (Class_StartDate c) "") eqn:Hs; cbn [orb];
    [right; split; [reflexivity | eexists; split; [| do 2 right; left; reflexivity]; reflexivity] |].
  destruct (String.eqb (Class_EndDate c) "") eqn:He; cbn [orb];
    [right; split; [reflexivity | eexists; split; [| do 2 right; left; reflexivity]; reflexivity] |].
  destruct (Class_Capacity c <=? 0) eqn:Hc;
    [right; split; [reflexivity | eexists; split; [| do 2 right; left; reflexivity]; reflexivity] |].
  destruct (time.Parse (Class_StartDate c)) as [s |] eqn:Ps;
    [| right; split; [reflexivity | eexists; split; [| do 3 right; left; reflexivity]; reflexivity]].
  destruct (time.Parse (Class_EndDate c)) as [e |] eqn:Pe;
    [| right; split; [reflexivity | eexists; split; [| do 4 right; left; reflexivity]; reflexivity]].
  destruct (time.Before e s) eqn:Hb;
    [right; split; [reflexivity | eexists; split; [| do 5 right; left; reflexivity]; reflexivity] |].
  left. exists c, s, e. unfold classRequestOk.
  apply String.eqb_eq in Hm. apply String.eqb_neq in Hn, Hs, He. apply Z.leb_gt in Hc.
  repeat split; assumption.
Qed.

Lemma bookingHandler_unavailable (ok : bool) (r : Request Booking) (w : World)
  (b : Booking) (d : time.Time) :
  bookingRequestOk r b d ->
  classFound (classes w) b d = None ->
  bookingHandler ok r w = (w, ClassUnavailable).
Proof.
  intros (Hm & Hd & Hn & Hs & He & Pd) Hf.
  unfold bookingHandler. rewrite Hm, Hd. cbn [String.eqb negb].
  apply String.eqb_neq in Hn, Hs, He. rewrite Hn, Hs, He. cbn [orb].
  rewrite Pd, Hf. reflexivity.
Qed.

Lemma bookingHandler_full (ok : bool) (r : Request Booking) (w : World)
  (b : Booking) (d : time.Time) (c : Class) :
  bookingRequestOk r b d ->
  classFound (classes w) b d = Some c ->
  slotsFor c b w <= 0 ->
  bookingHandler ok r w = (w, CapacityExceeded).
Proof.
  intros (Hm & Hd & Hn & Hs & He & Pd) Hf Hfull.
  unfold bookingHandler. rewrite Hm, Hd. cbn [String.eqb negb].
  apply String.eqb_neq in Hn, Hs, He. rewrite Hn, Hs, He. cbn [orb].
  rewrite Pd, Hf. fold (slotsFor c b w).
  apply Z.leb_le in Hfull. rewrite Hfull. reflexivity.
Qed.

Lemma bookingHandler_accepts (ok : bool) (r : Request Booking) (w : World)
  (b : Booking) (d : time.Time) (c : Class) :
  bookingRequestOk r b d ->
  classFound (classes w) b d = Some c ->
  0 < slotsFor c b w ->
  bookingHandler ok r w =
    (withBooking ok b w,
     if ok then successResponse StatusCreated "Booking successful"
                  (BookingData (storedBooking (bookingId w) b)
                     (GoInt.sub (slotsFor c b w) 1))
     else PersistenceFailureBooking).
Proof.
  intros (Hm & Hd & Hn & Hs & He & Pd) Hf Hfree.
  unfold bookingHandler. rewrite Hm, Hd. cbn [String.eqb negb].
  apply String.eqb_neq in Hn, Hs, He. rewrite Hn, Hs, He. cbn [orb].
  rewrite Pd, Hf. fold (slotsFor c b w).
  assert (Hfree' : (slotsFor c b w <=? 0) = false) by (apply Z.leb_gt; exact Hfree).
  rewrite Hfree'.
  unfold writeDataToJsonFile, withBooking, storedBooking. destruct ok; reflexivity.
Qed.

Lemma bookingHandler_invalid (ok : bool) (r : Request Booking) (w : World) :
  (exists b d, bookingRequestOk r b d) \/
  (fst (bookingHandler ok r w) = w /\
   In (snd (bookingHandler ok r w))
      [errorResponse StatusMethodNotAllowed "Invalid request method";
       errorResponse StatusBadRequest "Invalid request body";
       InvalidFieldsBooking; InvalidDateFormatBooking]).
Proof.
  unfold bookingHandler.
  destruct (String.eqb (Method r) "POST") eqn:Hm; cbn [negb];
    [| right; split; [reflexivity | left; reflexivity]].
  destruct (DecodeBooking (Body r)) as [b |] eqn:Hd;
    [| right; split; [reflexivity | right; left; reflexivity]].
  destruct (String.eqb (Booking_MemberName b) "") eqn:Hn; cbn [orb];
    [right; split; [reflexivity | do 2 right; left; reflexivity] |].
  destruct (String.eqb (Booking_Date b) "") eqn:Hs; cbn [orb];
    [right; split; [reflexivity | do 2 right; left; reflexivity] |].
  destruct (String.eqb (Booking_ClassName b) "") eqn:He; cbn [orb];
    [right; split; [reflexivity | do 2 right; left; reflexivity] |].
  destruct (time.Parse (Booking_Date b)) as [d |] eqn:Pd;
    [| right; split; [reflexivity | do 3 right; left; reflexivity]].
  left. exists b, d. unfold bookingRequestOk.
  apply String.eqb_eq in Hm. apply String.eqb_neq in Hn, Hs, He.
  repeat split; assumption.
Qed.

Lemma bookingHandler_outcome (ok : bool) (r : Request Booking) (w : World) :
  bookingOutcome ok r w (bookingHandler ok r w).
Proof.
  destruct (bookingHandler_invalid ok r w) as [(b & d & Hok) | [Hw Hr]].
  - destruct (classFound (classes w) b d) as [c |] eqn:Hf.
    + destruct (Z.lt_ge_cases 0 (slotsFor c b w)) as [Hfree | Hfull].
      * rewrite (bookingHandler_accepts ok r w b d c Hok Hf Hfree).
        now apply booking_admitted with (d := d).
      * rewrite (bookingHandler_full ok r w b d c Hok Hf Hfull).
        now apply booking_full with (b := b) (d := d) (c := c).
    + rewrite (bookingHandler_unavailable ok r w b d Hok Hf).
      now apply booking_unavailable with (b := b) (d := d).
  - destruct (bookingHandler ok r w) as [w' resp]. cbn [fst snd] in Hw, Hr.
    subst w'. now apply booking_invalid.
Qed.

Lemma classHandler_outcome (ok : bool) (r : Request Class) (w : World) :
  classOutcome ok r w (classHandler ok r w).
Proof.
  destruct (classHandler_rejects ok r w) as [(c & s & e & Hok) | [Hw (msg & Hr & Hin)]].
  - rewrite (classHandler_accepts ok r w c s e Hok).
    now apply class_appended with (s := s) (e := e).
  - destruct (classHandler ok r w) as [w' resp]. cbn [fst snd] in Hw, Hr.
    subst w' resp. now apply class_rejected.
Qed.

Lemma bookingHandler_valid (ok : bool) (r : Request Booking) (w : World)
  (b : Booking) (d : time.Time) :
  bookingRequestOk r b d ->
  bookingHandler ok r w =
    match classFound (classes w) b d with
    | None => (w, ClassUnavailable)
    | Some c =>
      if slotsFor c b w <=? 0 then (w, CapacityExceeded)
      else (withBooking ok b w,
            if ok then successResponse StatusCreated "Booking successful"
                         (BookingData (storedBooking (bookingId w) b)
                            (GoInt.sub (slotsFor c b w) 1))
            else PersistenceFailureBooking)
    end.
Proof.
  intros Hok. destruct (classFound (classes w) b d) as [c |] eqn:Hf.
  - destruct (Z.leb_spec (slotsFor c b w) 0) as [Hfull | Hfree].
    + now apply bookingHandler_full with (b := b) (d := d) (c := c).
    + now apply bookingHandler_accepts with (d := d).
  - now apply bookingHandler_unavailable with (b := b) (d := d).
Qed.

(** ** The lookup of the class *)

Lemma classFound_none (cs : list Class) (b : Booking) (d : time.Time) :
  classFound cs b d = None <->
  Forall (fun x => Class_ClassName x = Booking_ClassName b -> activeOn x d = false) cs.
Proof.
  induction cs as [| x cs IH]; cbn [classFound].
  - split; [constructor | reflexivity].
  - destruct (String.eqb_spec (Class_ClassName x) (Booking_ClassName b)) as [E | N].
    + destruct (activeOn x d) eqn:A.
      * split; [discriminate |]. intros H. inversion H; subst.
        match goal with Hx : _ -> activeOn x d = false |- _ =>
          rewrite (Hx E) in A; discriminate end.
      * rewrite IH. split.
        -- intros H. constructor; [intros _; exact A | exact H].
        -- intros H. now inversion H.
    + rewrite IH. split.
      * intros H. constructor; [intros E; contradiction | exact H].
      * intros H. now inversion H.
Qed.

Lemma classFound_some (cs : list Class) (b : Booking) (d : time.Time) (c : Class) :
  classFound cs b d = Some c <->
  exists earlier later,
    cs = earlier ++ c :: later /\
    Class_ClassName c = Booking_ClassName b /\
    activeOn c d = true /\
    Forall (fun x => Class_ClassName x = Booking_ClassName b -> activeOn x d = false)
           earlier.
Proof.
  induction cs as [| x cs IH]; cbn [classFound].
  - split; [discriminate |]. intros (earlier & later & E & _).
    destruct earlier; discriminate.
  - destruct (String.eqb_spec (Class_ClassName x) (Booking_ClassName b)) as [E | N].
    + destruct (activeOn x d) eqn:A.
      * split.
        -- intros H. injection H as <-. exists [], cs. repeat split; auto.
        -- intros ([| y earlier] & later & Ecs & En & Ea & Hall).
           ++ cbn in Ecs. now injection Ecs as ->.
           ++ cbn in Ecs. injection Ecs as -> _. inversion Hall; subst.
              match goal with Hx : _ -> activeOn y d = false |- _ =>
                rewrite (Hx E) in A; discriminate end.
      * rewrite IH. split.
        -- intros (earlier & later & -> & En & Ea & Hall).
           exists (x :: earlier), later. repeat split; auto.
        -- intros ([| y earlier] & later & Ecs & En & Ea & Hall).
           ++ cbn in Ecs. injection Ecs as -> _. rewrite Ea in A. discriminate.
           ++ cbn in Ecs. injection Ecs as -> ->. inversion Hall; subst.
              exists earlier, later. repeat split; auto.
    + rewrite IH. split.
      * intros (earlier & later & -> & En & Ea & Hall).
        exists (x :: earlier), later. repeat split; auto.
        constructor; [intros E; contradiction | exact Hall].
      * intros ([| y earlier] & later & Ecs & En & Ea & Hall).
        -- cbn in Ecs. injection Ecs as -> _. contradiction.
        -- cbn in Ecs. injection Ecs as -> ->. inversion Hall; subst.
           exists earlier, later. repeat split; auto.
Qed.

Lemma classFound_app (cs more : list Class) (b : Booking) (d : time.Time) :
  classFound (cs ++ more) b d =
    match classFound cs b d with
    | Some c => Some c
    | None => classFound more b d
    end.
Proof.
  induction cs as [| x cs IH]; cbn [classFound app]; [reflexivity |].
  destruct (String.eqb (Class_ClassName x) (Booking_ClassName b)); [| exact IH].
  destruct (activeOn x d); [reflexivity | exact IH].
Qed.

Lemma activeOn_inclusive (c : Class) (d : time.Time) :
  activeOn c d = true <->
  time.Before d (startOf c) = false /\ time.After d (endOf c) = false.
Proof.
  unfold activeOn. fold (startOf c) (endOf c).
  rewrite andb_true_iff, !negb_true_iff. tauto.
Qed.

(** C5: the lookup loop of [bookingHandler] walks the slice in its order,
    which is the order of insertion since [classHandler] appends at the end,
    and stops at the first class whose name is the booking's class name and
    whose inclusive range [start, end] holds the date: of several such
    classes the first inserted one is found, and it is its capacity that
    decides whether the booking is admitted. *)
Theorem classFound_first_inserted :
  (forall cs b d c,
      classFound cs b d = Some c <->
      exists earlier later,
        cs = earlier ++ c :: later /\
        Class_ClassName c = Booking_ClassName b /\
        activeOn c d = true /\
        Forall (fun x => Class_ClassName x = Booking_ClassName b ->
                         activeOn x d = false) earlier) /\
  (forall cs b d,
      classFound cs b d = None <->
      Forall (fun x => Class_ClassName x = Booking_ClassName b ->
                       activeOn x d = false) cs) /\
  (forall c d,
      activeOn c d = true <->
      time.Before d (startOf c) = false /\ time.After d (endOf c) = false) /\
  (forall ok r w c s e,
      classRequestOk r c s e ->
      classes (fst (classHandler ok r w)) = classes w ++ [storedClass (classId w) c]) /\
  (forall ok r w b d c,
      bookingRequestOk r b d ->
      classFound (classes w) b d = Some c ->
      (snd (bookingHandler ok r w) = CapacityExceeded <->
       GoInt.sub (Class_Capacity c) (currentBookings (bookings w) b 0) <= 0)).
Proof.
  split; [exact classFound_some |].
  split; [exact classFound_none |].
  split; [exact activeOn_inclusive |].
  split.
  - intros ok r w c s e Hok.
    now rewrite (classHandler_accepts ok r w c s e Hok).
  - intros ok r w b d c Hok Hf.
    rewrite (bookingHandler_valid ok r w b d Hok), Hf.
    fold (slotsFor c b w).
    destruct (Z.leb_spec (slotsFor c b w) 0) as [Hfull | Hfree]; cbn [snd].
    + tauto.
    + split; [| lia]. destruct ok; discriminate.
Qed.

(** Two classes named Pilates over the same days, capacities 2 and 1: the
    first one is found. *)
Lemma classFound_first_inserted_witness :
  classFound
    [mkClass 1 "Pilates" "01-12-2024" "20-12-2024" 2;
     mkClass 2 "Pilates" "01-12-2024" "20-12-2024" 1]
    (mkBooking 0 "Rahul R P" "16-12-2024" "Pilates") (time.Date 2024 12 16)
  = Some (mkClass 1 "Pilates" "01-12-2024" "20-12-2024" 2).
Proof.
  apply (proj1 classFound_first_inserted).
  exists [], [mkClass 2 "Pilates" "01-12-2024" "20-12-2024" 1].
  repeat split; constructor.
Defined.

(** ** Range membership *)

(** C4: a booking request that passes validation, whose date is strictly
    before the start or strictly after the end of every stored class bearing
    its class name, is rejected with [ClassUnavailable] and leaves the state
    as it was, whatever the bookings stored; and a date equal to the start or
    to the end of a same-named class (whose end is not before its start) is
    inside the range, so the request is not rejected with
    [ClassUnavailable]. *)
Theorem booking_outside_range_unavailable
  (ok : bool) (r : Request Booking) (w : World) (b : Booking) (d : time.Time) :
  bookingRequestOk r b d ->
  ((forall c, In c (classes w) ->
              Class_ClassName c = Booking_ClassName b ->
              time.Before d (startOf c) = true \/ time.After d (endOf c) = true) ->
   bookingHandler ok r w = (w, ClassUnavailable)) /\
  (forall c, In c (classes w) ->
             Class_ClassName c = Booking_ClassName b ->
             time.Before (endOf c) (startOf c) = false ->
             d = startOf c \/ d = endOf c ->
             snd (bookingHandler ok r w) <> ClassUnavailable).
Proof.
  intros Hok. split.
  - intros Hout. apply bookingHandler_unavailable with (b := b) (d := d); [exact Hok |].
    apply classFound_none, Forall_forall. intros c Hin Hname.
    unfold activeOn. fold (startOf c) (endOf c).
    destruct (Hout c Hin Hname) as [H | H]; rewrite H; [reflexivity |].
    apply andb_false_r.
  - intros c Hin Hname Hrange Hd.
    assert (Hact : activeOn c d = true).
    { destruct Hd as [-> | ->]; [now apply activeOn_start | now apply activeOn_end]. }
    rewrite (bookingHandler_valid ok r w b d Hok).
    destruct (classFound (classes w) b d) as [c' |] eqn:Hf.
    + destruct (slotsFor c' b w <=? 0); cbn [snd]; [discriminate |].
      destruct ok; discriminate.
    + exfalso. rewrite classFound_none, Forall_forall in Hf.
      rewrite (Hf c Hin Hname) in Hact. discriminate.
Qed.

(** Pilates runs from 01-12-2024 to 20-12-2024 with ten slots, all free: a
    booking for 25-12-2024 is rejected, one for 20-12-2024 is not. *)
Lemma booking_outside_range_unavailable_witness :
  let w := {| classes := [mkClass 1 "Pilates" "01-12-2024" "20-12-2024" 10];
              bookings := []; classId := 2; bookingId := 1; files := noFiles |} in
  bookingHandler true (post (mkBooking 0 "Jane Doe" "25-12-2024" "Pilates")) w
    = (w, ClassUnavailable) /\
  snd (bookingHandler true (post (mkBooking 0 "Jane Doe" "20-12-2024" "Pilates")) w)
    <> ClassUnavailable.
Proof.
  intros w. split.
  - apply (booking_outside_range_unavailable true
             (post (mkBooking 0 "Jane Doe" "25-12-2024" "Pilates")) w
             (mkBooking 0 "Jane Doe" "25-12-2024" "Pilates") (time.Date 2024 12 25)).
    + repeat split; discriminate.
    + intros c [<- | []] _. right. reflexivity.
  - apply (booking_outside_range_unavailable true
             (post (mkBooking 0 "Jane Doe" "20-12-2024" "Pilates")) w
             (mkBooking 0 "Jane Doe" "20-12-2024" "Pilates") (time.Date 2024 12 20))
      with (c := mkClass 1 "Pilates" "01-12-2024" "20-12-2024" 10).
    + repeat split; discriminate.
    + left. reflexivity.
    + reflexivity.
    + reflexivity.
    + right. reflexivity.
Defined.

(** ** Registration: the range check *)

(** C6: [classHandler] answers [InvalidRange] exactly when the request got
    as far as the range check (method, body, fields and both dates passed)
    and the parsed end date is strictly before the parsed start date; a
    request whose end date equals its start date is accepted: the class is
    appended and, the file write succeeding, returned. *)
Theorem classHandler_InvalidRange_iff (ok : bool) (r : Request Class) (w : World) :
  (snd (classHandler ok r w) = InvalidRange <->
   exists c s e,
     Method r = "POST" /\
     DecodeClass (Body r) = Some c /\
     Class_ClassName c <> "" /\ Class_StartDate c <> "" /\ Class_EndDate c <> "" /\
     0 < Class_Capacity c /\
     time.Parse (Class_StartDate c) = Some s /\
     time.Parse (Class_EndDate c) = Some e /\
     time.Before e s = true) /\
  (forall c s,
     Method r = "POST" ->
     DecodeClass (Body r) = Some c ->
     Class_ClassName c <> "" ->
     0 < Class_Capacity c ->
     time.Parse (Class_StartDate c) = Some s ->
     time.Parse (Class_EndDate c) = Some s ->
     classHandler ok r w =
       (withClass ok c w,
        if ok then successResponse StatusCreated "Class created successfully"
                     (ClassData (storedClass (classId w) c))
        else PersistenceFailureClass)).
Proof.
  split.
  - split.
    + intros H. unfold classHandler in H.
      destruct (String.eqb (Method r) "POST") eqn:Hm; cbn [negb] in H;
        [| discriminate].
      destruct (DecodeClass (Body r)) as [c |] eqn:Hd; [| discriminate].
      destruct (String.eqb (Class_ClassName c) "") eqn:Hn; cbn [orb] in H;
        [discriminate |].
      destruct (String.eqb (Class_StartDate c) "") eqn:Hs; cbn [orb] in H;
        [discriminate |].
      destruct (String.eqb (Class_EndDate c) "") eqn:He; cbn [orb] in H;
        [discriminate |].
      destruct (Class_Capacity c <=? 0) eqn:Hc; [discriminate |].
      destruct (time.Parse (Class_StartDate c)) as [s |] eqn:Ps; [| discriminate].
      destruct (time.Parse (Class_EndDate c)) as [e |] eqn:Pe; [| discriminate].
      destruct (time.Before e s) eqn:Hb.
      * exists c, s, e.
        apply String.eqb_eq in Hm. apply String.eqb_neq in Hn, Hs, He.
        apply Z.leb_gt in Hc. repeat split; assumption.
      * unfold writeDataToJsonFile in H. destruct ok; discriminate.
    + intros (c & s & e & Hm & Hd & Hn & Hs & He & Hc & Ps & Pe & Hb).
      unfold classHandler. rewrite Hm, Hd. cbn [String.eqb negb].
      apply String.eqb_neq in Hn, Hs, He. rewrite Hn, Hs, He.
      assert (Hc' : (Class_Capacity c <=? 0) = false) by (apply Z.leb_gt; exact Hc).
      rewrite Hc'. cbn [orb]. rewrite Ps, Pe, Hb. reflexivity.
  - intros c s Hm Hd Hn Hc Ps Pe.
    apply classHandler_accepts with (s := s) (e := s).
    repeat split; try assumption.
    + intros E. rewrite E in Ps. discriminate.
    + intros E. rewrite E in Pe. discriminate.
    + apply Before_irrefl.
Qed.

(** The class of the fifth scenario, its dates the wrong way round, and a
    class that lasts one day. *)
Lemma classHandler_InvalidRange_iff_witness :
  snd (classHandler true (post (mkClass 0 "Pilates" "31-12-2024" "01-12-2024" 10))
         (main noFiles)) = InvalidRange /\
  snd (classHandler true (post (mkClass 0 "Pilates" "16-12-2024" "16-12-2024" 10))
         (main noFiles))
    = successResponse StatusCreated "Class created successfully"
        (ClassData (mkClass 1 "Pilates" "16-12-2024" "16-12-2024" 10)).
Proof.
  split.
  - apply (proj1 (classHandler_InvalidRange_iff true
                    (post (mkClass 0 "Pilates" "31-12-2024" "01-12-2024" 10))
                    (main noFiles))).
    exists (mkClass 0 "Pilates" "31-12-2024" "01-12-2024" 10),
           (time.Date 2024 12 31), (time.Date 2024 12 1).
    repeat split; try discriminate; reflexivity.
  - rewrite (proj2 (classHandler_InvalidRange_iff true
                      (post (mkClass 0 "Pilates" "16-12-2024" "16-12-2024" 10))
                      (main noFiles))
               (mkClass 0 "Pilates" "16-12-2024" "16-12-2024" 10)
               (time.Date 2024 12 16)); try reflexivity; discriminate.
Defined.

(** ** Rejections leave the state alone *)

Lemma serve_rejection_or_append (w : World) (call : Call) :
  fst (serve w call) = w \/
  In (snd (serve w call))
     [PersistenceFailureClass; PersistenceFailureBooking] \/
  exists data, snd (serve w call) = successResponse StatusCreated
                 (match data with
                  | ClassData _ => "Class created successfully"
                  | BookingData _ _ => "Booking successful"
                  end) data.
Proof.
  destruct call as [r ok | r ok]; cbn [serve].
  - destruct (classHandler_outcome ok r w); cbn [fst snd]; [now left |].
    right. destruct ok; [right; eexists (ClassData _); reflexivity | left; now left].
  - destruct (bookingHandler_outcome ok r w); cbn [fst snd]; try (now left).
    right. destruct ok; [right; eexists (BookingData _ _); reflexivity | left; right; now left].
Qed.

(** C7: when a call of either operation is answered with [InvalidFields],
    [InvalidDateFormat], [InvalidRange], [ClassUnavailable] or
    [CapacityExceeded] (in any of the wordings the handlers give them), the
    state after the call is the state before it: slices, counters and files;
    the same call made again is answered the same way. *)
Theorem rejection_leaves_state (w : World) (call : Call) :
  In (snd (serve w call))
     [InvalidFieldsClass; InvalidFieldsBooking;
      InvalidDateFormatStart; InvalidDateFormatEnd; InvalidDateFormatBooking;
      InvalidRange; ClassUnavailable; CapacityExceeded] ->
  fst (serve w call) = w /\
  serve (fst (serve w call)) call = serve w call.
Proof.
  intros Hin.
  assert (Hw : fst (serve w call) = w).
  { destruct (serve_rejection_or_append w call) as [H | [H | (data & H)]];
      [exact H | exfalso .. ].
    - destruct H as [H | [H | []]]; rewrite <- H in Hin;
        repeat (destruct Hin as [Hin | Hin]; [discriminate Hin |]); exact Hin.
    - rewrite H in Hin.
      repeat (destruct Hin as [Hin | Hin]; [discriminate Hin |]); exact Hin. }
  split; [exact Hw | now rewrite Hw].
Qed.

(** The rejected requests of scenarios 4 and 5, against a state that holds a
    class and a booking. *)
Lemma rejection_leaves_state_witness :
  let w := {| classes := [mkClass 1 "Pilates" "01-12-2024" "20-12-2024" 10];
              bookings := [mkBooking 1 "Rahul R P" "16-12-2024" "Pilates"];
              classId := 2; bookingId := 2; files := noFiles |} in
  fst (serve w (CreateBooking (post (mkBooking 0 "Jane Doe" "25-12-2024" "Pilates")) true))
    = w /\
  fst (serve w (RegisterClass (post (mkClass 0 "Pilates" "31-12-2024" "01-12-2024" 10)) true))
    = w.
Proof.
  intros w. split.
  - apply (rejection_leaves_state w
             (CreateBooking (post (mkBooking 0 "Jane Doe" "25-12-2024" "Pilates")) true)).
    do 6 right. left. reflexivity.
  - apply (rejection_leaves_state w
             (RegisterClass (post (mkClass 0 "Pilates" "31-12-2024" "01-12-2024" 10)) true)).
    do 5 right. left. reflexivity.
Defined.

(** ** The count of bookings *)

Lemma currentBookings_app (l1 l2 : list Booking) (b : Booking) (n : Z) :
  currentBookings (l1 ++ l2) b n = currentBookings l2 b (currentBookings l1 b n).
Proof.
  revert n. induction l1 as [| x l1 IH]; intros n; cbn [currentBookings app];
    [reflexivity |].
  destruct (_ && _); apply IH.
Qed.

Lemma CountFor_app (n d : string) (l1 l2 : list Booking) :
  CountFor n d (l1 ++ l2) = (CountFor n d l1 + CountFor n d l2)%nat.
Proof. unfold CountFor. now rewrite filter_app, length_app. Qed.

Lemma CountFor_le_length (n d : string) (l : list Booking) :
  (CountFor n d l <= List.length l)%nat.
Proof. apply filter_length_le. Qed.

(** The loop counts the bookings of the class name and date text, modulo the
    width of [int]. *)
Lemma currentBookings_CountFor (l : list Booking) (b : Booking) (n : Z) :
  currentBookings l b (GoInt.wrap n) =
  GoInt.wrap (n + Z.of_nat (CountFor (Booking_ClassName b) (Booking_Date b) l)).
Proof.
  revert n. induction l as [| x l IH]; intros n; cbn [currentBookings].
  - unfold CountFor. cbn. now rewrite Z.add_0_r.
  - unfold CountFor. cbn [filter].
    destruct (_ && _); cbn [List.length].
    + unfold GoInt.add. rewrite wrap_add_l, IH. f_equal. unfold CountFor. lia.
    + apply IH.
Qed.

Lemma currentBookings_exact (l : list Booking) (b : Booking) :
  Z.of_nat (List.length l) <= GoInt.maxInt ->
  currentBookings l b 0 =
  Z.of_nat (CountFor (Booking_ClassName b) (Booking_Date b) l).
Proof.
  intros Hlen. change 0 with (GoInt.wrap 0) at 1.
  rewrite currentBookings_CountFor. apply wrap_small.
  pose proof (CountFor_le_length (Booking_ClassName b) (Booking_Date b) l).
  unfold GoInt.minInt. lia.
Qed.

Lemma CountFor_stored (id : Z) (b : Booking) :
  CountFor (Booking_ClassName b) (Booking_Date b) [storedBooking id b] = 1%nat.
Proof.
  unfold CountFor. cbn. now rewrite !String.eqb_refl.
Qed.

Lemma currentBookings_stored (l : list Booking) (b : Booking) (id : Z) :
  currentBookings (l ++ [storedBooking id b]) b 0 =
  GoInt.add (currentBookings l b 0) 1.
Proof.
  rewrite currentBookings_app. cbn. now rewrite !String.eqb_refl.
Qed.

Lemma slotsFor_withBooking (ok : bool) (c : Class) (b : Booking) (w : World) :
  slotsFor c b (withBooking ok b w) = GoInt.sub (slotsFor c b w) 1.
Proof.
  unfold slotsFor, withBooking. cbn [bookings].
  rewrite currentBookings_stored. unfold GoInt.sub, GoInt.add.
  rewrite wrap_sub_r.
  replace (GoInt.wrap (Class_Capacity c - currentBookings (bookings w) b 0) - 1)
    with (GoInt.wrap (Class_Capacity c - currentBookings (bookings w) b 0) + (- 1))
    by lia.
  rewrite wrap_add_l. f_equal. lia.
Qed.

(** ** Persistence failure *)

(** C8: when the file write fails after the append, the handler answers
    [PersistenceFailure] and undoes nothing: the class (or booking) stays in
    the slice under the identifier it was given and the counter stays
    incremented; so the next accepted registration is appended after it under
    the next identifier, and the next booking of the same class name and date
    counts the booking that was not saved and is given the next identifier. *)
Theorem persistence_failure_no_rollback (w : World) :
  (forall r c s e,
      classRequestOk r c s e ->
      let w1 := fst (classHandler false r w) in
      snd (classHandler false r w) = PersistenceFailureClass /\
      classes w1 = classes w ++ [storedClass (classId w) c] /\
      classId w1 = GoInt.add (classId w) 1 /\
      forall ok2 r2 c2 s2 e2,
        classRequestOk r2 c2 s2 e2 ->
        classes (fst (classHandler ok2 r2 w1)) =
          classes w ++ [storedClass (classId w) c;
                        storedClass (GoInt.add (classId w) 1) c2]) /\
  (forall r b d c,
      bookingRequestOk r b d ->
      classFound (classes w) b d = Some c ->
      0 < slotsFor c b w ->
      let w1 := fst (bookingHandler false r w) in
      snd (bookingHandler false r w) = PersistenceFailureBooking /\
      bookings w1 = bookings w ++ [storedBooking (bookingId w) b] /\
      bookingId w1 = GoInt.add (bookingId w) 1 /\
      currentBookings (bookings w1) b 0 = GoInt.add (currentBookings (bookings w) b 0) 1 /\
      forall ok2,
        1 < slotsFor c b w ->
        bookings (fst (bookingHandler ok2 r w1)) =
          bookings w ++ [storedBooking (bookingId w) b;
                         storedBooking (GoInt.add (bookingId w) 1) b]).
Proof.
  split.
  - intros r c s e Hok w1. subst w1.
    rewrite (classHandler_accepts false r w c s e Hok). cbn [fst snd].
    repeat split.
    intros ok2 r2 c2 s2 e2 Hok2.
    rewrite (classHandler_accepts ok2 r2 _ c2 s2 e2 Hok2). cbn [fst withClass classes classId].
    now rewrite <- app_assoc.
  - intros r b d c Hok Hf Hfree w1. subst w1.
    rewrite (bookingHandler_accepts false r w b d c Hok Hf Hfree). cbn [fst snd].
    repeat split.
    + apply currentBookings_stored.
    + intros ok2 Hmore.
      rewrite (bookingHandler_accepts ok2 r _ b d c Hok).
      * cbn [fst withBooking bookings bookingId]. now rewrite <- app_assoc.
      * exact Hf.
      * rewrite slotsFor_withBooking. unfold GoInt.sub.
        rewrite wrap_small; [lia |].
        pose proof (wrap_range (Class_Capacity c - currentBookings (bookings w) b 0)) as B.
        unfold slotsFor, GoInt.sub in Hmore |- *.
        unfold GoInt.minInt, GoInt.maxInt in *. lia.
Qed.

(** The write of the first class fails, the write of the second succeeds;
    likewise for two bookings of the same slot. *)
Lemma persistence_failure_no_rollback_witness :
  let pilates := mkClass 0 "Pilates" "01-12-2024" "20-12-2024" 10 in
  let rahul := mkBooking 0 "Rahul R P" "16-12-2024" "Pilates" in
  let w := main {| classes_json := [storedClass 1 pilates]; bookings_json := [] |} in
  snd (classHandler false (post pilates) (main noFiles)) = PersistenceFailureClass /\
  snd (bookingHandler false (post rahul) w) = PersistenceFailureBooking /\
  bookings (fst (bookingHandler false (post rahul) w)) = [storedBooking 1 rahul].
Proof.
  intros pilates rahul w.
  destruct (persistence_failure_no_rollback (main noFiles)) as [Hc _].
  destruct (persistence_failure_no_rollback w) as [_ Hb].
  specialize (Hc (post pilates) pilates (time.Date 2024 12 1) (time.Date 2024 12 20)).
  specialize (Hb (post rahul) rahul (time.Date 2024 12 16) (storedClass 1 pilates)).
  split; [| split].
  - apply Hc. repeat split; discriminate.
  - apply Hb; [repeat split; discriminate | reflexivity | reflexivity].
  - apply Hb; [repeat split; discriminate | reflexivity | reflexivity].
Defined.

(** ** The slots returned *)

Lemma classFound_In (cs : list Class) (b : Booking) (d : time.Time) (c : Class) :
  classFound cs b d = Some c -> In c cs.
Proof.
  intros H. apply classFound_some in H. destruct H as (earlier & later & -> & _).
  apply in_or_app. right. now left.
Qed.

(** A successful response of [bookingHandler] comes from the admitting
    branch. *)
Lemma bookingHandler_success (ok : bool) (r : Request Booking) (w w' : World)
  (code : Z) (msg : string) (data : Data) :
  bookingHandler ok r w = (w', successResponse code msg data) ->
  exists b d c,
    bookingRequestOk r b d /\
    classFound (classes w) b d = Some c /\
    0 < slotsFor c b w /\
    ok = true /\
    w' = withBooking true b w /\
    code = StatusCreated /\ msg = "Booking successful" /\
    data = BookingData (storedBooking (bookingId w) b) (GoInt.sub (slotsFor c b w) 1).
Proof.
  intros H. pose proof (bookingHandler_outcome ok r w) as O. rewrite H in O.
  inversion O as [resp Hin | b d Hok Hf | b d c Hok Hf Hfull | b d c Hok Hf Hfree];
    subst.
  - repeat (destruct Hin as [Hin | Hin]; [discriminate Hin |]). destruct Hin.
  - match goal with E : _ = successResponse _ _ _ |- _ =>
      destruct ok; [injection E as <- <- <- | discriminate E] end.
    exists b, d, c.
    split; [exact Hok |]. split; [exact Hf |]. split; [exact Hfree |].
    repeat split.
Qed.

Lemma slotsFor_exact (c : Class) (b : Booking) (w : World) :
  dataModel w -> In c (classes w) ->
  slotsFor c b w =
  Class_Capacity c
  - Z.of_nat (CountFor (Booking_ClassName b) (Booking_Date b) (bookings w)).
Proof.
  intros [Hcap Hlen] Hin. unfold slotsFor, GoInt.sub.
  rewrite (currentBookings_exact _ _ Hlen).
  rewrite Forall_forall in Hcap. specialize (Hcap c Hin).
  pose proof (CountFor_le_length (Booking_ClassName b) (Booking_Date b) (bookings w)).
  apply wrap_small. unfold GoInt.minInt, GoInt.maxInt in *. lia.
Qed.

(** C3: when [bookingHandler] answers with success, the [availableSlots] it
    returns is the capacity of the matching class, minus the number of
    bookings stored for the booking's class name and date before the call,
    minus one: the slots left once the new booking, which is then in the
    slice, is counted too.  The matching class is the first class in the
    slice that bears the booking's class name and whose inclusive range
    holds the booking's date; the booking returned is the request's under
    the identifier of the counter.  (Capacities and the slice length are
    those of the data model: a stored capacity is positive.) *)
Theorem availableSlots_after_booking
  (ok : bool) (r : Request Booking) (w w' : World)
  (code : Z) (msg : string) (booking : Booking) (availableSlots : Z) :
  dataModel w ->
  bookingHandler ok r w =
    (w', successResponse code msg (BookingData booking availableSlots)) ->
  exists b d c earlier later,
    bookingRequestOk r b d /\
    classes w = earlier ++ c :: later /\
    Class_ClassName c = Booking_ClassName b /\
    time.Before d (startOf c) = false /\
    time.After d (endOf c) = false /\
    Forall (fun x => Class_ClassName x = Booking_ClassName b ->
                     ~ (time.Before d (startOf x) = false /\
                        time.After d (endOf x) = false)) earlier /\
    classFound (classes w) b d = Some c /\
    booking = storedBooking (bookingId w) b /\
    availableSlots =
      Class_Capacity c
      - Z.of_nat (CountFor (Booking_ClassName b) (Booking_Date b) (bookings w))
      - 1 /\
    bookings w' = bookings w ++ [booking] /\
    availableSlots =
      Class_Capacity c
      - Z.of_nat (CountFor (Booking_ClassName b) (Booking_Date b) (bookings w')).
Proof.
  intros Hdm H.
  destruct (bookingHandler_success _ _ _ _ _ _ _ H)
    as (b & d & c & Hok & Hf & Hfree & -> & -> & -> & -> & Hdata).
  injection Hdata as -> ->.
  pose proof Hf as Hfirst. apply classFound_some in Hfirst.
  destruct Hfirst as (earlier & later & Hcs & Hname & Hact & Hearlier).
  apply activeOn_inclusive in Hact. destruct Hact as [Hstart Hend].
  exists b, d, c, earlier, later.
  pose proof (slotsFor_exact c b w Hdm (classFound_In _ _ _ _ Hf)) as Hs.
  assert (Ha : GoInt.sub (slotsFor c b w) 1 = slotsFor c b w - 1).
  { unfold GoInt.sub. apply wrap_small.
    pose proof (wrap_range (Class_Capacity c - currentBookings (bookings w) b 0)) as B.
    unfold slotsFor, GoInt.sub in Hfree |- *.
    unfold GoInt.minInt, GoInt.maxInt in *. lia. }
  split; [exact Hok |]. split; [exact Hcs |]. split; [exact Hname |].
  split; [exact Hstart |]. split; [exact Hend |]. split.
  { eapply Forall_impl; [| exact Hearlier]. cbn beta. intros x Hx Hn Hin.
    apply activeOn_inclusive in Hin. rewrite (Hx Hn) in Hin. discriminate. }
  split; [exact Hf |]. split; [reflexivity |]. split; [| split].
  - rewrite Ha, Hs. reflexivity.
  - reflexivity.
  - cbn [withBooking bookings]. rewrite CountFor_app, CountFor_stored, Ha, Hs. lia.
Qed.

(** Scenario 2, with a Yoga class registered before the Pilates class: the
    first booking for Pilates is counted against the Pilates class of
    capacity ten, not against the Yoga class of capacity fifty that comes
    first in the slice, and returns nine available slots. *)
Lemma availableSlots_after_booking_witness :
  let yoga := mkClass 0 "Yoga" "01-12-2024" "31-12-2024" 50 in
  let pilates := mkClass 0 "Pilates" "01-12-2024" "20-12-2024" 10 in
  let rahul := mkBooking 0 "Rahul R P" "16-12-2024" "Pilates" in
  let w := fst (run (main noFiles)
                  [RegisterClass (post yoga) true; RegisterClass (post pilates) true]) in
  snd (bookingHandler true (post rahul) w)
    = successResponse StatusCreated "Booking successful"
        (BookingData (storedBooking 1 rahul) 9) /\
  exists b d c earlier later,
    bookingRequestOk (post rahul) b d /\
    classes w = earlier ++ c :: later /\
    Class_ClassName c = Booking_ClassName b /\
    time.Before d (startOf c) = false /\
    time.After d (endOf c) = false /\
    Forall (fun x => Class_ClassName x = Booking_ClassName b ->
                     ~ (time.Before d (startOf x) = false /\
                        time.After d (endOf x) = false)) earlier /\
    classFound (classes w) b d = Some c /\
    storedBooking 1 rahul = storedBooking (bookingId w) b /\
    9 = Class_Capacity c
        - Z.of_nat (CountFor (Booking_ClassName b) (Booking_Date b) (bookings w)) - 1 /\
    bookings (fst (bookingHandler true (post rahul) w))
      = bookings w ++ [storedBooking 1 rahul] /\
    9 = Class_Capacity c
        - Z.of_nat (CountFor (Booking_ClassName b) (Booking_Date b)
                      (bookings (fst (bookingHandler true (post rahul) w)))).
Proof.
  intros yoga pilates rahul w. split; [reflexivity |].
  apply (availableSlots_after_booking true (post rahul) w
           (fst (bookingHandler true (post rahul) w))
           StatusCreated "Booking successful" (storedBooking 1 rahul) 9).
  - split; [| cbn; unfold GoInt.maxInt; lia].
    repeat constructor; unfold GoInt.maxInt; cbn; lia.
  - reflexivity.
Defined.

(** ** The same booking, again and again *)

Lemma slots_sub_one (c : Class) (b : Booking) (w : World) :
  0 < slotsFor c b w -> GoInt.sub (slotsFor c b w) 1 = slotsFor c b w - 1.
Proof.
  intros Hfree. unfold GoInt.sub at 1. apply wrap_small.
  pose proof (wrap_range (Class_Capacity c - currentBookings (bookings w) b 0)) as B.
  unfold slotsFor, GoInt.sub in Hfree |- *.
  unfold GoInt.minInt, GoInt.maxInt in *. lia.
Qed.

Lemma slotsFor_max (c : Class) (b : Booking) (w : World) :
  slotsFor c b w <= GoInt.maxInt.
Proof. unfold slotsFor, GoInt.sub. apply wrap_range. Qed.

Lemma wrap_window (a b : Z) :
  GoInt.wrap a = GoInt.wrap b -> - 2 ^ 64 < a - b < 2 ^ 64 -> a = b.
Proof.
  unfold GoInt.wrap. intros E W.
  pose proof (Z.div_mod (a + 2 ^ 63) (2 ^ 64) ltac:(lia)) as Da.
  pose proof (Z.div_mod (b + 2 ^ 63) (2 ^ 64) ltac:(lia)) as Db.
  assert (Em : (a + 2 ^ 63) mod 2 ^ 64 = (b + 2 ^ 63) mod 2 ^ 64) by lia.
  rewrite Em in Da.
  assert (Eq : (a + 2 ^ 63) / 2 ^ 64 = (b + 2 ^ 63) / 2 ^ 64) by lia.
  lia.
Qed.

Lemma run_same_booking (n : nat) :
  forall (r : Request Booking) (b : Booking) (d : time.Time) (c : Class)
         (w : World) (x : Z),
    bookingRequestOk r b d ->
    classFound (classes w) b d = Some c ->
    Z.of_nat n <= slotsFor c b w ->
    bookingId w = GoInt.wrap x ->
    snd (run w (repeat (CreateBooking r true) n)) =
      map (fun i => successResponse StatusCreated "Booking successful"
                      (BookingData (storedBooking (GoInt.wrap (x + Z.of_nat i)) b)
                         (slotsFor c b w - 1 - Z.of_nat i)))
          (seq 0 n) /\
    bookings (fst (run w (repeat (CreateBooking r true) n))) =
      bookings w ++
      map (fun i => storedBooking (GoInt.wrap (x + Z.of_nat i)) b) (seq 0 n).
Proof.
  induction n as [| n IH]; intros r b d c w x Hok Hf Hn Hid.
  - cbn. now rewrite app_nil_r.
  - cbn [repeat run serve].
    assert (Hfree : 0 < slotsFor c b w) by lia.
    rewrite (bookingHandler_accepts true r w b d c Hok Hf Hfree).
    specialize (IH r b d c (withBooking true b w) (x + 1) Hok Hf).
    rewrite slotsFor_withBooking, (slots_sub_one c b w Hfree) in IH.
    specialize (IH ltac:(lia)).
    assert (Hid' : bookingId (withBooking true b w) = GoInt.wrap (x + 1)).
    { cbn [withBooking bookingId]. rewrite Hid. unfold GoInt.add. apply wrap_add_l. }
    specialize (IH Hid'). destruct IH as [IHr IHb].
    destruct (run (withBooking true b w) (repeat (CreateBooking r true) n))
      as [wn resps] eqn:Hrun.
    cbn [fst snd] in IHr, IHb |- *. subst resps. rewrite IHb.
    cbn [seq map withBooking bookings].
    rewrite <- !seq_shift, !map_map, <- app_assoc. cbn [app].
    rewrite slots_sub_one by exact Hfree.
    rewrite Hid. change (Z.of_nat 0) with 0. rewrite !Z.add_0_r, Z.sub_0_r.
    split.
    + f_equal. apply map_ext. intros i.
      replace (x + Z.of_nat (S i)) with (x + 1 + Z.of_nat i) by lia.
      replace (slotsFor c b w - 1 - Z.of_nat (S i))
        with (slotsFor c b w - 1 - 1 - Z.of_nat i) by lia.
      reflexivity.
    + do 2 f_equal. apply map_ext. intros i.
      replace (x + Z.of_nat (S i)) with (x + 1 + Z.of_nat i) by lia.
      reflexivity.
Qed.

(** C10: [bookingHandler] never looks at the member's earlier bookings.
    After a booking has succeeded with [a] slots left, the very same request
    made again, up to [a] times (the file writes succeeding), succeeds each
    time: the i-th repetition stores one more record, a copy of the first
    under the next identifier, and returns [a - i] available slots; the
    identifiers of the records so created are pairwise distinct. *)
Theorem identical_bookings_admitted
  (r : Request Booking) (w w1 : World) (code : Z) (msg : string)
  (b1 : Booking) (a : Z) (n : nat) :
  bookingHandler true r w = (w1, successResponse code msg (BookingData b1 a)) ->
  Z.of_nat n <= a ->
  let again := run w1 (repeat (CreateBooking r true) n) in
  let copy := fun i => storedBooking (GoInt.wrap (Booking_ID b1 + Z.of_nat i)) b1 in
  snd again =
    map (fun i => successResponse StatusCreated "Booking successful"
                    (BookingData (copy i) (a - Z.of_nat i)))
        (seq 1 n) /\
  bookings (fst again) = bookings w ++ b1 :: map copy (seq 1 n) /\
  NoDup (map Booking_ID (b1 :: map copy (seq 1 n))).
Proof.
  intros H Hn again copy. subst again copy.
  destruct (bookingHandler_success _ _ _ _ _ _ _ H)
    as (b & d & c & Hok & Hf & Hfree & _ & -> & -> & -> & Hdata).
  injection Hdata as -> ->.
  rewrite (slots_sub_one c b w Hfree) in Hn |- *.
  destruct (run_same_booking n r b d c (withBooking true b w) (bookingId w + 1) Hok Hf)
    as [Hr Hb].
  { rewrite slotsFor_withBooking, (slots_sub_one c b w Hfree). exact Hn. }
  { reflexivity. }
  rewrite slotsFor_withBooking, (slots_sub_one c b w Hfree) in Hr.
  cbn [storedBooking Booking_ID Booking_MemberName Booking_Date Booking_ClassName].
  fold (storedBooking (bookingId w) b).
  split; [| split].
  - rewrite Hr, <- seq_shift, map_map. apply map_ext. intros i.
    replace (bookingId w + Z.of_nat (S i)) with (bookingId w + 1 + Z.of_nat i) by lia.
    replace (slotsFor c b w - 1 - Z.of_nat (S i))
      with (slotsFor c b w - 1 - 1 - Z.of_nat i) by lia.
    reflexivity.
  - rewrite Hb. cbn [withBooking bookings]. rewrite <- app_assoc. cbn [app].
    do 2 f_equal. rewrite <- seq_shift, map_map. apply map_ext. intros i.
    replace (bookingId w + Z.of_nat (S i)) with (bookingId w + 1 + Z.of_nat i) by lia.
    reflexivity.
  - cbn [map]. rewrite map_map. cbn [storedBooking Booking_ID].
    pose proof (slotsFor_max c b w) as Hmax. unfold GoInt.maxInt in Hmax.
    constructor.
    + rewrite in_map_iff. intros (i & E & Hi). apply in_seq in Hi.
      assert (Hw : GoInt.wrap (bookingId w) = bookingId w).
      { rewrite <- E. apply wrap_idem. }
      rewrite <- Hw in E at 2. apply wrap_window in E; lia.
    + apply NoDup_map_NoDup_ForallPairs; [| apply seq_NoDup].
      intros i j Hi Hj E. apply in_seq in Hi, Hj.
      apply wrap_window in E; lia.
Qed.

(** Pilates has ten slots on 16-12-2024; the first booking leaves nine, and
    the same request is then admitted three more times. *)
Lemma identical_bookings_admitted_witness :
  let pilates := mkClass 1 "Pilates" "01-12-2024" "20-12-2024" 10 in
  let rahul := mkBooking 0 "Rahul R P" "16-12-2024" "Pilates" in
  let w := main {| classes_json := [pilates]; bookings_json := [] |} in
  let w1 := fst (bookingHandler true (post rahul) w) in
  bookings (fst (run w1 (repeat (CreateBooking (post rahul) true) 3))) =
    [storedBooking 1 rahul; storedBooking 2 rahul;
     storedBooking 3 rahul; storedBooking 4 rahul].
Proof.
  intros pilates rahul w w1.
  apply (identical_bookings_admitted (post rahul) w w1
           StatusCreated "Booking successful" (storedBooking 1 rahul) 9 3).
  - reflexivity.
  - cbn. lia.
Defined.

(** ** The date layout *)

Lemma digit_not_sign (c : ascii) :
  time.isDigitByte c = true -> Ascii.eqb c "-" = false /\ Ascii.eqb c "+" = false.
Proof.
  destruct c as [[] [] [] [] [] [] [] []]; cbv; intros H; try discriminate H;
    split; reflexivity.
Qed.

Lemma atoi_year (y1 y2 y3 y4 : ascii) :
  time.isDigitByte y1 = true ->
  time.atoi (String y1 (String y2 (String y3 (String y4 EmptyString)))) =
    if time.isDigitByte y2 && time.isDigitByte y3 && time.isDigitByte y4
    then Some (((time.digitVal y1 * 10 + time.digitVal y2) * 10
                + time.digitVal y3) * 10 + time.digitVal y4)
    else None.
Proof.
  intros D1. destruct (digit_not_sign y1 D1) as [Em Ep].
  unfold time.atoi. rewrite Em, Ep.
  cbn -[time.isDigitByte time.digitVal Z.add Z.mul]. rewrite D1.
  destruct (time.isDigitByte y2), (time.isDigitByte y3), (time.isDigitByte y4);
    reflexivity.
Qed.

(** One test of the parser at a time, on a text cut into its bytes. *)
Ltac parse_cases :=
  repeat (cbn -[time.isDigitByte time.digitVal time.atoi time.daysIn
                Z.add Z.mul Z.leb Z.ltb];
          match goal with
          | |- ?x = ?x => reflexivity
          | H : time.isDigitByte ?c = true
            |- context [time.atoi (String ?c _)] => rewrite (atoi_year _ _ _ _ H)
          | |- context [time.isDigitByte ?c] =>
            let E := fresh "Dg" in destruct (time.isDigitByte c) eqn:E
          | |- context [Ascii.eqb ?a ?b] =>
            let E := fresh "Eq" in destruct (Ascii.eqb a b) eqn:E
          | |- context [Z.leb ?a ?b] => destruct (Z.leb_spec a b)
          | |- context [Z.ltb ?a ?b] => destruct (Z.ltb_spec a b)
          end);
  try reflexivity; try lia.

(** The parser of the [time] package, on this layout, is [ParseDate]. *)
Lemma Parse_ParseDate (s : string) : time.Parse s = ParseDate s.
Proof.
  unfold ParseDate, time.Parse, layoutFields, time.getnum, time.isDigit.
  destruct s as [| d1 [| d2 [| h1 [| m1 [| m2 [| h2 [| y1 [| y2 [| y3 [| y4
                [| x s]]]]]]]]]]].
  all: parse_cases.
Qed.

Lemma Parse_inLayout (s : string) (t : time.Time) :
  time.Parse s = Some t -> inLayout s = true.
Proof.
  rewrite Parse_ParseDate. unfold ParseDate, inLayout.
  destruct (layoutFields s); [reflexivity | discriminate].
Qed.

Lemma not_inLayout_Parse (s : string) : inLayout s = false -> time.Parse s = None.
Proof.
  intros H. destruct (time.Parse s) as [t |] eqn:P; [| reflexivity].
  apply Parse_inLayout in P. rewrite P in H. discriminate.
Qed.

(** C9: the handlers parse dates with the one layout DD-MM-YYYY.  The parser
    is [ParseDate]: it accepts a text exactly when the text has two digits, a
    hyphen, two digits, a hyphen and four digits and names a day of the
    calendar.  A text in any other layout is refused: [classHandler] answers
    with the start-date or the end-date wording of [InvalidDateFormat]
    (whichever field fails first), [bookingHandler] with its own; the state
    is untouched.  So is ["12/16/2024"]. *)
Theorem date_layout_only :
  (forall s, time.Parse s = ParseDate s) /\
  (forall s t, time.Parse s = Some t -> inLayout s = true) /\
  (forall ok r w c,
      Method r = "POST" -> DecodeClass (Body r) = Some c ->
      Class_ClassName c <> "" -> Class_StartDate c <> "" -> Class_EndDate c <> "" ->
      0 < Class_Capacity c ->
      inLayout (Class_StartDate c) = false ->
      classHandler ok r w = (w, InvalidDateFormatStart)) /\
  (forall ok r w c s,
      Method r = "POST" -> DecodeClass (Body r) = Some c ->
      Class_ClassName c <> "" -> Class_StartDate c <> "" -> Class_EndDate c <> "" ->
      0 < Class_Capacity c ->
      time.Parse (Class_StartDate c) = Some s ->
      inLayout (Class_EndDate c) = false ->
      classHandler ok r w = (w, InvalidDateFormatEnd)) /\
  (forall ok r w b,
      Method r = "POST" -> DecodeBooking (Body r) = Some b ->
      Booking_MemberName b <> "" -> Booking_Date b <> "" -> Booking_ClassName b <> "" ->
      inLayout (Booking_Date b) = false ->
      bookingHandler ok r w = (w, InvalidDateFormatBooking)) /\
  inLayout "12/16/2024" = false.
Proof.
  split; [exact Parse_ParseDate |].
  split; [exact Parse_inLayout |].
  split; [| split; [| split; [| reflexivity]]].
  - intros ok r w c Hm Hd Hn Hs He Hc Hl.
    unfold classHandler. rewrite Hm, Hd. cbn [String.eqb negb].
    apply String.eqb_neq in Hn, Hs, He. rewrite Hn, Hs, He.
    assert (Hc' : (Class_Capacity c <=? 0) = false) by (apply Z.leb_gt; exact Hc).
    rewrite Hc'. cbn [orb]. now rewrite (not_inLayout_Parse _ Hl).
  - intros ok r w c s Hm Hd Hn Hs He Hc Ps Hl.
    unfold classHandler. rewrite Hm, Hd. cbn [String.eqb negb].
    apply String.eqb_neq in Hn, Hs, He. rewrite Hn, Hs, He.
    assert (Hc' : (Class_Capacity c <=? 0) = false) by (apply Z.leb_gt; exact Hc).
    rewrite Hc'. cbn [orb]. now rewrite Ps, (not_inLayout_Parse _ Hl).
  - intros ok r w b Hm Hd Hn Hs He Hl.
    unfold bookingHandler. rewrite Hm, Hd. cbn [String.eqb negb].
    apply String.eqb_neq in Hn, Hs, He. rewrite Hn, Hs, He. cbn [orb].
    now rewrite (not_inLayout_Parse _ Hl).
Qed.

(** Scenario 6, and a class whose start date is written year first. *)
Lemma date_layout_only_witness :
  let w := main {| classes_json := [mkClass 1 "Pilates" "01-12-2024" "20-12-2024" 10];
                   bookings_json := [] |} in
  bookingHandler true (post (mkBooking 0 "Alice" "12/16/2024" "Pilates")) w
    = (w, InvalidDateFormatBooking) /\
  classHandler true (post (mkClass 0 "Yoga" "2024-12-01" "31-12-2024" 20)) w
    = (w, InvalidDateFormatStart) /\
  classHandler true (post (mkClass 0 "Yoga" "01-12-2024" "31/12/2024" 20)) w
    = (w, InvalidDateFormatEnd).
Proof.
  intros w.
  destruct date_layout_only as (_ & _ & Hstart & Hend & Hbook & _).
  split; [| split].
  - apply Hbook with (b := mkBooking 0 "Alice" "12/16/2024" "Pilates");
      try reflexivity; discriminate.
  - apply Hstart with (c := mkClass 0 "Yoga" "2024-12-01" "31-12-2024" 20);
      try reflexivity; discriminate.
  - apply Hend with (c := mkClass 0 "Yoga" "01-12-2024" "31/12/2024" 20)
                    (s := time.Date 2024 12 1);
      try reflexivity; discriminate.
Defined.

Lemma digitVal_range (c : ascii) :
  time.isDigitByte c = true -> 0 <= time.digitVal c <= 9.
Proof.
  unfold time.isDigitByte, time.digitVal. cbv zeta.
  rewrite andb_true_iff, !N.leb_le. lia.
Qed.

Lemma digitVal_inj (c c' : ascii) :
  time.digitVal c = time.digitVal c' -> c = c'.
Proof.
  unfold time.digitVal. intros E.
  assert (E' : N_of_ascii c = N_of_ascii c') by lia.
  rewrite <- (ascii_N_embedding c), <- (ascii_N_embedding c'). now rewrite E'.
Qed.

(** A date has one text: two texts that parse to the same time are the same
    text, so comparing the date texts of bookings, as the counting loop
    does, is comparing their dates. *)
Lemma Parse_injective (s1 s2 : string) (t : time.Time) :
  time.Parse s1 = Some t -> time.Parse s2 = Some t -> s1 = s2.
Proof.
  rewrite !Parse_ParseDate. unfold ParseDate.
  destruct (layoutFields s1) as [[[d1 m1] y1] |] eqn:L1; [| discriminate].
  destruct (layoutFields s2) as [[[d2 m2] y2] |] eqn:L2; [| discriminate].
  destruct (_ && _); [| discriminate]. intros E1. injection E1 as <-.
  destruct (_ && _); [| discriminate]. intros E2. injection E2 as -> -> ->.
  unfold layoutFields in L1, L2.
  destruct s1 as [| a0 [| a1 [| a2 [| a3 [| a4 [| a5 [| a6 [| a7 [| a8 [| a9
                 [| ? ?]]]]]]]]]]]; try discriminate L1.
  destruct s2 as [| b0 [| b1 [| b2 [| b3 [| b4 [| b5 [| b6 [| b7 [| b8 [| b9
                 [| ? ?]]]]]]]]]]]; try discriminate L2.
  match type of L1 with (if ?c then _ else _) = _ => destruct c eqn:C1 end;
    [| discriminate L1].
  match type of L2 with (if ?c then _ else _) = _ => destruct c eqn:C2 end;
    [| discriminate L2].
  rewrite !andb_true_iff in C1, C2.
  destruct C1 as [[[[[[[[[A0 A1] A2] A3] A4] A5] A6] A7] A8] A9].
  destruct C2 as [[[[[[[[[B0 B1] B2] B3] B4] B5] B6] B7] B8] B9].
  apply Ascii.eqb_eq in A2, A5, B2, B5. subst a2 a5 b2 b5.
  injection L1 as Ed Em Ey. injection L2 as Ed' Em' Ey'.
  pose proof (digitVal_range _ A0). pose proof (digitVal_range _ A1).
  pose proof (digitVal_range _ A3). pose proof (digitVal_range _ A4).
  pose proof (digitVal_range _ A6). pose proof (digitVal_range _ A7).
  pose proof (digitVal_range _ A8). pose proof (digitVal_range _ A9).
  pose proof (digitVal_range _ B0). pose proof (digitVal_range _ B1).
  pose proof (digitVal_range _ B3). pose proof (digitVal_range _ B4).
  pose proof (digitVal_range _ B6). pose proof (digitVal_range _ B7).
  pose proof (digitVal_range _ B8). pose proof (digitVal_range _ B9).
  rewrite (digitVal_inj a0 b0) by lia. rewrite (digitVal_inj a1 b1) by lia.
  rewrite (digitVal_inj a3 b3) by lia. rewrite (digitVal_inj a4 b4) by lia.
  rewrite (digitVal_inj a6 b6) by lia. rewrite (digitVal_inj a7 b7) by lia.
  rewrite (digitVal_inj a8 b8) by lia. rewrite (digitVal_inj a9 b9) by lia.
  reflexivity.
Qed.

(** ** Identifiers *)


Section Counter.

(** One of the two counters: the identifiers in its slice, its value, and
    the identifier a response returns. *)
Variable stored : World -> list Z.
Variable counter : World -> Z.
Variable returned : Response -> list Z.

(** A call either leaves the slice and the counter alone and returns no
    identifier, or appends under the counter's value and increments the
    counter; in this case it returns that identifier unless the write
    failed. *)
Hypothesis serve_counter : forall w c,
  (stored (fst (serve w c)) = stored w /\
   counter (fst (serve w c)) = counter w /\
   returned (snd (serve w c)) = []) \/
  (stored (fst (serve w c)) = stored w ++ [counter w] /\
   counter (fst (serve w c)) = GoInt.add (counter w) 1 /\
   (returned (snd (serve w c)) = [counter w] \/
    returned (snd (serve w c)) = [] /\ writeOk c = false)).


End Counter.






(** ** The capacity invariant *)

Lemma classFound_name (cs : list Class) (b b' : Booking) (d : time.Time) :
  Booking_ClassName b = Booking_ClassName b' ->
  classFound cs b d = classFound cs b' d.
Proof.
  intros E. induction cs as [| x cs IH]; cbn [classFound]; [reflexivity |].
  now rewrite E, IH.
Qed.

Lemma capacityFor_request (cs : list Class) (b : Booking) (d : time.Time) :
  time.Parse (Booking_Date b) = Some d ->
  capacityFor (Booking_ClassName b) (Booking_Date b) cs =
    match classFound cs b d with
    | Some c => Class_Capacity c
    | None => 0
    end.
Proof.
  intros P. unfold capacityFor. rewrite P.
  now rewrite (classFound_name cs
                 (mkBooking 0 "" (Booking_Date b) (Booking_ClassName b)) b d eq_refl).
Qed.

Lemma capacityFor_nonneg (n s : string) (cs : list Class) :
  capacitiesPositive cs -> 0 <= capacityFor n s cs <= GoInt.maxInt.
Proof.
  intros Hpos. unfold capacityFor, GoInt.maxInt.
  destruct (time.Parse s) as [d |]; [| lia].
  destruct (classFound cs _ d) as [c |] eqn:Hf; [| lia].
  apply classFound_In in Hf. unfold capacitiesPositive in Hpos.
  rewrite Forall_forall in Hpos. specialize (Hpos c Hf).
  unfold GoInt.maxInt in Hpos. lia.
Qed.

Lemma capacityFor_grows (n s : string) (cs : list Class) (c : Class) :
  0 < Class_Capacity c ->
  capacityFor n s cs <= capacityFor n s (cs ++ [c]) \/
  capacityFor n s cs = capacityFor n s (cs ++ [c]).
Proof.
  intros Hc. unfold capacityFor. destruct (time.Parse s) as [d |]; [| now right].
  rewrite classFound_app. destruct (classFound cs _ d) as [c' |]; [now right |].
  left. cbn [classFound]. destruct (String.eqb _ _); [| lia].
  destruct (activeOn c d); lia.
Qed.

Lemma CountFor_snoc (n s : string) (bs : list Booking) (b : Booking) :
  CountFor n s (bs ++ [b]) =
    (CountFor n s bs +
     if String.eqb (Booking_ClassName b) n && String.eqb (Booking_Date b) s
     then 1 else 0)%nat.
Proof.
  rewrite CountFor_app. f_equal. unfold CountFor. cbn [filter].
  destruct (_ && _); reflexivity.
Qed.

(** Under the invariant the loop's counter and the subtraction do not wrap. *)
Lemma slotsFor_kept (w : World) (b : Booking) (d : time.Time) (c : Class) :
  capacitiesPositive (classes w) ->
  capacityKept (classes w) (bookings w) ->
  time.Parse (Booking_Date b) = Some d ->
  classFound (classes w) b d = Some c ->
  slotsFor c b w =
  Class_Capacity c
  - Z.of_nat (CountFor (Booking_ClassName b) (Booking_Date b) (bookings w)).
Proof.
  intros Hpos Hkept P Hf.
  pose proof (Hkept (Booking_ClassName b) (Booking_Date b)) as Hk.
  rewrite (capacityFor_request _ _ _ P), Hf in Hk.
  pose proof (classFound_In _ _ _ _ Hf) as Hin.
  unfold capacitiesPositive in Hpos. rewrite Forall_forall in Hpos.
  specialize (Hpos c Hin).
  unfold slotsFor, GoInt.sub.
  change 0 with (GoInt.wrap 0) at 1. rewrite currentBookings_CountFor.
  rewrite Z.add_0_l, wrap_sub_r. apply wrap_small.
  unfold GoInt.minInt, GoInt.maxInt in *. lia.
Qed.

(** Each call keeps the invariant. *)
Lemma serve_capacityKept (w : World) (call : Call) :
  capacitiesPositive (classes w) ->
  capacityKept (classes w) (bookings w) ->
  capacitiesPositive (classes (fst (serve w call))) /\
  capacityKept (classes (fst (serve w call))) (bookings (fst (serve w call))).
Proof.
  intros Hpos Hkept. destruct call as [r ok | r ok]; cbn [serve].
  - destruct (classHandler_outcome ok r w) as [| c s e Hok]; cbn [fst];
      [now split |].
    destruct Hok as (_ & Hd & _ & _ & _ & Hc & _).
    assert (Hmax : Class_Capacity c <= GoInt.maxInt).
    { unfold DecodeClass in Hd. destruct (Body r) as [c0 |]; [| discriminate].
      destruct (GoInt.fits (Class_ID c0) && GoInt.fits (Class_Capacity c0)) eqn:F;
        [| discriminate].
      injection Hd as ->. apply andb_true_iff in F. destruct F as [_ F].
      apply fits_range in F. lia. }
    cbn [withClass classes bookings]. split.
    + apply Forall_app. split; [exact Hpos |]. constructor; [| constructor].
      cbn [storedClass Class_Capacity]. lia.
    + intros n t. specialize (Hkept n t).
      destruct (capacityFor_grows n t (classes w) (storedClass (classId w) c) Hc); lia.
  - destruct (bookingHandler_outcome ok r w) as [| | | b d c Hok Hf Hfree]; cbn [fst];
      try (now split).
    cbn [withBooking classes bookings]. split; [exact Hpos |].
    pose proof Hok as (_ & _ & _ & _ & _ & P).
    rewrite (slotsFor_kept w b d c Hpos Hkept P Hf) in Hfree.
    intros n s. rewrite CountFor_snoc. cbn [storedBooking Booking_ClassName Booking_Date].
    destruct (String.eqb_spec (Booking_ClassName b) n) as [<- | Hn]; cbn [andb];
      [| specialize (Hkept n s); lia].
    destruct (String.eqb_spec (Booking_Date b) s) as [<- | Hs];
      [| specialize (Hkept (Booking_ClassName b) s); lia].
    rewrite (capacityFor_request _ _ _ P), Hf. lia.
Qed.

Lemma run_capacityKept (calls : list Call) :
  forall w,
    capacitiesPositive (classes w) ->
    capacityKept (classes w) (bookings w) ->
    capacitiesPositive (classes (fst (run w calls))) /\
    capacityKept (classes (fst (run w calls))) (bookings (fst (run w calls))).
Proof.
  induction calls as [| c calls IH]; intros w Hpos Hkept; [now split |].
  cbn [run]. destruct (serve_capacityKept w c Hpos Hkept) as [Hpos1 Hkept1].
  destruct (serve w c) as [w1 resp]. cbn [fst] in Hpos1, Hkept1.
  specialize (IH w1 Hpos1 Hkept1). destruct (run w1 calls) as [w2 resps].
  exact IH.
Qed.

Lemma start_capacityKept :
  capacitiesPositive (classes (main noFiles)) /\
  capacityKept (classes (main noFiles)) (bookings (main noFiles)).
Proof.
  split; [constructor |]. intros n s. cbn [main noFiles bookings bookings_json].
  change (CountFor n s []) with 0%nat.
  pose proof (capacityFor_nonneg n s [] ltac:(constructor)). cbn in *. lia.
Qed.

(** A class whose name no other stored class bears governs its name. *)
Lemma capacityFor_own (cs : list Class) (c : Class) (date : string) :
  capacitiesPositive cs ->
  In c cs ->
  (forall c', In c' cs -> Class_ClassName c' = Class_ClassName c -> c' = c) ->
  capacityFor (Class_ClassName c) date cs <= Class_Capacity c.
Proof.
  intros Hpos Hin Huniq. unfold capacitiesPositive in Hpos.
  rewrite Forall_forall in Hpos. pose proof (Hpos c Hin) as Hc.
  unfold capacityFor. destruct (time.Parse date) as [d |]; [| lia].
  destruct (classFound cs _ d) as [c' |] eqn:Hf; [| lia].
  pose proof (classFound_In _ _ _ _ Hf) as Hin'.
  apply classFound_some in Hf. destruct Hf as (_ & _ & _ & Hname & _).
  cbn [Booking_ClassName] in Hname. rewrite (Huniq c' Hin' Hname). lia.
Qed.

(** The invariant over the calls served one after the other. *)
Lemma run_capacity_never_exceeded (calls : list Call) :
  let w := fst (run (main noFiles) calls) in
  (forall className date,
      Z.of_nat (CountFor className date (bookings w))
      <= capacityFor className date (classes w)) /\
  (forall c date,
      In c (classes w) ->
      (forall c', In c' (classes w) -> Class_ClassName c' = Class_ClassName c -> c' = c) ->
      Z.of_nat (CountFor (Class_ClassName c) date (bookings w)) <= Class_Capacity c) /\
  (forall ok r,
      bookings (fst (bookingHandler ok r w)) <> bookings w ->
      exists b d c,
        bookingRequestOk r b d /\
        classFound (classes w) b d = Some c /\
        Z.of_nat (CountFor (Booking_ClassName b) (Booking_Date b) (bookings w))
        < Class_Capacity c).
Proof.
  intros w. subst w.
  destruct start_capacityKept as [Hpos0 Hkept0].
  destruct (run_capacityKept calls (main noFiles) Hpos0 Hkept0) as [Hpos Hkept].
  split; [exact Hkept |]. split.
  - intros c date Hin Huniq.
    pose proof (Hkept (Class_ClassName c) date).
    pose proof (capacityFor_own _ c date Hpos Hin Huniq). lia.
  - intros ok r Hch.
    destruct (bookingHandler_outcome ok r (fst (run (main noFiles) calls)))
      as [| | | b d c Hok Hf Hfree]; cbn [fst] in Hch; try (now contradiction Hch).
    exists b, d, c. split; [exact Hok |]. split; [exact Hf |].
    pose proof Hok as (_ & _ & _ & _ & _ & P).
    rewrite (slotsFor_kept _ b d c Hpos Hkept P Hf) in Hfree. lia.
Qed.

(** C1, as the specification has it, fails for a class that shares its name
    with an earlier one: two classes named Pilates over the same days, the
    first with two slots and the second with one; two bookings for
    16-12-2024 are admitted against the first, and the second class then has
    more bookings to its name on that date than its capacity. *)
Lemma capacity_of_same_named_class_exceeded :
  let first := mkClass 0 "Pilates" "01-12-2024" "20-12-2024" 2 in
  let second := mkClass 0 "Pilates" "01-12-2024" "20-12-2024" 1 in
  let rahul := mkBooking 0 "Rahul R P" "16-12-2024" "Pilates" in
  let jane := mkBooking 0 "Jane Doe" "16-12-2024" "Pilates" in
  let w := fst (run (main noFiles)
                  [RegisterClass (post first) true; RegisterClass (post second) true;
                   CreateBooking (post rahul) true; CreateBooking (post jane) true]) in
  In (storedClass 2 second) (classes w) /\
  ~ (Z.of_nat (CountFor (Class_ClassName (storedClass 2 second)) "16-12-2024" (bookings w))
     <= Class_Capacity (storedClass 2 second)).
Proof.
  intros first second rahul jane w. split.
  - right. left. reflexivity.
  - assert (E : CountFor (Class_ClassName (storedClass 2 second)) "16-12-2024"
                  (bookings w) = 2%nat) by reflexivity.
    rewrite E. cbn. lia.
Qed.

(** ** Goroutines *)

Lemma classHandler_check (ok : bool) (r : Request Class) (w : World) :
  classHandler ok r w =
    match checkClass r with
    | inl resp => (w, resp)
    | inr c =>
      (withClass ok c w,
       if ok then successResponse StatusCreated "Class created successfully"
                    (ClassData (storedClass (classId w) c))
       else PersistenceFailureClass)
    end.
Proof.
  unfold classHandler, checkClass.
  destruct (negb (String.eqb (Method r) "POST")); [reflexivity |].
  destruct (DecodeClass (Body r)) as [c |]; [| reflexivity].
  destruct (_ || _); [reflexivity |].
  destruct (time.Parse (Class_StartDate c)); [| reflexivity].
  destruct (time.Parse (Class_EndDate c)); [| reflexivity].
  destruct (time.Before _ _); [reflexivity |].
  unfold writeDataToJsonFile, withClass, storedClass. destruct ok; reflexivity.
Qed.

Lemma bookingHandler_check (ok : bool) (r : Request Booking) (w : World) :
  bookingHandler ok r w =
    match checkBooking r with
    | inl resp => (w, resp)
    | inr (b, d) =>
      match classFound (classes w) b d with
      | None => (w, ClassUnavailable)
      | Some c =>
        if slotsFor c b w <=? 0 then (w, CapacityExceeded)
        else (withBooking ok b w,
              if ok then successResponse StatusCreated "Booking successful"
                           (BookingData (storedBooking (bookingId w) b)
                              (GoInt.sub (slotsFor c b w) 1))
              else PersistenceFailureBooking)
      end
    end.
Proof.
  unfold bookingHandler, checkBooking.
  destruct (negb (String.eqb (Method r) "POST")); [reflexivity |].
  destruct (DecodeBooking (Body r)) as [b |]; [| reflexivity].
  destruct (_ || _); [reflexivity |].
  destruct (time.Parse (Booking_Date b)) as [d |]; [| reflexivity].
  destruct (classFound (classes w) b d) as [c |]; [| reflexivity].
  fold (slotsFor c b w). destruct (slotsFor c b w <=? 0); [reflexivity |].
  unfold writeDataToJsonFile, withBooking, storedBooking. destruct ok; reflexivity.
Qed.

Lemma checkClass_capacity (r : Request Class) (c : Class) :
  checkClass r = inr c -> 0 < Class_Capacity c <= GoInt.maxInt.
Proof.
  unfold checkClass.
  destruct (negb (String.eqb (Method r) "POST")); [discriminate |].
  destruct (DecodeClass (Body r)) as [c' |] eqn:Hd; [| discriminate].
  destruct (String.eqb (Class_ClassName c') ""); [discriminate |].
  destruct (String.eqb (Class_StartDate c') ""); [discriminate |].
  destruct (String.eqb (Class_EndDate c') ""); [discriminate |].
  destruct (Z.leb_spec (Class_Capacity c') 0) as [| Hc]; [discriminate |].
  cbn [orb].
  destruct (time.Parse (Class_StartDate c')); [| discriminate].
  destruct (time.Parse (Class_EndDate c')); [| discriminate].
  destruct (time.Before _ _); [discriminate |].
  intros H. injection H as <-.
  unfold DecodeClass in Hd. destruct (Body r) as [c0 |]; [| discriminate].
  destruct (GoInt.fits (Class_ID c0) && GoInt.fits (Class_Capacity c0)) eqn:F;
    [| discriminate].
  injection Hd as <-. apply andb_true_iff in F. destruct F as [_ F].
  apply fits_range in F. lia.
Qed.

Lemma checkBooking_date (r : Request Booking) (b : Booking) (d : time.Time) :
  checkBooking r = inr (b, d) -> time.Parse (Booking_Date b) = Some d.
Proof.
  unfold checkBooking.
  destruct (negb (String.eqb (Method r) "POST")); [discriminate |].
  destruct (DecodeBooking (Body r)) as [b' |]; [| discriminate].
  destruct (_ || _); [discriminate |].
  destruct (time.Parse (Booking_Date b')) as [d' |] eqn:P; [| discriminate].
  intros H. injection H as <- <-. exact P.
Qed.

(** A goroutine that runs without any other taking the mutex does what its
    handler does. *)
Lemma threadRun_alone (i : nat) (w : World) (call : Call) :
  threadRun 7 i None w (Received call) =
    (None, fst (serve w call), Done (snd (serve w call))).
Proof.
  destruct call as [r ok | r ok]; cbn [serve threadRun threadStep].
  - rewrite classHandler_check. destruct (checkClass r) as [resp | c]; [reflexivity |].
    cbn. unfold withClass, writeDataToJsonFile. destruct ok; reflexivity.
  - rewrite bookingHandler_check.
    destruct (checkBooking r) as [resp | [b d]]; [reflexivity |].
    cbn [threadRun threadStep classes].
    destruct (classFound (classes w) b d) as [c |]; [| reflexivity].
    cbn [threadRun threadStep bookings]. fold (slotsFor c b w).
    destruct (slotsFor c b w <=? 0); [reflexivity |].
    cbn. unfold withBooking, writeDataToJsonFile. destruct ok; reflexivity.
Qed.

Lemma setThread_same (i : nat) (t : Thread) (g : nat -> Thread) :
  setThread i t g i = t.
Proof. unfold setThread. now rewrite Nat.eqb_refl. Qed.

Lemma setThread_other (i j : nat) (t : Thread) (g : nat -> Thread) :
  j <> i -> setThread i t g j = g j.
Proof. intros N. unfold setThread. apply Nat.eqb_neq in N. now rewrite N. Qed.

Lemma exec_app (s : System) (l1 l2 : list nat) :
  exec s (l1 ++ l2) = exec (exec s l1) l2.
Proof. revert s. induction l1 as [| i l1 IH]; intros s; [reflexivity | apply IH]. Qed.

Lemma exec_repeat (n i : nat) :
  forall s,
    mutex (exec s (repeat i n))
      = fst (fst (threadRun n i (mutex s) (world s) (goroutine s i))) /\
    world (exec s (repeat i n))
      = snd (fst (threadRun n i (mutex s) (world s) (goroutine s i))) /\
    goroutine (exec s (repeat i n)) i
      = snd (threadRun n i (mutex s) (world s) (goroutine s i)) /\
    forall j, j <> i -> goroutine (exec s (repeat i n)) j = goroutine s j.
Proof.
  induction n as [| n IH]; intros s; [now repeat split |].
  cbn [repeat exec threadRun]. destruct (IH (step i s)) as (IHm & IHw & IHt & IHo).
  unfold step in IHm, IHw, IHt, IHo |- *.
  destruct (threadStep i (mutex s) (world s) (goroutine s i)) as [[m w] t].
  cbn [mutex world goroutine] in IHm, IHw, IHt, IHo.
  rewrite setThread_same in IHm, IHw, IHt.
  repeat split; try assumption.
  intros j N. rewrite (IHo j N). now apply setThread_other.
Qed.

Lemma oneByOne_S (k n : nat) : oneByOne k (S n) = repeat k 7 ++ oneByOne (S k) n.
Proof. reflexivity. Qed.

Lemma run_cons (w : World) (c : Call) (rest : list Call) :
  fst (run w (c :: rest)) = fst (run (fst (serve w c)) rest).
Proof.
  cbn [run]. destruct (serve w c) as [w1 resp]. cbn [fst].
  now destruct (run w1 rest).
Qed.

(** The calls served one after the other are one of the schedules. *)
Lemma exec_oneByOne (calls : nat -> Call) (n : nat) :
  forall k s,
    mutex s = None ->
    (forall j, (k <= j)%nat -> goroutine s j = Received (calls j)) ->
    world (exec s (oneByOne k n)) = fst (run (world s) (map calls (seq k n))).
Proof.
  induction n as [| n IH]; intros k s Hm Hg; [reflexivity |].
  rewrite oneByOne_S, exec_app.
  change (map calls (seq k (S n))) with (calls k :: map calls (seq (S k) n)).
  rewrite run_cons.
  destruct (exec_repeat 7 k s) as (Hm1 & Hw1 & _ & Ho).
  rewrite Hm, (Hg k (le_n k)), threadRun_alone in Hm1, Hw1.
  cbn [fst snd] in Hm1, Hw1.
  rewrite (IH (S k) (exec s (repeat k 7)) Hm1).
  - now rewrite Hw1.
  - intros j Hj. rewrite Ho by lia. apply Hg. lia.
Qed.

(** What a goroutine outside the critical section knows does not depend on
    the package state. *)
Lemma threadOk_outside (w w' : World) (t : Thread) :
  critical t = false -> threadOk w t -> threadOk w' t.
Proof. destruct t; cbn; intros C H; try discriminate C; exact H. Qed.

Lemma threadOk_same_slices (w w' : World) (t : Thread) :
  classes w' = classes w -> bookings w' = bookings w ->
  threadOk w t -> threadOk w' t.
Proof.
  intros Ec Eb. destruct t; cbn; intros H; try exact H.
  - rewrite Ec. exact H.
  - unfold slotsFor. rewrite Ec, Eb. exact H.
Qed.

(** One step of a goroutine: the capacity invariant is kept, the goroutine
    is in the critical section afterwards exactly when it holds the mutex,
    and it knows what its new program point needs.  Outside the critical
    section it leaves the slices alone and takes the mutex only when free. *)
Lemma threadStep_inv (i : nat) (m : option nat) (w : World) (t : Thread) :
  capacitiesPositive (classes w) ->
  capacityKept (classes w) (bookings w) ->
  threadOk w t ->
  (critical t = true <-> m = Some i) ->
  let '(m', w', t') := threadStep i m w t in
  capacitiesPositive (classes w') /\
  capacityKept (classes w') (bookings w') /\
  threadOk w' t' /\
  (critical t' = true <-> m' = Some i) /\
  (critical t = false ->
   classes w' = classes w /\ bookings w' = bookings w /\
   (m' = m \/ m = None /\ m' = Some i)) /\
  (critical t = true -> m' = Some i \/ m' = None).
Proof.
  intros Hpos Hkept Hok Hcrit.
  destruct t as [[r ok | r ok] | ok c | ok c | ok c | ok b d | ok b d | ok b c
                 | ok b a | ok b a | resp | resp];
    cbn [threadStep critical threadOk] in *.
  - (* Received, a class request *)
    destruct (checkClass r) as [resp | c] eqn:Hc; cbn [critical threadOk];
      repeat split; auto; try tauto.
    all: apply (checkClass_capacity r c Hc).
  - (* Received, a booking request *)
    destruct (checkBooking r) as [resp | [b d]] eqn:Hc; cbn [critical threadOk];
      repeat split; auto; try tauto.
    apply (checkBooking_date r b d Hc).
  - (* LockClass *)
    destruct m as [j |]; cbn [critical threadOk]; repeat split; auto; try tauto.
    all: try (intros; discriminate).
  - (* AppendClass *)
    cbn [critical threadOk classes bookings].
    split; [| split; [| repeat split; auto; try tauto; discriminate]].
    + apply Forall_app. split; [exact Hpos |]. constructor; [| constructor].
      cbn [storedClass Class_Capacity]. exact Hok.
    + intros n s. specialize (Hkept n s).
      destruct (capacityFor_grows n s (classes w) (storedClass (classId w) c)
                  ltac:(cbn; lia)); lia.
  - (* WriteClass *)
    unfold writeDataToJsonFile. destruct ok; cbn [critical threadOk classes bookings];
      repeat split; auto; try tauto; discriminate.
  - (* LockBooking *)
    destruct m as [j |]; cbn [critical threadOk]; repeat split; auto; try tauto.
    all: try (intros; discriminate).
  - (* FindClass *)
    destruct (classFound (classes w) b d) as [c |] eqn:Hf; cbn [critical threadOk];
      repeat split; auto; try tauto; try discriminate.
    exists d. now split.
  - (* CountBookings *)
    destruct Hok as (d & P & Hf). fold (slotsFor c b w).
    destruct (Z.leb_spec (slotsFor c b w) 0) as [Hfull | Hfree];
      cbn [critical threadOk]; repeat split; auto; try tauto; try discriminate.
    exists d, c. repeat split; auto.
  - (* AppendBooking *)
    destruct Hok as (d & c & P & Hf & -> & Hfree).
    cbn [critical threadOk classes bookings].
    split; [exact Hpos |].
    split; [| repeat split; auto; try tauto; discriminate].
    rewrite (slotsFor_kept w b d c Hpos Hkept P Hf) in Hfree.
    intros n s. rewrite CountFor_snoc.
    cbn [storedBooking Booking_ClassName Booking_Date].
    destruct (String.eqb_spec (Booking_ClassName b) n) as [<- | Hn]; cbn [andb];
      [| specialize (Hkept n s); lia].
    destruct (String.eqb_spec (Booking_Date b) s) as [<- | Hs];
      [| specialize (Hkept (Booking_ClassName b) s); lia].
    rewrite (capacityFor_request _ _ _ P), Hf. lia.
  - (* WriteBooking *)
    unfold writeDataToJsonFile. destruct ok; cbn [critical threadOk classes bookings];
      repeat split; auto; try tauto; discriminate.
  - (* Unlock *)
    cbn [critical threadOk]. repeat split; auto; try tauto; try discriminate.
  - (* Done *)
    repeat split; auto; tauto.
Qed.

Lemma step_serverInv (i : nat) (s : System) : serverInv s -> serverInv (step i s).
Proof.
  intros (Hpos & Hkept & Hcrit & Hok). unfold step.
  pose proof (threadStep_inv i (mutex s) (world s) (goroutine s i)
                Hpos Hkept (Hok i) (Hcrit i)) as H.
  destruct (threadStep i (mutex s) (world s) (goroutine s i)) as [[m' w'] t'].
  destruct H as (Hpos' & Hkept' & Hok' & Hcrit' & Hout & Hin).
  unfold serverInv. cbn [world mutex goroutine].
  split; [exact Hpos' |]. split; [exact Hkept' |].
  assert (Hothers : forall j, j <> i ->
            (critical (goroutine s j) = true <-> m' = Some j) /\
            threadOk w' (goroutine s j)).
  { intros j N. specialize (Hcrit j) as Hj. specialize (Hcrit i) as Hi.
    destruct (critical (goroutine s i)) eqn:Ci.
    - (* goroutine [i] holds the mutex: [j] is outside *)
      assert (Hm : mutex s = Some i) by now apply Hi.
      assert (Cj : critical (goroutine s j) = false).
      { destruct (critical (goroutine s j)); [| reflexivity].
        assert (E : mutex s = Some j) by now apply Hj. congruence. }
      split.
      + rewrite Cj. split; [discriminate |].
        intros E. destruct (Hin eq_refl) as [E' | E']; congruence.
      + apply threadOk_outside with (w := world s); [exact Cj | apply Hok].
    - (* goroutine [i] is outside: the slices are as they were *)
      destruct (Hout eq_refl) as (Ec & Eb & Hm). split.
      + destruct Hm as [-> | [Hnone ->]]; [exact Hj |].
        rewrite Hj, Hnone. split; [discriminate | intros E; congruence].
      + apply threadOk_same_slices with (w := world s); auto. }
  split; intros j; destruct (Nat.eq_dec j i) as [-> | N].
  - rewrite setThread_same. exact Hcrit'.
  - rewrite setThread_other by exact N. now apply Hothers.
  - rewrite setThread_same. exact Hok'.
  - rewrite setThread_other by exact N. now apply Hothers.
Qed.

Lemma exec_serverInv (schedule : list nat) :
  forall s, serverInv s -> serverInv (exec s schedule).
Proof.
  induction schedule as [| i rest IH]; intros s H; [exact H |].
  cbn [exec]. apply IH, step_serverInv, H.
Qed.

Lemma start_serverInv (calls : nat -> Call) : serverInv (start (main noFiles) calls).
Proof.
  destruct start_capacityKept as [Hpos Hkept].
  unfold serverInv, start. cbn [world mutex goroutine critical threadOk].
  repeat split; auto; discriminate.
Qed.

(** C1, as the code has it.  Start the server on empty files and let any
    requests of either kind be served, one after the other or by goroutines
    that the scheduler interleaves in any way.  In every state reached, for
    every class name and date text, the number of stored bookings with that
    name and date is at most the capacity of the class the lookup selects
    for them (the first-inserted class of that name whose range holds the
    date), and is zero when there is none; so it is at most the capacity of
    every class whose name no other stored class bears.  A booking is
    appended only when the count for its name and date, taken just before,
    is strictly below the capacity of the class found for it. *)
Theorem capacity_never_exceeded :
  (forall calls : list Call,
      let w := fst (run (main noFiles) calls) in
      (forall className date,
          Z.of_nat (CountFor className date (bookings w))
          <= capacityFor className date (classes w)) /\
      (forall c date,
          In c (classes w) ->
          (forall c', In c' (classes w) ->
                      Class_ClassName c' = Class_ClassName c -> c' = c) ->
          Z.of_nat (CountFor (Class_ClassName c) date (bookings w))
          <= Class_Capacity c) /\
      (forall ok r,
          bookings (fst (bookingHandler ok r w)) <> bookings w ->
          exists b d c,
            bookingRequestOk r b d /\
            classFound (classes w) b d = Some c /\
            Z.of_nat (CountFor (Booking_ClassName b) (Booking_Date b) (bookings w))
            < Class_Capacity c)) /\
  (forall (calls : nat -> Call) (schedule : list nat),
      let s := exec (start (main noFiles) calls) schedule in
      let w := world s in
      (forall className date,
          Z.of_nat (CountFor className date (bookings w))
          <= capacityFor className date (classes w)) /\
      (forall c date,
          In c (classes w) ->
          (forall c', In c' (classes w) ->
                      Class_ClassName c' = Class_ClassName c -> c' = c) ->
          Z.of_nat (CountFor (Class_ClassName c) date (bookings w))
          <= Class_Capacity c) /\
      (forall i ok b a,
          goroutine s i = AppendBooking ok b a ->
          exists d c,
            time.Parse (Booking_Date b) = Some d /\
            classFound (classes w) b d = Some c /\
            Z.of_nat (CountFor (Booking_ClassName b) (Booking_Date b) (bookings w))
            < Class_Capacity c)).
Proof.
  split; [exact run_capacity_never_exceeded |].
  intros calls schedule s w. subst w s.
  destruct (exec_serverInv schedule _ (start_serverInv calls))
    as (Hpos & Hkept & _ & Hok).
  set (s := exec (start (main noFiles) calls) schedule) in *.
  split; [exact Hkept |]. split.
  - intros c date Hin Huniq.
    pose proof (Hkept (Class_ClassName c) date).
    pose proof (capacityFor_own _ c date Hpos Hin Huniq). lia.
  - intros i ok b a Hi. specialize (Hok i). rewrite Hi in Hok.
    destruct Hok as (d & c & P & Hf & -> & Hfree).
    exists d, c. split; [exact P |]. split; [exact Hf |].
    rewrite (slotsFor_kept (world s) b d c Hpos Hkept P Hf) in Hfree. lia.
Qed.

(** One class of two slots; once it is registered, three goroutines book it
    at the same time, the scheduler giving each a step in turn: two bookings
    are stored and the third goroutine is answered [CapacityExceeded]. *)
Lemma capacity_never_exceeded_witness :
  let pilates := mkClass 0 "Pilates" "01-12-2024" "20-12-2024" 2 in
  let rahul := mkBooking 0 "Rahul R P" "16-12-2024" "Pilates" in
  let calls := fun i : nat =>
                 match i with
                 | O => RegisterClass (post pilates) true
                 | _ => CreateBooking (post rahul) true
                 end in
  let schedule := repeat 0%nat 5 ++ List.concat (repeat [1; 2; 3]%nat 20) in
  let s := exec (start (main noFiles) calls) schedule in
  Z.of_nat (CountFor "Pilates" "16-12-2024" (bookings (world s)))
  <= capacityFor "Pilates" "16-12-2024" (classes (world s)) /\
  List.length (bookings (world s)) = 2%nat /\
  goroutine s 3%nat = Done CapacityExceeded.
Proof.
  intros pilates rahul calls schedule s.
  pose proof (proj2 capacity_never_exceeded calls schedule) as H.
  cbv zeta in H. fold s in H. destruct H as [H _].
  split; [exact (H "Pilates" "16-12-2024") |].
  split; vm_compute; reflexivity.
Defined.

(** * Further properties of the code *)

(** ** What the checks before the mutex decide *)

Lemma checkClass_cases (r : Request Class) :
  (exists c s e, checkClass r = inr c /\ classRequestOk r c s e) \/
  (exists resp,
      checkClass r = inl resp /\
      ~ (exists c s e, classRequestOk r c s e) /\
      (Method r <> "POST" /\ statusOf resp = StatusMethodNotAllowed \/
       Method r = "POST" /\ statusOf resp = StatusBadRequest)).
Proof.
  unfold checkClass.
  destruct (String.eqb_spec (Method r) "POST") as [Hm | Hm]; cbn [negb].
  2:{ right. eexists. split; [reflexivity |]. split; [| left; now split].
      intros (c & s & e & Hm' & _). contradiction. }
  destruct (DecodeClass (Body r)) as [c |] eqn:Hd.
  2:{ right. eexists. split; [reflexivity |]. split; [| right; now split].
      intros (c & s & e & _ & Hd' & _). congruence. }
  assert (Hsame : forall c' s e, classRequestOk r c' s e -> c' = c).
  { intros c' s e (_ & Hd' & _). congruence. }
  destruct (String.eqb_spec (Class_ClassName c) "") as [Hn | Hn]; cbn [orb].
  { right. eexists. split; [reflexivity |]. split; [| right; now split].
    intros (c' & s & e & Hok). pose proof (Hsame _ _ _ Hok) as ->.
    destruct Hok as (_ & _ & Hn' & _). contradiction. }
  destruct (String.eqb_spec (Class_StartDate c) "") as [Hs | Hs]; cbn [orb].
  { right. eexists. split; [reflexivity |]. split; [| right; now split].
    intros (c' & s & e & Hok). pose proof (Hsame _ _ _ Hok) as ->.
    destruct Hok as (_ & _ & _ & Hs' & _). contradiction. }
  destruct (String.eqb_spec (Class_EndDate c) "") as [He | He]; cbn [orb].
  { right. eexists. split; [reflexivity |]. split; [| right; now split].
    intros (c' & s & e & Hok). pose proof (Hsame _ _ _ Hok) as ->.
    destruct Hok as (_ & _ & _ & _ & He' & _). contradiction. }
  destruct (Z.leb_spec (Class_Capacity c) 0) as [Hc | Hc].
  { right. eexists. split; [reflexivity |]. split; [| right; now split].
    intros (c' & s & e & Hok). pose proof (Hsame _ _ _ Hok) as ->.
    destruct Hok as (_ & _ & _ & _ & _ & Hc' & _). lia. }
  destruct (time.Parse (Class_StartDate c)) as [s |] eqn:Ps.
  2:{ right. eexists. split; [reflexivity |]. split; [| right; now split].
      intros (c' & s & e & Hok). pose proof (Hsame _ _ _ Hok) as ->.
      destruct Hok as (_ & _ & _ & _ & _ & _ & Ps' & _). congruence. }
  destruct (time.Parse (Class_EndDate c)) as [e |] eqn:Pe.
  2:{ right. eexists. split; [reflexivity |]. split; [| right; now split].
      intros (c' & s' & e & Hok). pose proof (Hsame _ _ _ Hok) as ->.
      destruct Hok as (_ & _ & _ & _ & _ & _ & _ & Pe' & _). congruence. }
  destruct (time.Before e s) eqn:Hb.
  { right. eexists. split; [reflexivity |]. split; [| right; now split].
    intros (c' & s' & e' & Hok). pose proof (Hsame _ _ _ Hok) as ->.
    destruct Hok as (_ & _ & _ & _ & _ & _ & Ps' & Pe' & Hb'). congruence. }
  left. exists c, s, e. split; [reflexivity |]. repeat split; assumption.
Qed.

Lemma checkBooking_cases (r : Request Booking) :
  (exists b d, checkBooking r = inr (b, d) /\ bookingRequestOk r b d) \/
  (exists resp,
      checkBooking r = inl resp /\
      ~ (exists b d, bookingRequestOk r b d) /\
      (Method r <> "POST" /\ statusOf resp = StatusMethodNotAllowed \/
       Method r = "POST" /\ statusOf resp = StatusBadRequest)).
Proof.
  unfold checkBooking.
  destruct (String.eqb_spec (Method r) "POST") as [Hm | Hm]; cbn [negb].
  2:{ right. eexists. split; [reflexivity |]. split; [| left; now split].
      intros (b & d & Hm' & _). contradiction. }
  destruct (DecodeBooking (Body r)) as [b |] eqn:Hd.
  2:{ right. eexists. split; [reflexivity |]. split; [| right; now split].
      intros (b & d & _ & Hd' & _). congruence. }
  assert (Hsame : forall b' d, bookingRequestOk r b' d -> b' = b).
  { intros b' d (_ & Hd' & _). congruence. }
  destruct (String.eqb_spec (Booking_MemberName b) "") as [Hn | Hn]; cbn [orb].
  { right. eexists. split; [reflexivity |]. split; [| right; now split].
    intros (b' & d & Hok). pose proof (Hsame _ _ Hok) as ->.
    destruct Hok as (_ & _ & Hn' & _). contradiction. }
  destruct (String.eqb_spec (Booking_Date b) "") as [Hs | Hs]; cbn [orb].
  { right. eexists. split; [reflexivity |]. split; [| right; now split].
    intros (b' & d & Hok). pose proof (Hsame _ _ Hok) as ->.
    destruct Hok as (_ & _ & _ & Hs' & _). contradiction. }
  destruct (String.eqb_spec (Booking_ClassName b) "") as [He | He]; cbn [orb].
  { right. eexists. split; [reflexivity |]. split; [| right; now split].
    intros (b' & d & Hok). pose proof (Hsame _ _ Hok) as ->.
    destruct Hok as (_ & _ & _ & _ & He' & _). contradiction. }
  destruct (time.Parse (Booking_Date b)) as [d |] eqn:Pd.
  2:{ right. eexists. split; [reflexivity |]. split; [| right; now split].
      intros (b' & d & Hok). pose proof (Hsame _ _ Hok) as ->.
      destruct Hok as (_ & _ & _ & _ & _ & Pd'). congruence. }
  left. exists b, d. split; [reflexivity |]. repeat split; assumption.
Qed.

Lemma withClass_changes (ok : bool) (c : Class) (w : World) : withClass ok c w <> w.
Proof.
  intros E. apply (f_equal (fun x => List.length (classes x))) in E.
  cbn [withClass classes] in E. rewrite length_app in E. cbn in E. lia.
Qed.

Lemma withBooking_changes (ok : bool) (b : Booking) (w : World) :
  withBooking ok b w <> w.
Proof.
  intros E. apply (f_equal (fun x => List.length (bookings x))) in E.
  cbn [withBooking bookings] in E. rewrite length_app in E. cbn in E. lia.
Qed.

(** X1: the status code of [classHandler] tells what happened.  405 exactly
    for a method other than POST (whatever the body); 201 exactly when the
    request passes every check and the file write succeeds; 500 exactly when
    it passes every check and the write fails; 400 exactly for a POST request
    that fails a check.  The state is left as it was exactly for 400 and
    405. *)
Theorem classHandler_status (ok : bool) (r : Request Class) (w : World) :
  let resp := snd (classHandler ok r w) in
  (statusOf resp = StatusMethodNotAllowed <-> Method r <> "POST") /\
  (statusOf resp = StatusCreated <->
   ok = true /\ exists c s e, classRequestOk r c s e) /\
  (statusOf resp = StatusInternalServerError <->
   ok = false /\ exists c s e, classRequestOk r c s e) /\
  (statusOf resp = StatusBadRequest <->
   Method r = "POST" /\ ~ exists c s e, classRequestOk r c s e) /\
  (fst (classHandler ok r w) = w <->
   statusOf resp = StatusBadRequest \/ statusOf resp = StatusMethodNotAllowed).
Proof.
  cbv zeta. rewrite classHandler_check.
  destruct (checkClass_cases r)
    as [(c & s & e & -> & Hok) | (resp & -> & Hno & Hst)]; cbn [fst snd].
  - assert (Hm : Method r = "POST") by apply Hok.
    assert (Hex : exists c s e, classRequestOk r c s e) by (exists c, s, e; exact Hok).
    pose proof (withClass_changes ok c w) as Hch.
    destruct ok; cbn [statusOf PersistenceFailureClass];
      unfold StatusCreated, StatusInternalServerError, StatusBadRequest,
             StatusMethodNotAllowed;
      repeat split; intros; try tauto; try lia; try discriminate; try congruence.
    all: try (destruct H; [lia | lia]).
    all: try (destruct H; discriminate).
  - unfold StatusCreated, StatusInternalServerError, StatusBadRequest,
           StatusMethodNotAllowed in *.
    destruct Hst as [[Hm Hs] | [Hm Hs]]; rewrite Hs;
      repeat split; intros; try tauto; try lia; try discriminate.
    all: try (destruct H; tauto).
Qed.

(** X2: the status code of [bookingHandler] tells what happened.  405
    exactly for a method other than POST; 201 exactly when the request passes
    the checks, a class is found for its name and date, slots are left and
    the file write succeeds; 500 exactly in the same case with the write
    failing; 400 exactly for a POST request otherwise.  The state is left as
    it was exactly for 400 and 405. *)
Theorem bookingHandler_status (ok : bool) (r : Request Booking) (w : World) :
  let resp := snd (bookingHandler ok r w) in
  let admitted :=
    exists b d c, bookingRequestOk r b d /\
                  classFound (classes w) b d = Some c /\
                  0 < slotsFor c b w in
  (statusOf resp = StatusMethodNotAllowed <-> Method r <> "POST") /\
  (statusOf resp = StatusCreated <-> ok = true /\ admitted) /\
  (statusOf resp = StatusInternalServerError <-> ok = false /\ admitted) /\
  (statusOf resp = StatusBadRequest <-> Method r = "POST" /\ ~ admitted) /\
  (fst (bookingHandler ok r w) = w <->
   statusOf resp = StatusBadRequest \/ statusOf resp = StatusMethodNotAllowed).
Proof.
  cbv zeta. rewrite bookingHandler_check.
  destruct (checkBooking_cases r)
    as [(b & d & -> & Hok) | (resp & -> & Hno & Hst)]; cbn [fst snd].
  - assert (Hm : Method r = "POST") by apply Hok.
    assert (Hsame : forall b' d', bookingRequestOk r b' d' -> b' = b /\ d' = d).
    { intros b' d' (_ & Hd' & _ & _ & _ & Pd').
      destruct Hok as (_ & Hd & _ & _ & _ & Pd).
      rewrite Hd in Hd'. injection Hd' as <-. rewrite Pd in Pd'. injection Pd' as <-.
      now split. }
    destruct (classFound (classes w) b d) as [c |] eqn:Hf.
    + destruct (Z.leb_spec (slotsFor c b w) 0) as [Hfull | Hfree]; cbn [fst snd].
      * assert (Hno : ~ exists b' d' c', bookingRequestOk r b' d' /\
                        classFound (classes w) b' d' = Some c' /\
                        0 < slotsFor c' b' w).
        { intros (b' & d' & c' & Hok' & Hf' & Hfree').
          destruct (Hsame b' d' Hok') as [-> ->].
          rewrite Hf in Hf'. injection Hf' as <-. lia. }
        cbn [statusOf CapacityExceeded].
        unfold StatusCreated, StatusInternalServerError, StatusBadRequest,
               StatusMethodNotAllowed.
        repeat split; intros; try tauto; try lia; try discriminate; try congruence.
      * assert (Hex : exists b' d' c', bookingRequestOk r b' d' /\
                        classFound (classes w) b' d' = Some c' /\
                        0 < slotsFor c' b' w)
          by (exists b, d, c; split; [exact Hok | split; [exact Hf | exact Hfree]]).
        pose proof (withBooking_changes ok b w) as Hch.
        destruct ok; cbn [statusOf PersistenceFailureBooking];
          unfold StatusCreated, StatusInternalServerError, StatusBadRequest,
                 StatusMethodNotAllowed;
          repeat split; intros; try tauto; try lia; try discriminate;
          try congruence.
        all: try (destruct H; [lia | lia]).
        all: try (destruct H; discriminate).
    + assert (Hno : ~ exists b' d' c', bookingRequestOk r b' d' /\
                      classFound (classes w) b' d' = Some c' /\
                      0 < slotsFor c' b' w).
      { intros (b' & d' & c' & Hok' & Hf' & _).
        destruct (Hsame b' d' Hok') as [-> ->]. congruence. }
      cbn [fst snd statusOf ClassUnavailable].
      unfold StatusCreated, StatusInternalServerError, StatusBadRequest,
             StatusMethodNotAllowed.
      repeat split; intros; try tauto; try lia; try discriminate; try congruence.
  - assert (Hno' : ~ exists b d c, bookingRequestOk r b d /\
                     classFound (classes w) b d = Some c /\
                     0 < slotsFor c b w).
    { intros (b & d & c & Hok & _). apply Hno. now exists b, d. }
    unfold StatusCreated, StatusInternalServerError, StatusBadRequest,
           StatusMethodNotAllowed in *.
    destruct Hst as [[Hm Hs] | [Hm Hs]]; rewrite Hs;
      repeat split; intros; try tauto; try lia; try discriminate.
    all: try (destruct H; tauto).
Qed.

(** ** Each handler keeps to its own slice *)

(** X3: [classHandler] never touches the bookings, their counter or their
    file, and [bookingHandler] never touches the classes, their counter or
    their file, whatever the request and the outcome of the write. *)
Theorem handlers_keep_to_their_side (ok : bool) (w : World) :
  (forall r : Request Class,
      let w' := fst (classHandler ok r w) in
      bookings w' = bookings w /\
      bookingId w' = bookingId w /\
      bookings_json (files w') = bookings_json (files w)) /\
  (forall r : Request Booking,
      let w' := fst (bookingHandler ok r w) in
      classes w' = classes w /\
      classId w' = classId w /\
      classes_json (files w') = classes_json (files w)).
Proof.
  split; intros r w'; subst w'.
  - destruct (classHandler_outcome ok r w); cbn [fst]; repeat split.
  - destruct (bookingHandler_outcome ok r w); cbn [fst]; repeat split.
Qed.

(** ** The identifier in a request *)

Lemma currentBookings_same_slot (bs : list Booking) (b b' : Booking) (n : Z) :
  Booking_ClassName b = Booking_ClassName b' ->
  Booking_Date b = Booking_Date b' ->
  currentBookings bs b n = currentBookings bs b' n.
Proof.
  intros En Ed. revert n. induction bs as [| x bs IH]; intros n; cbn [currentBookings];
    [reflexivity |].
  rewrite En, Ed. destruct (_ && _); apply IH.
Qed.

(** X4: an identifier sent in the body of a request is ignored: two requests
    that differ only in it get the same response and leave the same state.
    (Both identifiers fit an [int], or the body would not decode.) *)
Theorem request_id_ignored (ok : bool) (w : World) (method : string) (id id' : Z) :
  GoInt.fits id = true ->
  GoInt.fits id' = true ->
  (forall c : Class,
      classHandler ok (mkRequest method (Some (classWithID id c))) w =
      classHandler ok (mkRequest method (Some (classWithID id' c))) w) /\
  (forall b : Booking,
      bookingHandler ok (mkRequest method (Some (bookingWithID id b))) w =
      bookingHandler ok (mkRequest method (Some (bookingWithID id' b))) w).
Proof.
  intros F F'. split.
  - intros c. unfold classHandler, DecodeClass.
    cbn [Method Body classWithID storedClass Class_ID Class_ClassName
         Class_StartDate Class_EndDate Class_Capacity].
    rewrite F, F'. cbn [andb].
    destruct (negb (String.eqb method "POST")); [reflexivity |].
    destruct (GoInt.fits (Class_Capacity c)); reflexivity.
  - intros b.
    assert (Ef : forall d, classFound (classes w) (bookingWithID id b) d =
                           classFound (classes w) (bookingWithID id' b) d)
      by (intros d; now apply classFound_name).
    assert (Ec : currentBookings (bookings w) (bookingWithID id b) 0 =
                 currentBookings (bookings w) (bookingWithID id' b) 0)
      by now apply currentBookings_same_slot.
    rewrite !bookingHandler_check. unfold checkBooking, DecodeBooking.
    cbn [Method Body]. destruct (negb (String.eqb method "POST")); [reflexivity |].
    replace (GoInt.fits (Booking_ID (bookingWithID id b))) with true by (symmetry; exact F).
    replace (GoInt.fits (Booking_ID (bookingWithID id' b))) with true
      by (symmetry; exact F').
    change (Booking_MemberName (bookingWithID id b)) with (Booking_MemberName b).
    change (Booking_MemberName (bookingWithID id' b)) with (Booking_MemberName b).
    change (Booking_Date (bookingWithID id b)) with (Booking_Date b).
    change (Booking_Date (bookingWithID id' b)) with (Booking_Date b).
    change (Booking_ClassName (bookingWithID id b)) with (Booking_ClassName b).
    change (Booking_ClassName (bookingWithID id' b)) with (Booking_ClassName b).
    destruct (_ || _); [reflexivity |].
    destruct (time.Parse (Booking_Date b)) as [d |]; [| reflexivity].
    rewrite Ef. destruct (classFound (classes w) (bookingWithID id' b) d) as [c |];
      [| reflexivity].
    unfold slotsFor. rewrite Ec. reflexivity.
Qed.

(** The README's class sent with identifier 7 and with identifier 0. *)
Lemma request_id_ignored_witness :
  let pilates := mkClass 0 "Pilates" "01-12-2024" "20-12-2024" 10 in
  classHandler true (mkRequest "POST" (Some (classWithID 7 pilates))) (main noFiles) =
  classHandler true (mkRequest "POST" (Some (classWithID 0 pilates))) (main noFiles).
Proof.
  intros pilates.
  apply (request_id_ignored true (main noFiles) "POST" 7 0); reflexivity.
Defined.

(** ** Success means saved *)

(** A successful response of [classHandler] comes from the appending
    branch. *)
Lemma classHandler_success (ok : bool) (r : Request Class) (w w' : World)
  (code : Z) (msg : string) (data : Data) :
  classHandler ok r w = (w', successResponse code msg data) ->
  exists c s e,
    classRequestOk r c s e /\
    ok = true /\
    w' = withClass true c w /\
    data = ClassData (storedClass (classId w) c).
Proof.
  intros H.
  destruct (classHandler_rejects ok r w) as [(c & s & e & Hok) | [_ (m & Hr & _)]].
  - rewrite (classHandler_accepts ok r w c s e Hok) in H.
    destruct ok; [| discriminate H]. injection H as <- _ _ <-.
    exists c, s, e. split; [exact Hok |]. repeat split.
  - rewrite H in Hr. discriminate Hr.
Qed.

(** X5: a response of success is given only after the whole slice has been
    written: the file then holds every class (booking) in memory, those
    included whose own write had failed; the record returned is the one
    stored, last in the slice, under the identifier the counter had; its
    other fields are those of the request. *)
Theorem success_is_saved (w w' : World) (code : Z) (msg : string) (data : Data) :
  (forall ok r,
      classHandler ok r w = (w', successResponse code msg data) ->
      exists c,
        DecodeClass (Body r) = Some c /\
        data = ClassData (storedClass (classId w) c) /\
        classes w' = classes w ++ [storedClass (classId w) c] /\
        classes_json (files w') = classes w') /\
  (forall ok r,
      bookingHandler ok r w = (w', successResponse code msg data) ->
      exists b a,
        DecodeBooking (Body r) = Some b /\
        data = BookingData (storedBooking (bookingId w) b) a /\
        bookings w' = bookings w ++ [storedBooking (bookingId w) b] /\
        bookings_json (files w') = bookings w').
Proof.
  split; intros ok r H.
  - destruct (classHandler_success _ _ _ _ _ _ _ H) as (c & s & e & Hok & _ & -> & ->).
    exists c. split; [apply Hok |]. repeat split.
  - destruct (bookingHandler_success _ _ _ _ _ _ _ H)
      as (b & d & c & Hok & _ & _ & -> & -> & _ & _ & ->).
    exists b, (GoInt.sub (slotsFor c b w) 1). split; [apply Hok |]. repeat split.
Qed.

(** A class whose write fails, then one whose write succeeds: the file
    holds both. *)
Lemma success_is_saved_witness :
  let pilates := mkClass 0 "Pilates" "01-12-2024" "20-12-2024" 10 in
  let yoga := mkClass 0 "Yoga" "01-12-2024" "31-12-2024" 20 in
  let w := fst (classHandler false (post pilates) (main noFiles)) in
  exists c,
    DecodeClass (Body (post yoga)) = Some c /\
    ClassData (storedClass 2 yoga) = ClassData (storedClass (classId w) c) /\
    classes (fst (classHandler true (post yoga) w))
      = classes w ++ [storedClass (classId w) c] /\
    classes_json (files (fst (classHandler true (post yoga) w)))
      = classes (fst (classHandler true (post yoga) w)).
Proof.
  intros pilates yoga w.
  apply (proj1 (success_is_saved w (fst (classHandler true (post yoga) w))
                  StatusCreated "Class created successfully"
                  (ClassData (storedClass 2 yoga))) true (post yoga)).
  reflexivity.
Defined.

(** ** Stopping and starting again *)

Lemma serve_files_follow (w : World) (call : Call) :
  writeOk call = true ->
  classes_json (files w) = classes w ->
  bookings_json (files w) = bookings w ->
  classes_json (files (fst (serve w call))) = classes (fst (serve w call)) /\
  bookings_json (files (fst (serve w call))) = bookings (fst (serve w call)).
Proof.
  intros Hok Hc Hb. destruct call as [r ok | r ok]; cbn [serve writeOk] in *; subst ok.
  - destruct (classHandler_outcome true r w); cbn [fst];
      cbn [withClass classes bookings files classes_json bookings_json]; now split.
  - destruct (bookingHandler_outcome true r w); cbn [fst];
      cbn [withBooking classes bookings files classes_json bookings_json]; now split.
Qed.

(** X6: when every file write succeeds, the files hold the slices at every
    moment, so a process stopped after any calls and started again on its
    files has the same classes and the same bookings as before; both
    counters, which are not saved, are back at 1. *)
Theorem restart_reloads (disk : Files) (calls : list Call) :
  Forall (fun c => writeOk c = true) calls ->
  let w := fst (run (main disk) calls) in
  classes (restart w) = classes w /\
  bookings (restart w) = bookings w /\
  classId (restart w) = 1 /\
  bookingId (restart w) = 1.
Proof.
  intros Hall w. subst w. unfold restart. cbn [main classes bookings classId bookingId].
  assert (H : forall w0,
             classes_json (files w0) = classes w0 ->
             bookings_json (files w0) = bookings w0 ->
             classes_json (files (fst (run w0 calls))) = classes (fst (run w0 calls)) /\
             bookings_json (files (fst (run w0 calls))) = bookings (fst (run w0 calls))).
  { induction Hall as [| c calls Hc Hall IH]; intros w0 Ec Eb; [now split |].
    rewrite run_cons.
    destruct (serve_files_follow w0 c Hc Ec Eb) as [Ec1 Eb1].
    now apply IH. }
  destruct (H (main disk) eq_refl eq_refl) as [Ec Eb]. now repeat split.
Qed.

(** A class and a booking, both saved. *)
Lemma restart_reloads_witness :
  let pilates := mkClass 0 "Pilates" "01-12-2024" "20-12-2024" 10 in
  let rahul := mkBooking 0 "Rahul R P" "16-12-2024" "Pilates" in
  let w := fst (run (main noFiles)
                  [RegisterClass (post pilates) true; CreateBooking (post rahul) true]) in
  classes (restart w) = classes w /\
  bookings (restart w) = bookings w /\
  classId (restart w) = 1 /\
  bookingId (restart w) = 1.
Proof.
  intros pilates rahul w.
  apply (restart_reloads noFiles
           [RegisterClass (post pilates) true; CreateBooking (post rahul) true]).
  repeat constructor.
Defined.

(** ** The slices only grow *)

Lemma serve_grows (w : World) (call : Call) :
  exists cs bs,
    classes (fst (serve w call)) = classes w ++ cs /\
    bookings (fst (serve w call)) = bookings w ++ bs.
Proof.
  destruct call as [r ok | r ok]; cbn [serve].
  - destruct (classHandler_outcome ok r w); cbn [fst].
    + exists [], []. now rewrite !app_nil_r.
    + eexists. exists []. cbn [withClass classes bookings].
      split; [reflexivity | now rewrite app_nil_r].
  - destruct (bookingHandler_outcome ok r w); cbn [fst];
      try (exists [], []; now rewrite !app_nil_r).
    exists []. eexists. cbn [withBooking classes bookings].
    split; [now rewrite app_nil_r | reflexivity].
Qed.

Lemma run_grows (calls : list Call) :
  forall w,
    exists cs bs,
      classes (fst (run w calls)) = classes w ++ cs /\
      bookings (fst (run w calls)) = bookings w ++ bs.
Proof.
  induction calls as [| c calls IH]; intros w.
  - exists [], []. cbn. now rewrite !app_nil_r.
  - rewrite run_cons. destruct (serve_grows w c) as (cs1 & bs1 & Ec1 & Eb1).
    destruct (IH (fst (serve w c))) as (cs2 & bs2 & Ec2 & Eb2).
    exists (cs1 ++ cs2), (bs1 ++ bs2). rewrite Ec2, Eb2, Ec1, Eb1.
    now rewrite !app_assoc.
Qed.

Lemma threadStep_grows (i : nat) (m : option nat) (w : World) (t : Thread) :
  exists cs bs,
    classes (snd (fst (threadStep i m w t))) = classes w ++ cs /\
    bookings (snd (fst (threadStep i m w t))) = bookings w ++ bs.
Proof.
  destruct t as [[r ok | r ok] | ok c | ok c | ok c | ok b d | ok b d | ok b c
                 | ok b a | ok b a | resp | resp]; cbn [threadStep].
  - destruct (checkClass r); exists [], []; now rewrite !app_nil_r.
  - destruct (checkBooking r) as [| []]; exists [], []; now rewrite !app_nil_r.
  - destruct m; exists [], []; now rewrite !app_nil_r.
  - eexists. exists []. cbn. split; [reflexivity | now rewrite app_nil_r].
  - unfold writeDataToJsonFile. destruct ok; exists [], []; cbn; now rewrite !app_nil_r.
  - destruct m; exists [], []; now rewrite !app_nil_r.
  - destruct (classFound _ _ _); exists [], []; now rewrite !app_nil_r.
  - destruct (_ <=? 0); exists [], []; now rewrite !app_nil_r.
  - exists []. eexists. cbn. split; [now rewrite app_nil_r | reflexivity].
  - unfold writeDataToJsonFile. destruct ok; exists [], []; cbn; now rewrite !app_nil_r.
  - exists [], []; now rewrite !app_nil_r.
  - exists [], []; now rewrite !app_nil_r.
Qed.

(** X7: classes and bookings are never removed, reordered or rewritten: after
    any calls, served one after the other or by goroutines in any
    interleaving, each slice is the slice before with records appended. *)
Theorem slices_only_grow :
  (forall (w : World) (calls : list Call),
      exists cs bs,
        classes (fst (run w calls)) = classes w ++ cs /\
        bookings (fst (run w calls)) = bookings w ++ bs) /\
  (forall (s : System) (schedule : list nat),
      exists cs bs,
        classes (world (exec s schedule)) = classes (world s) ++ cs /\
        bookings (world (exec s schedule)) = bookings (world s) ++ bs).
Proof.
  split; [intros w calls; apply run_grows |].
  intros s schedule. revert s.
  induction schedule as [| i rest IH]; intros s.
  - exists [], []. cbn. now rewrite !app_nil_r.
  - cbn [exec]. destruct (IH (step i s)) as (cs2 & bs2 & Ec2 & Eb2).
    destruct (threadStep_grows i (mutex s) (world s) (goroutine s i))
      as (cs1 & bs1 & Ec1 & Eb1).
    exists (cs1 ++ cs2), (bs1 ++ bs2). rewrite Ec2, Eb2. unfold step.
    destruct (threadStep i (mutex s) (world s) (goroutine s i)) as [[m' w'] t'].
    cbn [world fst snd] in *. rewrite Ec1, Eb1. now rewrite !app_assoc.
Qed.

(** ** What is stored is what the checks let in *)

Lemma serve_wellFormed (w : World) (call : Call) :
  Forall classWellFormed (classes w) ->
  Forall (bookingCovered (classes w)) (bookings w) ->
  Forall classWellFormed (classes (fst (serve w call))) /\
  Forall (bookingCovered (classes (fst (serve w call)))) (bookings (fst (serve w call))).
Proof.
  intros Hc Hb. destruct call as [r ok | r ok]; cbn [serve].
  - rewrite classHandler_check.
    destruct (checkClass_cases r) as [(c & s & e & -> & Hok) | (resp & -> & _)];
      cbn [fst]; [| now split].
    cbn [withClass classes bookings]. split.
    + apply Forall_app. split; [exact Hc |]. constructor; [| constructor].
      pose proof (checkClass_capacity r c) as Hcap.
      destruct Hok as (Hm & Hd & Hn & _ & _ & Hpos & Ps & Pe & Hbe).
      split; [exact Hn |]. split; [exists s, e; now repeat split |].
      apply Hcap. unfold checkClass. rewrite Hm, Hd. cbn [String.eqb negb].
      apply String.eqb_neq in Hn. rewrite Hn.
      destruct (String.eqb_spec (Class_StartDate c) "") as [E | _];
        [rewrite E in Ps; discriminate |].
      destruct (String.eqb_spec (Class_EndDate c) "") as [E | _];
        [rewrite E in Pe; discriminate |].
      destruct (Z.leb_spec (Class_Capacity c) 0); [lia |].
      cbn [orb]. now rewrite Ps, Pe, Hbe.
    + eapply Forall_impl; [| exact Hb]. cbn beta.
      intros b (Hm & d & c' & P & Hin & Hn & Ha).
      split; [exact Hm |]. exists d, c'. repeat split; auto.
      apply in_or_app. now left.
  - destruct (bookingHandler_outcome ok r w) as [| | | b d c Hok Hf Hfree]; cbn [fst];
      try (now split).
    cbn [withBooking classes bookings]. split; [exact Hc |].
    apply Forall_app. split; [exact Hb |]. constructor; [| constructor].
    destruct Hok as (_ & _ & Hm & _ & _ & P).
    pose proof (classFound_In _ _ _ _ Hf) as Hin.
    apply classFound_some in Hf. destruct Hf as (_ & _ & _ & Hn & Ha & _).
    split; [exact Hm |]. exists d, c. now repeat split.
Qed.

Lemma run_wellFormed (calls : list Call) :
  forall w,
    Forall classWellFormed (classes w) ->
    Forall (bookingCovered (classes w)) (bookings w) ->
    Forall classWellFormed (classes (fst (run w calls))) /\
    Forall (bookingCovered (classes (fst (run w calls)))) (bookings (fst (run w calls))).
Proof.
  induction calls as [| c calls IH]; intros w Hc Hb; [now split |].
  rewrite run_cons. destruct (serve_wellFormed w c Hc Hb) as [Hc1 Hb1].
  now apply IH.
Qed.

(** X8: every class stored by a server started on empty files has passed
    the checks of [classHandler]: it has a name, a positive capacity, and
    dates that parse with the end not before the start.  So the parse errors
    that the lookup loop of [bookingHandler] drops never occur for it: its
    range is the range it was registered with. *)
Theorem stored_classes_wellFormed (calls : list Call) :
  let w := fst (run (main noFiles) calls) in
  forall c,
    In c (classes w) ->
    Class_ClassName c <> "" /\
    0 < Class_Capacity c <= GoInt.maxInt /\
    time.Parse (Class_StartDate c) = Some (startOf c) /\
    time.Parse (Class_EndDate c) = Some (endOf c) /\
    time.Before (endOf c) (startOf c) = false.
Proof.
  intros w c Hin. subst w.
  destruct (run_wellFormed calls (main noFiles)) as [Hc _]; [constructor .. |].
  rewrite Forall_forall in Hc.
  destruct (Hc c Hin) as (Hn & (s & e & Ps & Pe & Hb) & Hcap).
  unfold startOf, endOf, ParseIgnoringError. rewrite Ps, Pe. now repeat split.
Qed.

(** X9: every booking stored by a server started on empty files has a
    member name and a date that parses, and some stored class of its class
    name has that date within its inclusive range; since classes are never
    removed or changed, this stays true however long the server runs. *)
Theorem stored_bookings_covered (calls : list Call) :
  let w := fst (run (main noFiles) calls) in
  forall b,
    In b (bookings w) ->
    Booking_MemberName b <> "" /\
    exists d c,
      time.Parse (Booking_Date b) = Some d /\
      In c (classes w) /\
      Class_ClassName c = Booking_ClassName b /\
      time.Before d (startOf c) = false /\ time.After d (endOf c) = false.
Proof.
  intros w b Hin. subst w.
  destruct (run_wellFormed calls (main noFiles)) as [_ Hb]; [constructor .. |].
  rewrite Forall_forall in Hb.
  destruct (Hb b Hin) as (Hm & d & c & P & Hc & Hn & Ha).
  split; [exact Hm |]. exists d, c. apply activeOn_inclusive in Ha.
  now repeat split.
Qed.

(** The README's class, once registered. *)
Lemma stored_classes_wellFormed_witness :
  let pilates := mkClass 1 "Pilates" "01-12-2024" "20-12-2024" 10 in
  Class_ClassName pilates <> "" /\
  0 < Class_Capacity pilates <= GoInt.maxInt /\
  time.Parse (Class_StartDate pilates) = Some (startOf pilates) /\
  time.Parse (Class_EndDate pilates) = Some (endOf pilates) /\
  time.Before (endOf pilates) (startOf pilates) = false.
Proof.
  intros pilates.
  apply (stored_classes_wellFormed
           [RegisterClass (post (mkClass 0 "Pilates" "01-12-2024" "20-12-2024" 10)) true]).
  left. reflexivity.
Defined.

(** The README's booking, once stored. *)
Lemma stored_bookings_covered_witness :
  let calls := [RegisterClass (post (mkClass 0 "Pilates" "01-12-2024" "20-12-2024" 10)) true;
                CreateBooking (post (mkBooking 0 "Rahul R P" "16-12-2024" "Pilates")) true] in
  let rahul := mkBooking 1 "Rahul R P" "16-12-2024" "Pilates" in
  Booking_MemberName rahul <> "" /\
  exists d c,
    time.Parse (Booking_Date rahul) = Some d /\
    In c (classes (fst (run (main noFiles) calls))) /\
    Class_ClassName c = Booking_ClassName rahul /\
    time.Before d (startOf c) = false /\ time.After d (endOf c) = false.
Proof.
  intros calls rahul.
  apply (stored_bookings_covered calls rahul).
  left. reflexivity.
Defined.

(** ** What is decided stays decided *)

Lemma classFound_kept (w : World) (calls : list Call) (b : Booking) (d : time.Time)
  (c : Class) :
  classFound (classes w) b d = Some c ->
  classFound (classes (fst (run w calls))) b d = Some c.
Proof.
  intros Hf. destruct (run_grows calls w) as (cs & _ & -> & _).
  now rewrite classFound_app, Hf.
Qed.

Lemma CountFor_kept (w : World) (calls : list Call) (n s : string) :
  (CountFor n s (bookings w) <= CountFor n s (bookings (fst (run w calls))))%nat.
Proof.
  destruct (run_grows calls w) as (_ & bs & _ & ->). rewrite CountFor_app. lia.
Qed.

(** X10: the class that governs a class name on a date never changes: once
    the lookup finds a class for a request, it finds that same class for the
    same name and date after any further calls, whatever classes are
    registered later (under the same name or another); so such a request is
    never again answered [ClassUnavailable]. *)
Theorem governing_class_is_permanent
  (w : World) (calls : list Call) (r : Request Booking) (b : Booking)
  (d : time.Time) (c : Class) :
  bookingRequestOk r b d ->
  classFound (classes w) b d = Some c ->
  classFound (classes (fst (run w calls))) b d = Some c /\
  forall ok, snd (bookingHandler ok r (fst (run w calls))) <> ClassUnavailable.
Proof.
  intros Hok Hf. pose proof (classFound_kept w calls b d c Hf) as Hf'.
  split; [exact Hf' |]. intros ok.
  rewrite (bookingHandler_valid ok r _ b d Hok), Hf'.
  destruct (_ <=? 0); cbn [snd]; [discriminate |]. destruct ok; discriminate.
Qed.

(** Pilates with two slots; a second Pilates over the same days with twenty
    is registered afterwards: the first still governs. *)
Lemma governing_class_is_permanent_witness :
  let first := mkClass 1 "Pilates" "01-12-2024" "20-12-2024" 2 in
  let second := mkClass 0 "Pilates" "01-12-2024" "20-12-2024" 20 in
  let rahul := mkBooking 0 "Rahul R P" "16-12-2024" "Pilates" in
  let w := main {| classes_json := [first]; bookings_json := [] |} in
  classFound (classes (fst (run w [RegisterClass (post second) true])))
             rahul (time.Date 2024 12 16) = Some first /\
  forall ok,
    snd (bookingHandler ok (post rahul) (fst (run w [RegisterClass (post second) true])))
    <> ClassUnavailable.
Proof.
  intros first second rahul w.
  apply (governing_class_is_permanent w [RegisterClass (post second) true]
           (post rahul) rahul (time.Date 2024 12 16) first).
  - repeat split; discriminate.
  - reflexivity.
Defined.

(** X11: a class that is full on a date stays full.  In a server started on
    empty files, once a request is answered [CapacityExceeded], the same
    request is answered [CapacityExceeded] after any further calls: nothing
    frees a slot and no later class of the same name adds any. *)
Theorem full_stays_full
  (before after : list Call) (r : Request Booking) (ok ok' : bool) :
  let w := fst (run (main noFiles) before) in
  snd (bookingHandler ok r w) = CapacityExceeded ->
  snd (bookingHandler ok' r (fst (run w after))) = CapacityExceeded.
Proof.
  intros w H. subst w.
  set (w := fst (run (main noFiles) before)) in *.
  destruct start_capacityKept as [Hpos0 Hkept0].
  destruct (run_capacityKept before (main noFiles) Hpos0 Hkept0) as [Hpos Hkept].
  fold w in Hpos, Hkept.
  destruct (run_capacityKept after w Hpos Hkept) as [Hpos' Hkept'].
  destruct (bookingHandler_outcome ok r w)
    as [resp Hin | b d Hok Hf | b d c Hok Hf Hfull | b d c Hok Hf Hfree];
    cbn [snd] in H.
  - repeat (destruct Hin as [<- | Hin]; [discriminate H |]). destruct Hin.
  - discriminate H.
  - pose proof Hok as (_ & _ & _ & _ & _ & P).
    pose proof (classFound_kept w after b d c Hf) as Hf'.
    rewrite (bookingHandler_valid ok' r _ b d Hok), Hf'.
    rewrite (slotsFor_kept w b d c Hpos Hkept P Hf) in Hfull.
    rewrite (slotsFor_kept _ b d c Hpos' Hkept' P Hf').
    pose proof (CountFor_kept w after (Booking_ClassName b) (Booking_Date b)).
    destruct (Z.leb_spec
                (Class_Capacity c -
                 Z.of_nat (CountFor (Booking_ClassName b) (Booking_Date b)
                             (bookings (fst (run w after))))) 0);
      [reflexivity | lia].
  - destruct ok; discriminate H.
Qed.

(** A class with one slot: the second booking is refused, and is refused
    again after another class of the same name has been registered. *)
Lemma full_stays_full_witness :
  let single := mkClass 0 "Pilates" "01-12-2024" "20-12-2024" 1 in
  let wide := mkClass 0 "Pilates" "01-12-2024" "20-12-2024" 20 in
  let rahul := mkBooking 0 "Rahul R P" "16-12-2024" "Pilates" in
  let w := fst (run (main noFiles)
                  [RegisterClass (post single) true; CreateBooking (post rahul) true]) in
  snd (bookingHandler true (post rahul)
         (fst (run w [RegisterClass (post wide) true]))) = CapacityExceeded.
Proof.
  intros single wide rahul w.
  apply (full_stays_full
           [RegisterClass (post single) true; CreateBooking (post rahul) true]
           [RegisterClass (post wide) true] (post rahul) true true).
  reflexivity.
Defined.

(** ** The slots in a response *)

(** X12: the [availableSlots] of a successful response is never negative,
    in any state; and when it is 0 the class is full on that date: the same
    request made again is answered [CapacityExceeded] and stores nothing. *)
Theorem last_slot_then_refused
  (ok ok' : bool) (r : Request Booking) (w w' : World) (code : Z) (msg : string)
  (booking : Booking) (availableSlots : Z) :
  bookingHandler ok r w =
    (w', successResponse code msg (BookingData booking availableSlots)) ->
  0 <= availableSlots /\
  (availableSlots = 0 -> bookingHandler ok' r w' = (w', CapacityExceeded)).
Proof.
  intros H.
  destruct (bookingHandler_success _ _ _ _ _ _ _ H)
    as (b & d & c & Hok & Hf & Hfree & -> & -> & _ & _ & Hdata).
  injection Hdata as _ ->. rewrite (slots_sub_one c b w Hfree).
  split; [lia |]. intros Hz.
  apply bookingHandler_full with (b := b) (d := d) (c := c); [exact Hok | exact Hf |].
  rewrite slotsFor_withBooking, (slots_sub_one c b w Hfree). lia.
Qed.

(** A class with one slot: the first booking leaves none. *)
Lemma last_slot_then_refused_witness :
  let single := mkClass 1 "Pilates" "01-12-2024" "20-12-2024" 1 in
  let rahul := mkBooking 0 "Rahul R P" "16-12-2024" "Pilates" in
  let w := main {| classes_json := [single]; bookings_json := [] |} in
  let w' := fst (bookingHandler true (post rahul) w) in
  0 <= 0 /\ (0 = 0 -> bookingHandler true (post rahul) w' = (w', CapacityExceeded)).
Proof.
  intros single rahul w w'.
  apply (last_slot_then_refused true true (post rahul) w w'
           StatusCreated "Booking successful" (storedBooking 1 rahul) 0).
  reflexivity.
Defined.

(** ** Counting by date text is counting by day *)

Lemma sameDay_eq (t u : time.Time) : sameDay t u = true <-> t = u.
Proof.
  unfold sameDay. rewrite !andb_true_iff, !Z.eqb_eq.
  destruct t, u; cbn. split.
  - intros [[-> ->] ->]. reflexivity.
  - intros E. injection E as -> -> ->. now repeat split.
Qed.

Lemma CountFor_CountOn (bs : list Booking) (className date : string) (d : time.Time) :
  time.Parse date = Some d ->
  CountFor className date bs = CountOn className d bs.
Proof.
  intros P. unfold CountFor, CountOn. f_equal. apply filter_ext. intros b.
  f_equal. destruct (String.eqb_spec (Booking_Date b) date) as [E | N].
  - rewrite E, P. symmetry. now apply sameDay_eq.
  - destruct (time.Parse (Booking_Date b)) as [t |] eqn:Pb; [| reflexivity].
    destruct (sameDay t d) eqn:S; [| reflexivity].
    apply sameDay_eq in S. subst t. exfalso. apply N.
    now apply Parse_injective with (t := d).
Qed.

(** X13: the counting loop of [bookingHandler] compares date texts, and that
    is comparing days: for a request whose date parses to the day [d], the
    loop returns the number of stored bookings of the request's class name
    whose date text names [d], whatever their members and identifiers.  (The
    slice length is an [int].) *)
Theorem count_is_by_day (bs : list Booking) (newBooking : Booking) (d : time.Time) :
  time.Parse (Booking_Date newBooking) = Some d ->
  Z.of_nat (List.length bs) <= GoInt.maxInt ->
  currentBookings bs newBooking 0 =
  Z.of_nat (CountOn (Booking_ClassName newBooking) d bs).
Proof.
  intros P Hlen. rewrite (currentBookings_exact bs newBooking Hlen).
  now rewrite (CountFor_CountOn bs _ _ d P).
Qed.

(** Three bookings stored, two of them for Pilates on 16-12-2024. *)
Lemma count_is_by_day_witness :
  currentBookings
    [mkBooking 1 "Rahul R P" "16-12-2024" "Pilates";
     mkBooking 2 "Jane Doe" "17-12-2024" "Pilates";
     mkBooking 3 "John Doe" "16-12-2024" "Pilates"]
    (mkBooking 0 "Alice" "16-12-2024" "Pilates") 0
  = Z.of_nat (CountOn "Pilates" (time.Date 2024 12 16)
                [mkBooking 1 "Rahul R P" "16-12-2024" "Pilates";
                 mkBooking 2 "Jane Doe" "17-12-2024" "Pilates";
                 mkBooking 3 "John Doe" "16-12-2024" "Pilates"]).
Proof.
  apply (count_is_by_day _ (mkBooking 0 "Alice" "16-12-2024" "Pilates")
           (time.Date 2024 12 16)).
  - reflexivity.
  - cbn. unfold GoInt.maxInt. lia.
Defined.

(** ** A stored date that does not parse *)

(** What [time.Parse] returns is a day of the calendar, in years 0 to
    9999. *)
Lemma Parse_valid (s : string) (t : time.Time) :
  time.Parse s = Some t ->
  0 <= time.Year t <= 9999 /\
  1 <= time.Month t <= 12 /\
  1 <= time.Day t <= time.daysIn (time.Month t) (time.Year t).
Proof.
  rewrite Parse_ParseDate. unfold ParseDate.
  destruct (layoutFields s) as [[[d m] y] |] eqn:L; [| discriminate].
  destruct (_ && _) eqn:C; [| discriminate]. intros E. injection E as <-.
  cbn [time.Year time.Month time.Day].
  rewrite !andb_true_iff, !Z.leb_le in C. destruct C as [[[? ?] ?] ?].
  split; [| now repeat split].
  unfold layoutFields in L.
  destruct s as [| a0 [| a1 [| a2 [| a3 [| a4 [| a5 [| a6 [| a7 [| a8 [| a9
                [| ? ?]]]]]]]]]]]; try discriminate L.
  match type of L with (if ?c then _ else _) = _ => destruct c eqn:C1 end;
    [| discriminate L].
  rewrite !andb_true_iff in C1.
  destruct C1 as [[[[[[[[[A0 A1] A2] A3] A4] A5] A6] A7] A8] A9].
  injection L as _ _ <-.
  pose proof (digitVal_range _ A6). pose proof (digitVal_range _ A7).
  pose proof (digitVal_range _ A8). pose proof (digitVal_range _ A9). lia.
Qed.

(** X14: the lookup loop drops the error of parsing a stored class's dates
    and goes on with the zero time.  A stored class whose start date text
    does not parse (it cannot have come through [classHandler]) is therefore
    taken to start on 1 January of year 1: a valid request for its name on a
    date in year 1 or later, not after the class's end, finds a class and is
    not answered [ClassUnavailable]. *)
Theorem unparsable_start_is_year_one
  (ok : bool) (r : Request Booking) (w : World) (b : Booking) (d : time.Time)
  (c : Class) :
  bookingRequestOk r b d ->
  In c (classes w) ->
  Class_ClassName c = Booking_ClassName b ->
  time.Parse (Class_StartDate c) = None ->
  1 <= time.Year d ->
  time.After d (endOf c) = false ->
  startOf c = time.Date 1 1 1 /\
  activeOn c d = true /\
  snd (bookingHandler ok r w) <> ClassUnavailable.
Proof.
  intros Hok Hin Hn Ps Hy Ha.
  assert (Hs : startOf c = time.Date 1 1 1).
  { unfold startOf, ParseIgnoringError. now rewrite Ps. }
  assert (Hact : activeOn c d = true).
  { apply activeOn_inclusive. split; [| exact Ha]. rewrite Hs.
    destruct Hok as (_ & _ & _ & _ & _ & P).
    destruct (Parse_valid _ _ P) as (_ & Hm & Hd).
    unfold time.Before. cbn [time.Year time.Month time.Day].
    destruct (Z.ltb_spec (time.Year d) 1); [lia |].
    destruct (Z.ltb_spec (time.Month d) 1); [lia |].
    destruct (Z.ltb_spec (time.Day d) 1); [lia |].
    now rewrite !andb_false_r. }
  split; [exact Hs |]. split; [exact Hact |].
  rewrite (bookingHandler_valid ok r w b d Hok).
  destruct (classFound (classes w) b d) as [c' |] eqn:Hf.
  - destruct (_ <=? 0); cbn [snd]; [discriminate |]. destruct ok; discriminate.
  - exfalso. rewrite classFound_none, Forall_forall in Hf.
    rewrite (Hf c Hin Hn) in Hact. discriminate.
Qed.

(** A class read from a file with an empty start date takes a booking for
    the year 1999. *)
Lemma unparsable_start_is_year_one_witness :
  let odd := mkClass 1 "Pilates" "" "20-12-2024" 10 in
  let rahul := mkBooking 0 "Rahul R P" "16-12-1999" "Pilates" in
  let w := main {| classes_json := [odd]; bookings_json := [] |} in
  startOf odd = time.Date 1 1 1 /\
  activeOn odd (time.Date 1999 12 16) = true /\
  snd (bookingHandler true (post rahul) w) <> ClassUnavailable.
Proof.
  intros odd rahul w.
  apply (unparsable_start_is_year_one true (post rahul) w rahul
           (time.Date 1999 12 16) odd).
  - repeat split; discriminate.
  - left. reflexivity.
  - reflexivity.
  - reflexivity.
  - cbn. lia.
  - reflexivity.
Defined.

(** ** The mutex *)

(** How a step bears on the mutex.  In the critical section a goroutine
    keeps the mutex until the deferred unlock, which ends it; outside, it
    leaves the package state alone, and either moves on (or waits) without
    regard to the mutex and the state, or takes the free mutex at
    [mutex.Lock()]. *)
Lemma threadStep_kind (i : nat) (m : option nat) (w : World) (t : Thread) :
  exists m' w' t',
    threadStep i m w t = (m', w', t') /\
    ((critical t = true /\ critical t' = true /\ m' = m) \/
     (exists resp, t = Unlock resp /\ t' = Done resp /\ m' = None /\ w' = w) \/
     (critical t = false /\ critical t' = false /\ m' = m /\ w' = w /\
      (t' = t \/ forall m0 W, threadStep i m0 W t = (m0, W, t'))) \/
     (critical t = false /\ critical t' = true /\
      m = None /\ m' = Some i /\ w' = w /\
      forall W, threadStep i None W t = (Some i, W, t'))).
Proof.
  destruct t as [[r ok | r ok] | ok c | ok c | ok c | ok b d | ok b d | ok b c
                 | ok b a | ok b a | resp | resp]; cbn [threadStep critical].
  - destruct (checkClass r); do 3 eexists; (split; [reflexivity |]);
      right; right; left; repeat split; now right.
  - destruct (checkBooking r) as [| []]; do 3 eexists; (split; [reflexivity |]);
      right; right; left; repeat split; now right.
  - destruct m; do 3 eexists; (split; [reflexivity |]).
    + right; right; left. repeat split. now left.
    + right; right; right. now repeat split.
  - do 3 eexists. split; [reflexivity |]. left. now repeat split.
  - unfold writeDataToJsonFile. destruct ok; do 3 eexists; (split; [reflexivity |]);
      left; now repeat split.
  - destruct m; do 3 eexists; (split; [reflexivity |]).
    + right; right; left. repeat split. now left.
    + right; right; right. now repeat split.
  - destruct (classFound _ _ _); do 3 eexists; (split; [reflexivity |]);
      left; now repeat split.
  - destruct (_ <=? 0); do 3 eexists; (split; [reflexivity |]);
      left; now repeat split.
  - do 3 eexists. split; [reflexivity |]. left. now repeat split.
  - unfold writeDataToJsonFile. destruct ok; do 3 eexists; (split; [reflexivity |]);
      left; now repeat split.
  - do 3 eexists. split; [reflexivity |]. right; left. exists resp. now repeat split.
  - do 3 eexists. split; [reflexivity |]. right; right; left. repeat split. now left.
Qed.

(** Mutual exclusion: the goroutine in the critical section is the holder
    of the mutex. *)
Lemma step_holder (i : nat) (s : System) :
  (forall j, critical (goroutine s j) = true <-> mutex s = Some j) ->
  forall j, critical (goroutine (step i s) j) = true <-> mutex (step i s) = Some j.
Proof.
  intros H j. pose proof (H i) as Hi. pose proof (H j) as Hj. unfold step.
  destruct (threadStep_kind i (mutex s) (world s) (goroutine s i))
    as (m' & w' & t' & -> & K).
  cbn [mutex goroutine].
  destruct (Nat.eq_dec j i) as [-> | N].
  - rewrite setThread_same.
    destruct K as [(C & C' & ->) | [(resp & Et & -> & -> & _)
                  | [(C & C' & -> & _) | (C & C' & Hm & -> & _)]]].
    + rewrite C'. rewrite C in Hi. exact Hi.
    + cbn. split; discriminate.
    + rewrite C'. rewrite C in Hi. exact Hi.
    + rewrite C'. tauto.
  - rewrite (setThread_other i j t' _ N).
    destruct K as [(C & C' & ->) | [(resp & Et & -> & -> & _)
                  | [(C & C' & -> & _) | (C & C' & Hm & -> & _)]]].
    + exact Hj.
    + rewrite Et in Hi. cbn in Hi. assert (E : mutex s = Some i) by now apply Hi.
      rewrite E in Hj. split; [| discriminate].
      intros Cj. apply Hj in Cj. congruence.
    + exact Hj.
    + rewrite Hm in Hj. split; [| congruence].
      intros Cj. apply Hj in Cj. discriminate.
Qed.

Lemma exec_holder (schedule : list nat) :
  forall s,
    (forall j, critical (goroutine s j) = true <-> mutex s = Some j) ->
    forall j, critical (goroutine (exec s schedule) j) = true
              <-> mutex (exec s schedule) = Some j.
Proof.
  induction schedule as [| i rest IH]; intros s H; [exact H |].
  cbn [exec]. apply IH, step_holder, H.
Qed.

(** From any point of the critical section, five steps reach the end of
    the handler, the mutex released. *)
Lemma critical_finishes (i : nat) (w : World) (t : Thread) :
  critical t = true ->
  exists w' resp, threadRun 5 i (Some i) w t = (None, w', Done resp).
Proof.
  destruct t as [[r ok | r ok] | ok c | ok c | ok c | ok b d | ok b d | ok b c
                 | ok b a | ok b a | resp | resp]; cbn [critical]; intros C;
    try discriminate C; cbn [threadRun threadStep].
  - unfold writeDataToJsonFile. destruct ok; cbn; now do 2 eexists.
  - unfold writeDataToJsonFile. destruct ok; cbn; now do 2 eexists.
  - destruct (classFound (classes w) b d); cbn [threadRun threadStep].
    + destruct (_ <=? 0); cbn [threadRun threadStep]; [now do 2 eexists |].
      unfold writeDataToJsonFile. destruct ok; cbn; now do 2 eexists.
    + now do 2 eexists.
  - destruct (_ <=? 0); cbn [threadRun threadStep]; [now do 2 eexists |].
    unfold writeDataToJsonFile. destruct ok; cbn; now do 2 eexists.
  - unfold writeDataToJsonFile. destruct ok; cbn; now do 2 eexists.
  - unfold writeDataToJsonFile. destruct ok; cbn; now do 2 eexists.
  - now do 2 eexists.
Qed.

(** X15: the mutex does its work on every path.  In every state the server
    can reach, at most one goroutine is between [mutex.Lock()] and
    [mutex.Unlock()], and it is the holder of the mutex; and the holder
    always lets go: within five steps of its own, none of which waits for
    anything, it has written its response and released the mutex, on the
    refusing paths ([ClassUnavailable], [CapacityExceeded], a failed write)
    like on the successful one. *)
Theorem mutex_always_released (w0 : World) (calls : nat -> Call) (schedule : list nat) :
  let s := exec (start w0 calls) schedule in
  (forall j k,
      critical (goroutine s j) = true -> critical (goroutine s k) = true -> j = k) /\
  (mutex s = None -> forall j, critical (goroutine s j) = false) /\
  (forall i,
      mutex s = Some i ->
      critical (goroutine s i) = true /\
      mutex (exec s (repeat i 5)) = None /\
      exists resp, goroutine (exec s (repeat i 5)) i = Done resp).
Proof.
  intros s.
  assert (H : forall j, critical (goroutine s j) = true <-> mutex s = Some j).
  { apply exec_holder. intros j. cbn. split; discriminate. }
  split; [| split].
  - intros j k Cj Ck. apply H in Cj, Ck. congruence.
  - intros Hm j. destruct (critical (goroutine s j)) eqn:C; [| reflexivity].
    apply H in C. congruence.
  - intros i Hm. assert (C : critical (goroutine s i) = true) by now apply H.
    split; [exact C |].
    destruct (exec_repeat 5 i s) as (Em & _ & Et & _).
    destruct (critical_finishes i (world s) (goroutine s i) C) as (w' & resp & E).
    rewrite Hm, E in Em, Et. cbn [fst snd] in Em, Et.
    split; [exact Em | now exists resp].
Qed.

(** ** Every interleaving is a run *)

Lemma threadRun_Done (n i : nat) (m : option nat) (w : World) (resp : Response) :
  threadRun n i m w (Done resp) = (m, w, Done resp).
Proof. induction n as [| n IH]; [reflexivity | exact IH]. Qed.

Lemma finishesAs_step (i : nat) (m m' : option nat) (w w' : World) (t t' : Thread)
  (W : World) (c : Call) :
  finishesAs i m w t W c ->
  threadStep i m w t = (m', w', t') ->
  finishesAs i m' w' t' W c.
Proof.
  intros [[| n] H] E.
  - cbn in H. injection H as -> -> ->. cbn in E. injection E as <- <- <-.
    now exists 0%nat.
  - cbn [threadRun] in H. rewrite E in H. now exists n.
Qed.

Lemma finishesAs_Done (i : nat) (m : option nat) (w : World) (resp : Response)
  (W : World) (c : Call) :
  finishesAs i m w (Done resp) W c ->
  m = None /\ w = fst (serve W c) /\ resp = snd (serve W c).
Proof.
  intros [n H]. rewrite threadRun_Done in H. injection H as -> -> ->. now repeat split.
Qed.

Lemma run_snoc (w : World) (l : list Call) (c : Call) :
  run w (l ++ [c]) =
    (fst (serve (fst (run w l)) c),
     snd (run w l) ++ [snd (serve (fst (run w l)) c)]).
Proof.
  revert w. induction l as [| x l IH]; intros w; cbn [app run].
  - cbn [fst snd app]. destruct (serve w c); reflexivity.
  - destruct (serve w x) as [w1 resp]. rewrite IH.
    destruct (run w1 l) as [w2 resps]. reflexivity.
Qed.

Lemma finished_Done (t : Thread) :
  finished t = true <-> exists resp, t = Done resp.
Proof.
  split.
  - destruct t; cbn [finished]; intros H; try discriminate H. now eexists.
  - now intros [resp ->].
Qed.

Lemma critical_unfinished (t : Thread) :
  critical t = true -> finished t = false.
Proof. now destruct t. Qed.

Lemma returns_step (i : nat) (s : System) (m' : option nat) (w' : World) (t' : Thread) :
  threadStep i (mutex s) (world s) (goroutine s i) = (m', w', t') ->
  returns i s = negb (finished (goroutine s i)) && finished t'.
Proof.
  intros E. unfold returns, step. rewrite E. cbn [goroutine].
  now rewrite setThread_same.
Qed.

Lemma NoDup_snoc (i : nat) (l : list nat) :
  NoDup l -> ~ In i l -> NoDup (l ++ [i]).
Proof.
  intros Hnd Hni. rewrite <- (rev_involutive (l ++ [i])). apply NoDup_rev.
  rewrite rev_app_distr. cbn. constructor; [| now apply NoDup_rev].
  now rewrite <- in_rev.
Qed.

Lemma In_snoc (i j : nat) (l : list nat) :
  In j (l ++ [i]) <-> In j l \/ j = i.
Proof.
  rewrite in_app_iff. cbn. intuition congruence.
Qed.

Lemma start_linearized (w0 : World) (calls : nat -> Call) :
  linearized w0 calls [] (start w0 calls).
Proof.
  unfold linearized, start.
  cbn [mutex world goroutine map run fst snd critical finished].
  split; [constructor |]. split; [| split; [reflexivity |]].
  { intros j. split; [intros [] | discriminate]. }
  split; [reflexivity |]. split; [| reflexivity].
  intros j _ _ W. exists 7%nat. apply threadRun_alone.
Qed.

(** A step keeps the state a sequential run, of the goroutines that have
    returned, in the order in which they did. *)
Lemma step_linearized (w0 : World) (calls : nat -> Call) (order : list nat)
  (i : nat) (s : System) :
  linearized w0 calls order s ->
  linearized w0 calls (if returns i s then order ++ [i] else order) (step i s).
Proof.
  intros (Hnd & Hret & Hdone & Hout & Hfresh & Hmx).
  destruct (threadStep_kind i (mutex s) (world s) (goroutine s i))
    as (m' & w' & t' & E & K).
  rewrite (returns_step _ _ _ _ _ E).
  unfold step. rewrite E.
  destruct K as [(C & C' & ->) | [(resp & Et & -> & -> & ->)
                | [(C & C' & -> & -> & Hind) | (C & C' & Hm & -> & -> & Hind)]]].
  - (* inside the critical section *)
    assert (Hi : mutex s = Some i).
    { destruct (mutex s) as [k |] eqn:Em.
      - destruct (Nat.eq_dec k i) as [-> | N]; [reflexivity |].
        rewrite (Hout i) in C; [discriminate | congruence].
      - rewrite (Hout i) in C; [discriminate | congruence]. }
    rewrite (critical_unfinished _ C'), andb_false_r.
    rewrite Hi in Hmx, E. destruct Hmx as (Hni & _ & Hfin).
    unfold linearized. cbn [mutex world goroutine]. rewrite Hi.
    split; [exact Hnd |]. split; [| split; [| split; [| split; [| split; [| split]]]]].
    + intros j. destruct (Nat.eq_dec j i) as [-> | N].
      * rewrite setThread_same, (critical_unfinished _ C').
        split; [contradiction | discriminate].
      * rewrite setThread_other by exact N. apply Hret.
    + rewrite <- Hdone. apply map_ext_in. intros j Hj. apply setThread_other.
      intros ->. contradiction.
    + intros j N. rewrite setThread_other by congruence. apply Hout. congruence.
    + intros j Hj N W. rewrite setThread_other by congruence.
      apply Hfresh; [exact Hj | congruence].
    + exact Hni.
    + now rewrite setThread_same.
    + rewrite setThread_same. eapply finishesAs_step; [exact Hfin | exact E].
  - (* the deferred unlock: the goroutine returns *)
    assert (Hi : mutex s = Some i).
    { destruct (mutex s) as [k |] eqn:Em.
      - destruct (Nat.eq_dec k i) as [-> | N]; [reflexivity |].
        specialize (Hout i ltac:(congruence)). rewrite Et in Hout. discriminate.
      - specialize (Hout i ltac:(congruence)). rewrite Et in Hout. discriminate. }
    replace (negb (finished (goroutine s i)) && finished (Done resp)) with true
      by (now rewrite Et).
    rewrite Hi in Hmx, E. destruct Hmx as (Hni & _ & Hfin).
    pose proof (finishesAs_step _ _ _ _ _ _ _ _ _ Hfin E) as Hfin'.
    apply finishesAs_Done in Hfin'. destruct Hfin' as (_ & Hw & Hr).
    unfold linearized. cbn [mutex world goroutine].
    replace (map calls (order ++ [i])) with (map calls order ++ [calls i])
      by (now rewrite map_app).
    rewrite run_snoc. cbn [fst snd].
    split; [| split; [| split; [| split; [| split]]]].
    + now apply NoDup_snoc.
    + intros j. rewrite In_snoc. destruct (Nat.eq_dec j i) as [-> | N].
      * rewrite setThread_same. cbn [finished]. split; [reflexivity | now right].
      * rewrite setThread_other by exact N. rewrite <- Hret.
        split; [intros [H | H]; [exact H | contradiction] | now left].
    + rewrite !map_app. cbn [map]. rewrite setThread_same, <- Hr. f_equal.
      rewrite <- Hdone. apply map_ext_in. intros j Hj. apply setThread_other.
      intros ->. contradiction.
    + intros j _. destruct (Nat.eq_dec j i) as [-> | N].
      * now rewrite setThread_same.
      * rewrite setThread_other by exact N. apply Hout. congruence.
    + intros j Hj _ W. assert (N : j <> i).
      { intros ->. apply Hj, In_snoc. now right. }
      rewrite setThread_other by exact N.
      apply Hfresh; [| congruence]. intros Hin. apply Hj, In_snoc. now left.
    + exact Hw.
  - (* outside, the mutex left alone *)
    assert (Hi : mutex s <> Some i).
    { intros Hi. rewrite Hi in Hmx. destruct Hmx as (_ & Cc & _). congruence. }
    destruct (finished (goroutine s i)) eqn:Fi; cbn [negb andb].
    + (* a goroutine that has returned stays as it is *)
      assert (Ht : t' = goroutine s i).
      { apply finished_Done in Fi. destruct Fi as [resp Ed]. rewrite Ed in E |- *.
        cbn in E. now injection E as <-. }
      assert (Hg : forall j, setThread i t' (goroutine s) j = goroutine s j).
      { intros j. destruct (Nat.eq_dec j i) as [-> | N].
        - now rewrite setThread_same.
        - now apply setThread_other. }
      unfold linearized. cbn [mutex world goroutine].
      split; [exact Hnd |]. split; [| split; [| split; [| split]]].
      * intros j. rewrite Hg. apply Hret.
      * rewrite <- Hdone. apply map_ext. exact Hg.
      * intros j N. rewrite Hg. now apply Hout.
      * intros j Hj N W. rewrite Hg. now apply Hfresh.
      * destruct (mutex s) as [k |] eqn:Em; [| exact Hmx].
        rewrite Hg. exact Hmx.
    + assert (Hni : ~ In i order).
      { intros Hin. apply Hret in Hin. congruence. }
      assert (Hkeep : forall j, In j order ->
                                setThread i t' (goroutine s) j = goroutine s j).
      { intros j Hj. apply setThread_other. intros ->. contradiction. }
      destruct (finished t') eqn:Ft'.
      * (* a request refused before [mutex.Lock()]: the goroutine returns *)
        destruct Hind as [-> | Hind]; [congruence |].
        apply finished_Done in Ft'. destruct Ft' as [resp ->].
        assert (Hinert : forall W, serve W (calls i) = (W, resp)).
        { intros W.
          pose proof (finishesAs_step _ _ _ _ _ _ _ _ _
                        (Hfresh i Hni Hi W) (Hind None W)) as F.
          apply finishesAs_Done in F. destruct F as (_ & Hw & Hr).
          destruct (serve W (calls i)). cbn [fst snd] in Hw, Hr. congruence. }
        unfold linearized. cbn [mutex world goroutine].
        replace (map calls (order ++ [i])) with (map calls order ++ [calls i])
          by (now rewrite map_app).
        rewrite run_snoc, Hinert. cbn [fst snd].
        split; [| split; [| split; [| split; [| split]]]].
        -- now apply NoDup_snoc.
        -- intros j. rewrite In_snoc. destruct (Nat.eq_dec j i) as [-> | N].
           ++ rewrite setThread_same. cbn [finished]. split; [reflexivity | now right].
           ++ rewrite setThread_other by exact N. rewrite <- Hret.
              split; [intros [H | H]; [exact H | contradiction] | now left].
        -- rewrite !map_app. cbn [map]. rewrite setThread_same. f_equal.
           rewrite <- Hdone. apply map_ext_in. exact Hkeep.
        -- intros j N. destruct (Nat.eq_dec j i) as [-> | N'].
           ++ now rewrite setThread_same.
           ++ rewrite setThread_other by exact N'. now apply Hout.
        -- intros j Hj N W. assert (N' : j <> i).
           { intros ->. apply Hj, In_snoc. now right. }
           rewrite setThread_other by exact N'.
           apply Hfresh; [| exact N]. intros Hin. apply Hj, In_snoc. now left.
        -- destruct (mutex s) as [k |] eqn:Em; [| exact Hmx].
           destruct Hmx as (Hnk & Ck & Hfin).
           assert (N : k <> i) by congruence.
           rewrite setThread_other by exact N.
           split; [| now split]. rewrite In_snoc. intros [H | H]; contradiction.
      * (* on its way to [mutex.Lock()], or waiting there *)
        unfold linearized. cbn [mutex world goroutine].
        split; [exact Hnd |]. split; [| split; [| split; [| split]]].
        -- intros j. destruct (Nat.eq_dec j i) as [-> | N].
           ++ rewrite setThread_same, Ft'. split; [contradiction | discriminate].
           ++ rewrite setThread_other by exact N. apply Hret.
        -- rewrite <- Hdone. apply map_ext_in. exact Hkeep.
        -- intros j N. destruct (Nat.eq_dec j i) as [-> | N'].
           ++ now rewrite setThread_same.
           ++ rewrite setThread_other by exact N'. now apply Hout.
        -- intros j Hj N W. destruct (Nat.eq_dec j i) as [-> | N'].
           ++ rewrite setThread_same. specialize (Hfresh i Hj N W).
              destruct Hind as [-> | Hind]; [exact Hfresh |].
              eapply finishesAs_step; [exact Hfresh | apply Hind].
           ++ rewrite setThread_other by exact N'. now apply Hfresh.
        -- destruct (mutex s) as [k |] eqn:Em; [| exact Hmx].
           destruct Hmx as (Hnk & Ck & Hfin).
           assert (N : k <> i) by congruence.
           rewrite setThread_other by exact N. now repeat split.
  - (* mutex.Lock() on the free mutex *)
    assert (Hni : ~ In i order).
    { intros Hin. apply Hret, finished_Done in Hin. destruct Hin as (resp & Ed).
      rewrite Ed in E. cbn in E. injection E as _ <-. discriminate. }
    rewrite (critical_unfinished _ C'), andb_false_r.
    rewrite Hm in Hmx, Hfresh, Hout.
    unfold linearized. cbn [mutex world goroutine].
    split; [exact Hnd |]. split; [| split; [| split; [| split; [| split; [| split]]]]].
    + intros j. destruct (Nat.eq_dec j i) as [-> | N].
      * rewrite setThread_same, (critical_unfinished _ C').
        split; [contradiction | discriminate].
      * rewrite setThread_other by exact N. apply Hret.
    + rewrite <- Hdone. apply map_ext_in. intros j Hj. apply setThread_other.
      intros ->. contradiction.
    + intros j N. rewrite setThread_other by congruence. apply Hout. discriminate.
    + intros j Hj N W. rewrite setThread_other by congruence.
      apply Hfresh; [exact Hj | discriminate].
    + exact Hni.
    + now rewrite setThread_same.
    + rewrite setThread_same, <- Hmx.
      eapply finishesAs_step; [apply (Hfresh i Hni); discriminate | apply Hind].
Qed.

Lemma exec_linearized (w0 : World) (calls : nat -> Call) (schedule : list nat) :
  forall s order,
    linearized w0 calls order s ->
    linearized w0 calls (order ++ returned s schedule) (exec s schedule).
Proof.
  induction schedule as [| i rest IH]; intros s order H; cbn [exec returned].
  - now rewrite app_nil_r.
  - pose proof (step_linearized w0 calls order i s H) as H1.
    apply IH in H1. destruct (returns i s); [| exact H1].
    now rewrite <- app_assoc in H1.
Qed.

Lemma returned_app (l1 l2 : list nat) :
  forall s, returned s (l1 ++ l2) = returned s l1 ++ returned (exec s l1) l2.
Proof.
  induction l1 as [| i l1 IH]; intros s; cbn [app returned exec]; [reflexivity |].
  rewrite IH. now destruct (returns i s).
Qed.

Lemma returned_scheduled (schedule : list nat) (j : nat) :
  forall s, In j (returned s schedule) -> In j schedule.
Proof.
  induction schedule as [| i rest IH]; intros s; cbn [returned]; [intros [] |].
  destruct (returns i s); cbn [In]; intros H.
  - destruct H as [H | H]; [now left | right; now apply (IH _ H)].
  - right. now apply (IH _ H).
Qed.

(** X16: every interleaving is a sequential run, in the order of the
    responses.  Whatever the requests and however the scheduler interleaves
    the goroutines serving them, take the goroutines that have returned, in
    the order in which they returned ([returned]).  Each occurs once, and
    they are exactly the goroutines that have written a response.  Their
    responses are exactly those that [classHandler] and [bookingHandler]
    give when their calls are served one after the other in that order; and
    whenever the mutex is free, the package state is exactly the state after
    that sequential run.  When the mutex is held, its holder has not
    returned, is inside the critical section, and what it has left to do
    makes of the package state what serving its call next, after that run,
    makes of it, with that response.  A goroutine that has not returned and
    does not hold the mutex is outside the critical section and has not
    touched the state: left to run, it does what its handler does.  The
    order respects time: a goroutine that had returned before another took
    its first step comes before it. *)
Theorem every_interleaving_is_a_run
  (w0 : World) (calls : nat -> Call) (schedule : list nat) :
  let s := exec (start w0 calls) schedule in
  let order := returned (start w0 calls) schedule in
  NoDup order /\
  (forall j, In j order <-> exists resp, goroutine s j = Done resp) /\
  map (goroutine s) order = map Done (snd (run w0 (map calls order))) /\
  (mutex s = None -> world s = fst (run w0 (map calls order))) /\
  (forall i, mutex s = Some i ->
     ~ In i order /\
     critical (goroutine s i) = true /\
     finishesAs i (Some i) (world s) (goroutine s i)
                (fst (run w0 (map calls order))) (calls i)) /\
  (forall j, ~ In j order -> mutex s <> Some j ->
     critical (goroutine s j) = false /\
     forall W, finishesAs j None W (goroutine s j) W (calls j)) /\
  (forall schedule1 schedule2 j i,
     schedule = schedule1 ++ schedule2 ->
     (exists resp, goroutine (exec (start w0 calls) schedule1) j = Done resp) ->
     ~ In i schedule1 ->
     In i order ->
     exists before after,
       order = before ++ after /\ In j before /\ In i after).
Proof.
  intros s order.
  pose proof (exec_linearized w0 calls schedule _ _ (start_linearized w0 calls))
    as H.
  cbn [app] in H. fold s order in H.
  destruct H as (Hnd & Hret & Hdone & Hout & Hfresh & Hmx).
  split; [exact Hnd |]. split; [| split; [exact Hdone |]].
  { intros j. rewrite <- finished_Done. apply Hret. }
  split; [| split; [| split]].
  - intros Hm. now rewrite Hm in Hmx.
  - intros i Hm. now rewrite Hm in Hmx.
  - intros j Hj N. split; [now apply Hout | now apply Hfresh].
  - intros schedule1 schedule2 j i Hs Hj Hi Hin.
    exists (returned (start w0 calls) schedule1),
           (returned (exec (start w0 calls) schedule1) schedule2).
    assert (Ho : order = returned (start w0 calls) schedule1
                         ++ returned (exec (start w0 calls) schedule1) schedule2).
    { unfold order. rewrite Hs. apply returned_app. }
    split; [exact Ho |]. split.
    + pose proof (exec_linearized w0 calls schedule1 _ _ (start_linearized w0 calls))
        as H1.
      cbn [app] in H1. destruct H1 as (_ & Hret1 & _).
      apply Hret1, finished_Done, Hj.
    + rewrite Ho in Hin. apply in_app_or in Hin. destruct Hin as [Hin | Hin].
      * apply returned_scheduled in Hin. contradiction.
      * exact Hin.
Qed.

(** ** One by one is one of the interleavings *)

Lemma exec_oneByOne_responses (calls : nat -> Call) (n : nat) :
  forall k s,
    mutex s = None ->
    (forall j, (k <= j)%nat -> goroutine s j = Received (calls j)) ->
    mutex (exec s (oneByOne k n)) = None /\
    world (exec s (oneByOne k n)) = fst (run (world s) (map calls (seq k n))) /\
    map (goroutine (exec s (oneByOne k n))) (seq k n)
      = map Done (snd (run (world s) (map calls (seq k n)))) /\
    (forall j, (j < k)%nat -> goroutine (exec s (oneByOne k n)) j = goroutine s j).
Proof.
  induction n as [| n IH]; intros k s Hm Hg; [now repeat split |].
  rewrite oneByOne_S, exec_app.
  change (map calls (seq k (S n))) with (calls k :: map calls (seq (S k) n)).
  destruct (exec_repeat 7 k s) as (Hm1 & Hw1 & Ht1 & Ho).
  rewrite Hm, (Hg k (le_n k)), threadRun_alone in Hm1, Hw1, Ht1.
  cbn [fst snd] in Hm1, Hw1, Ht1.
  destruct (IH (S k) (exec s (repeat k 7)) Hm1) as (IHm & IHw & IHr & IHo).
  { intros j Hj. rewrite Ho by lia. apply Hg. lia. }
  split; [exact IHm |]. split; [| split].
  - rewrite IHw, Hw1. now rewrite run_cons.
  - cbn [seq map run]. rewrite IHr, (IHo k (Nat.lt_succ_diag_r k)), Ht1, Hw1.
    destruct (serve (world s) (calls k)) as [w1 resp]. cbn [fst snd].
    now destruct (run w1 (map calls (seq (S k) n))).
  - intros j Hj. rewrite IHo by lia. apply Ho. lia.
Qed.

(** X17: serving the requests one at a time is one of the schedules: when
    the scheduler lets goroutines 0, 1, ..., n - 1 run from beginning to end
    one after the other, the package state is the state after
    [classHandler] and [bookingHandler] have been applied to the calls in
    that order, each goroutine has finished with the response of its
    handler, and the mutex is free. *)
Theorem one_by_one_is_a_schedule (w0 : World) (calls : nat -> Call) (n : nat) :
  let s := exec (start w0 calls) (oneByOne 0 n) in
  mutex s = None /\
  world s = fst (run w0 (map calls (seq 0 n))) /\
  map (goroutine s) (seq 0 n) = map Done (snd (run w0 (map calls (seq 0 n)))).
Proof.
  intros s. subst s.
  destruct (exec_oneByOne_responses calls n 0 (start w0 calls) eq_refl)
    as (Hm & Hw & Hr & _); [reflexivity |].
  now repeat split.
Qed.

(** ** Identifiers under interleaving *)

Lemma countedIds_S (n : nat) :
  countedIds (S n) = countedIds n ++ [GoInt.wrap (1 + Z.of_nat n)].
Proof. unfold countedIds. now rewrite seq_S, map_app. Qed.

Lemma counter_next (n : nat) :
  GoInt.add (GoInt.wrap (1 + Z.of_nat n)) 1 = GoInt.wrap (1 + Z.of_nat (S n)).
Proof. unfold GoInt.add. rewrite wrap_add_l. f_equal. lia. Qed.

Lemma threadStep_idsCounted (i : nat) (m : option nat) (w : World) (t : Thread) :
  idsCounted w ->
  idsCounted (snd (fst (threadStep i m w t))) /\
  (List.length (classes (snd (fst (threadStep i m w t))))
   + List.length (bookings (snd (fst (threadStep i m w t))))
   <= S (List.length (classes w) + List.length (bookings w)))%nat.
Proof.
  intros (Hc & Hci & Hb & Hbi).
  destruct t as [[r ok | r ok] | ok c | ok c | ok c | ok b d | ok b d | ok b c
                 | ok b a | ok b a | resp | resp]; cbn [threadStep].
  - destruct (checkClass r); cbn [fst snd]; (split; [now repeat split | lia]).
  - destruct (checkBooking r) as [| []]; cbn [fst snd];
      (split; [now repeat split | lia]).
  - destruct m; cbn [fst snd]; (split; [now repeat split | lia]).
  - cbn [fst snd classes bookings classId bookingId]. unfold idsCounted.
    cbn [classes bookings classId bookingId].
    rewrite map_app, !length_app. cbn [map List.length storedClass Class_ID].
    rewrite Nat.add_1_r, countedIds_S, Hc, Hci, counter_next.
    split; [now repeat split | lia].
  - unfold writeDataToJsonFile. destruct ok; cbn [fst snd];
      (split; [now repeat split | cbn; lia]).
  - destruct m; cbn [fst snd]; (split; [now repeat split | lia]).
  - destruct (classFound _ _ _); cbn [fst snd]; (split; [now repeat split | lia]).
  - destruct (_ <=? 0); cbn [fst snd]; (split; [now repeat split | lia]).
  - cbn [fst snd classes bookings classId bookingId]. unfold idsCounted.
    cbn [classes bookings classId bookingId].
    rewrite map_app, !length_app. cbn [map List.length storedBooking Booking_ID].
    rewrite Nat.add_1_r, countedIds_S, Hb, Hbi, counter_next.
    split; [now repeat split | lia].
  - unfold writeDataToJsonFile. destruct ok; cbn [fst snd];
      (split; [now repeat split | cbn; lia]).
  - cbn [fst snd]. split; [now repeat split | lia].
  - cbn [fst snd]. split; [now repeat split | lia].
Qed.

Lemma exec_idsCounted (schedule : list nat) :
  forall s,
    idsCounted (world s) ->
    idsCounted (world (exec s schedule)) /\
    (List.length (classes (world (exec s schedule)))
     + List.length (bookings (world (exec s schedule)))
     <= List.length schedule
        + (List.length (classes (world s)) + List.length (bookings (world s))))%nat.
Proof.
  induction schedule as [| i rest IH]; intros s H; [split; [exact H | cbn; lia] |].
  cbn [exec List.length].
  destruct (threadStep_idsCounted i (mutex s) (world s) (goroutine s i) H) as [H1 L1].
  assert (Ew : world (step i s) = snd (fst (threadStep i (mutex s) (world s) (goroutine s i)))).
  { unfold step. now destruct (threadStep i (mutex s) (world s) (goroutine s i)) as [[? ?] ?]. }
  rewrite <- Ew in H1, L1. destruct (IH (step i s) H1) as [H2 L2].
  split; [exact H2 | lia].
Qed.

Lemma countedIds_small (n : nat) :
  Z.of_nat n < GoInt.maxInt -> countedIds n = idsFrom 1 n.
Proof.
  intros Hn. unfold countedIds, idsFrom. apply map_ext_in. intros j Hj.
  apply in_seq in Hj. apply wrap_small. unfold GoInt.minInt, GoInt.maxInt in *. lia.
Qed.

Lemma idsFrom_NoDup (from : Z) (n : nat) : NoDup (idsFrom from n).
Proof.
  unfold idsFrom. apply NoDup_map_NoDup_ForallPairs; [| apply seq_NoDup].
  intros i j _ _ E. lia.
Qed.

(** X18: no two goroutines are given the same identifier.  Start the server
    on empty files; whatever the requests and the interleaving, in every
    state reached the classes stored carry the identifiers 1, 2, 3, ... in
    the order of the slice, and so do the bookings; in particular the
    identifiers of a slice are pairwise distinct.  (The schedule is shorter
    than the range of [int].) *)
Theorem identifiers_under_interleaving (calls : nat -> Call) (schedule : list nat) :
  Z.of_nat (List.length schedule) < GoInt.maxInt ->
  let w := world (exec (start (main noFiles) calls) schedule) in
  map Class_ID (classes w) = idsFrom 1 (List.length (classes w)) /\
  map Booking_ID (bookings w) = idsFrom 1 (List.length (bookings w)) /\
  classId w = 1 + Z.of_nat (List.length (classes w)) /\
  bookingId w = 1 + Z.of_nat (List.length (bookings w)) /\
  NoDup (map Class_ID (classes w)) /\
  NoDup (map Booking_ID (bookings w)).
Proof.
  intros Hlen w. subst w.
  destruct (exec_idsCounted schedule (start (main noFiles) calls))
    as [(Hc & Hci & Hb & Hbi) L]; [now repeat split |].
  cbn [start world main classes bookings noFiles classes_json bookings_json List.length]
    in L.
  set (w := world (exec (start (main noFiles) calls) schedule)) in *.
  assert (Lc : Z.of_nat (List.length (classes w)) < GoInt.maxInt) by lia.
  assert (Lb : Z.of_nat (List.length (bookings w)) < GoInt.maxInt) by lia.
  rewrite Hc, Hb, Hci, Hbi, !countedIds_small by assumption.
  repeat split; try apply idsFrom_NoDup.
  - apply wrap_small. unfold GoInt.minInt, GoInt.maxInt in *. lia.
  - apply wrap_small. unfold GoInt.minInt, GoInt.maxInt in *. lia.
Qed.

(** Three goroutines booking the class of the capacity example at once. *)
Lemma identifiers_under_interleaving_witness :
  let pilates := mkClass 0 "Pilates" "01-12-2024" "20-12-2024" 2 in
  let rahul := mkBooking 0 "Rahul R P" "16-12-2024" "Pilates" in
  let calls := fun i : nat =>
                 match i with
                 | O => RegisterClass (post pilates) true
                 | _ => CreateBooking (post rahul) true
                 end in
  let schedule := repeat 0%nat 5 ++ List.concat (repeat [1; 2; 3]%nat 20) in
  let w := world (exec (start (main noFiles) calls) schedule) in
  map Booking_ID (bookings w) = [1; 2].
Proof.
  intros pilates rahul calls schedule w.
  pose proof (identifiers_under_interleaving calls schedule) as H.
  cbv zeta in H. fold w in H.
  destruct H as (_ & Hb & _); [vm_compute; reflexivity |].
  rewrite Hb. vm_compute. reflexivity.
Defined.

(** ** What the answer to a booking depends on *)

Lemma currentBookings_other_slot (bs : list Booking) (b b' : Booking) (id : Z) :
  Booking_ClassName b <> Booking_ClassName b' \/ Booking_Date b <> Booking_Date b' ->
  currentBookings (bs ++ [storedBooking id b]) b' 0 = currentBookings bs b' 0.
Proof.
  intros N. rewrite currentBookings_app. cbn [currentBookings storedBooking
    Booking_ClassName Booking_Date].
  destruct (String.eqb_spec (Booking_ClassName b) (Booking_ClassName b')) as [En | _];
    [| reflexivity].
  destruct (String.eqb_spec (Booking_Date b) (Booking_Date b')) as [Ed | _];
    [| reflexivity].
  destruct N; contradiction.
Qed.

(** X19: the capacity is per class name and per day.  Serving a booking
    request does not change the answer to a request for another class name
    or another date: the second request gets the same status, message and
    available slots as it would have got first (only the identifier given
    to its booking may differ). *)
Theorem slots_are_per_name_and_day
  (ok ok' : bool) (r r' : Request Booking) (w : World)
  (b b' : Booking) (d d' : time.Time) :
  bookingRequestOk r b d ->
  bookingRequestOk r' b' d' ->
  Booking_ClassName b <> Booking_ClassName b' \/ Booking_Date b <> Booking_Date b' ->
  verdict (snd (bookingHandler ok' r' (fst (bookingHandler ok r w)))) =
  verdict (snd (bookingHandler ok' r' w)).
Proof.
  intros Hok Hok' N.
  rewrite (bookingHandler_valid ok' r' w b' d' Hok').
  rewrite (bookingHandler_valid ok' r' _ b' d' Hok').
  rewrite (bookingHandler_valid ok r w b d Hok).
  destruct (classFound (classes w) b d) as [c |] eqn:Hf; cbn [fst]; [| reflexivity].
  destruct (slotsFor c b w <=? 0); cbn [fst]; [reflexivity |].
  cbn [withBooking classes].
  destruct (classFound (classes w) b' d') as [c' |]; [| reflexivity].
  assert (Es : slotsFor c' b' (withBooking ok b w) = slotsFor c' b' w).
  { unfold slotsFor. cbn [withBooking bookings].
    now rewrite (currentBookings_other_slot _ b b' _ N). }
  rewrite Es. destruct (slotsFor c' b' w <=? 0); [reflexivity |].
  destruct ok'; reflexivity.
Qed.

(** Pilates has one slot a day: a booking for the 16th leaves the 17th
    free. *)
Lemma slots_are_per_name_and_day_witness :
  let single := mkClass 1 "Pilates" "01-12-2024" "20-12-2024" 1 in
  let on16 := mkBooking 0 "Rahul R P" "16-12-2024" "Pilates" in
  let on17 := mkBooking 0 "Rahul R P" "17-12-2024" "Pilates" in
  let w := main {| classes_json := [single]; bookings_json := [] |} in
  verdict (snd (bookingHandler true (post on17)
                  (fst (bookingHandler true (post on16) w)))) =
  verdict (snd (bookingHandler true (post on17) w)).
Proof.
  intros single on16 on17 w.
  apply (slots_are_per_name_and_day true true (post on16) (post on17) w
           on16 on17 (time.Date 2024 12 16) (time.Date 2024 12 17)).
  - repeat split; discriminate.
  - repeat split; discriminate.
  - right. discriminate.
Defined.

(** X20: who books does not matter.  Two requests for the same class name
    and date get the same status, message and available slots whatever
    their (non-empty) member names: the handler never looks at the members
    of the bookings stored, nor at the member of the request beyond its
    being there. *)
Theorem answer_is_blind_to_member
  (ok : bool) (r r' : Request Booking) (w : World) (b b' : Booking)
  (d d' : time.Time) :
  bookingRequestOk r b d ->
  bookingRequestOk r' b' d' ->
  Booking_ClassName b = Booking_ClassName b' ->
  Booking_Date b = Booking_Date b' ->
  fst (fst (verdict (snd (bookingHandler ok r w)))) =
    fst (fst (verdict (snd (bookingHandler ok r' w)))) /\
  snd (fst (verdict (snd (bookingHandler ok r w)))) =
    snd (fst (verdict (snd (bookingHandler ok r' w)))) /\
  option_map snd (snd (verdict (snd (bookingHandler ok r w)))) =
    option_map snd (snd (verdict (snd (bookingHandler ok r' w)))).
Proof.
  intros Hok Hok' En Ed.
  assert (Edd : d' = d).
  { destruct Hok as (_ & _ & _ & _ & _ & P). destruct Hok' as (_ & _ & _ & _ & _ & P').
    rewrite <- Ed, P in P'. now injection P' as <-. }
  subst d'.
  rewrite (bookingHandler_valid ok r w b d Hok), (bookingHandler_valid ok r' w b' d Hok').
  rewrite (classFound_name (classes w) b b' d En).
  destruct (classFound (classes w) b' d) as [c |]; [| now repeat split].
  unfold slotsFor. rewrite (currentBookings_same_slot (bookings w) b b' 0 En Ed).
  destruct (_ <=? 0); [now repeat split |]. destruct ok; now repeat split.
Qed.

(** Rahul and Jane ask for the same slot. *)
Lemma answer_is_blind_to_member_witness :
  let pilates := mkClass 1 "Pilates" "01-12-2024" "20-12-2024" 10 in
  let rahul := mkBooking 0 "Rahul R P" "16-12-2024" "Pilates" in
  let jane := mkBooking 0 "Jane Doe" "16-12-2024" "Pilates" in
  let w := main {| classes_json := [pilates]; bookings_json := [] |} in
  option_map snd (snd (verdict (snd (bookingHandler true (post rahul) w)))) =
  option_map snd (snd (verdict (snd (bookingHandler true (post jane) w)))).
Proof.
  intros pilates rahul jane w.
  apply (answer_is_blind_to_member true (post rahul) (post jane) w rahul jane
           (time.Date 2024 12 16) (time.Date 2024 12 16)).
  - repeat split; discriminate.
  - repeat split; discriminate.
  - reflexivity.
  - reflexivity.
Defined.

(** X21: registering a class never changes the answer to a booking request
    that already finds a class: the class first found keeps governing, with
    its capacity, so the response (identifier included) is the same before
    and after the registration, whatever class is registered. *)
Theorem registration_leaves_answers
  (ok ok' : bool) (rc : Request Class) (r : Request Booking) (w : World)
  (b : Booking) (d : time.Time) (c : Class) :
  bookingRequestOk r b d ->
  classFound (classes w) b d = Some c ->
  snd (bookingHandler ok r (fst (classHandler ok' rc w))) = snd (bookingHandler ok r w).
Proof.
  intros Hok Hf.
  rewrite (bookingHandler_valid ok r w b d Hok), Hf.
  rewrite (bookingHandler_valid ok r _ b d Hok).
  destruct (classHandler_outcome ok' rc w) as [| c' s e Hok']; cbn [fst].
  - now rewrite Hf.
  - cbn [withClass classes]. rewrite classFound_app, Hf.
    change (slotsFor c b (withClass ok' c' w)) with (slotsFor c b w).
    destruct (_ <=? 0); [reflexivity |].
    cbn [snd]. destruct ok; reflexivity.
Qed.

(** Pilates with one slot is full; a second Pilates with twenty slots is
    registered: the booking is refused as before. *)
Lemma registration_leaves_answers_witness :
  let single := mkClass 1 "Pilates" "01-12-2024" "20-12-2024" 1 in
  let wide := mkClass 0 "Pilates" "01-12-2024" "20-12-2024" 20 in
  let rahul := mkBooking 0 "Rahul R P" "16-12-2024" "Pilates" in
  let w := main {| classes_json := [single];
                   bookings_json := [mkBooking 1 "Jane Doe" "16-12-2024" "Pilates"] |} in
  snd (bookingHandler true (post rahul) (fst (classHandler true (post wide) w)))
  = snd (bookingHandler true (post rahul) w).
Proof.
  intros single wide rahul w.
  apply (registration_leaves_answers true true (post wide) (post rahul) w rahul
           (time.Date 2024 12 16) single).
  - repeat split; discriminate.
  - reflexivity.
Defined.
